(** * statusnotifier: a shallow embedding of [src/statusnotifier.c]

    The item object of the StatusNotifierItem protocol: its private
    state, the setters with their local and DBus notifications, the icon
    pixmap encoder, the DBus property and method handlers and the
    registration callbacks.

    Conventions of the embedding.
    - The private structure [StatusNotifierItemPrivate] is the record
      [Priv]; C integers are [Z], with the wrap-around of [guint] written
      out; C strings are [option string], [None] being the NULL pointer.
    - A function of the C file is a computation of the monad [M]: it
      reads and writes the item state and appends the calls it makes to
      GLib, GIO and GObject to an effect trace, in program order.
    - [g_return_if_fail (STATUS_NOTIFIER_IS_ITEM (sn))] checks the dynamic
      type of the pointer; an item of the embedding is always an item, so
      the check always passes and is not written.
    - String and pixbuf ownership ([g_strdup], [g_free], [g_object_ref] of
      a pixbuf) is not part of the trace: values are immutable here.
    - The build without the optional dbusmenu glue ([USE_DBUSMENU] unset)
      is the one embedded. *)

From Stdlib Require Import ZArith List String Ascii Bool Lia.
From Stdlib Require DecimalString DecimalN.
From stdpp Require Import base list.

Import ListNotations.
Local Open Scope string_scope.
Local Open Scope list_scope.
Local Open Scope Z_scope.

(** ** Enumerations of the public header *)

(** Modelled from the spec: [StatusNotifierCategory] of statusnotifier.h
    (the header is not part of the sources); the order is the one of the
    label table [s_category] in [get_prop]. *)
Inductive StatusNotifierCategory :=
| STATUS_NOTIFIER_CATEGORY_APPLICATION_STATUS
| STATUS_NOTIFIER_CATEGORY_COMMUNICATIONS
| STATUS_NOTIFIER_CATEGORY_SYSTEM_SERVICES
| STATUS_NOTIFIER_CATEGORY_HARDWARE.

(** Modelled from the spec: [StatusNotifierStatus] of statusnotifier.h;
    the order is the one of the label table [s_status]. *)
Inductive StatusNotifierStatus :=
| STATUS_NOTIFIER_STATUS_PASSIVE
| STATUS_NOTIFIER_STATUS_ACTIVE
| STATUS_NOTIFIER_STATUS_NEEDS_ATTENTION.

(** Modelled from the spec: [StatusNotifierIcon] of statusnotifier.h; the
    order is the one of the tables [prop_name_from_icon] and
    [prop_pixbuf_from_icon]. *)
Inductive StatusNotifierIcon :=
| STATUS_NOTIFIER_ICON
| STATUS_NOTIFIER_ATTENTION_ICON
| STATUS_NOTIFIER_OVERLAY_ICON
| STATUS_NOTIFIER_TOOLTIP_ICON.

(** Modelled from the spec: [StatusNotifierState] of statusnotifier.h. *)
Inductive StatusNotifierState :=
| STATUS_NOTIFIER_STATE_NOT_REGISTERED
| STATUS_NOTIFIER_STATE_REGISTERING
| STATUS_NOTIFIER_STATE_REGISTERED
| STATUS_NOTIFIER_STATE_FAILED.

(** Modelled from the spec: [StatusNotifierScrollOrientation] of
    statusnotifier.h. *)
Inductive StatusNotifierScrollOrientation :=
| STATUS_NOTIFIER_SCROLL_ORIENTATION_HORIZONTAL
| STATUS_NOTIFIER_SCROLL_ORIENTATION_VERTICAL.

(** Modelled from the spec: the codes of [STATUS_NOTIFIER_ERROR] of
    statusnotifier.h. *)
Inductive StatusNotifierError :=
| STATUS_NOTIFIER_ERROR_NO_CONNECTION
| STATUS_NOTIFIER_ERROR_NO_NAME
| STATUS_NOTIFIER_ERROR_NO_WATCHER
| STATUS_NOTIFIER_ERROR_NO_HOST.

(** The property identifiers, the first [enum] of the file. *)
Inductive prop_id :=
| PROP_0
| PROP_ID
| PROP_TITLE
| PROP_CATEGORY
| PROP_STATUS
| PROP_MAIN_ICON_NAME
| PROP_MAIN_ICON_PIXBUF
| PROP_OVERLAY_ICON_NAME
| PROP_OVERLAY_ICON_PIXBUF
| PROP_ATTENTION_ICON_NAME
| PROP_ATTENTION_ICON_PIXBUF
| PROP_ATTENTION_MOVIE_NAME
| PROP_TOOLTIP_ICON_NAME
| PROP_TOOLTIP_ICON_PIXBUF
| PROP_TOOLTIP_TITLE
| PROP_TOOLTIP_BODY
| PROP_ITEM_IS_MENU
| PROP_MENU
| PROP_WINDOW_ID
| PROP_STATE
| PROP_REGISTER_NAME_ON_BUS.

Definition prop_name_from_icon (icon : StatusNotifierIcon) : prop_id :=
  match icon with
  | STATUS_NOTIFIER_ICON => PROP_MAIN_ICON_NAME
  | STATUS_NOTIFIER_ATTENTION_ICON => PROP_ATTENTION_ICON_NAME
  | STATUS_NOTIFIER_OVERLAY_ICON => PROP_OVERLAY_ICON_NAME
  | STATUS_NOTIFIER_TOOLTIP_ICON => PROP_TOOLTIP_ICON_NAME
  end.

Definition prop_pixbuf_from_icon (icon : StatusNotifierIcon) : prop_id :=
  match icon with
  | STATUS_NOTIFIER_ICON => PROP_MAIN_ICON_PIXBUF
  | STATUS_NOTIFIER_ATTENTION_ICON => PROP_ATTENTION_ICON_PIXBUF
  | STATUS_NOTIFIER_OVERLAY_ICON => PROP_OVERLAY_ICON_PIXBUF
  | STATUS_NOTIFIER_TOOLTIP_ICON => PROP_TOOLTIP_ICON_PIXBUF
  end.

(** The signals of the item object, the second [enum] of the file. *)
Inductive signal_id :=
| SIGNAL_REGISTRATION_FAILED
| SIGNAL_CONTEXT_MENU
| SIGNAL_ACTIVATE
| SIGNAL_SECONDARY_ACTIVATE
| SIGNAL_SCROLL.

(** ** Objects of the libraries the file is written against *)

(** A [GdkPixbuf], by what the encoder asks of it: its dimensions and the
    ARGB32 image surface cairo paints from it, as the array of [guint]
    pixel words the encoder walks ([pixbuf_argb], row after row, each
    word a native 32-bit value with alpha in the top byte). *)
Record GdkPixbuf := mkPixbuf {
  pixbuf_width : Z;
  pixbuf_height : Z;
  pixbuf_argb : list Z
}.

Record GDBusConnection := mkConn {
  conn_id : positive;
  conn_unique_name : string
}.

(** The proxy of the watcher: the connection it lives on and its cached
    property [IsStatusNotifierHostRegistered] ([None]: not cached). *)
Record GDBusProxy := mkProxy {
  proxy_id : positive;
  proxy_connection : GDBusConnection;
  proxy_host_registered : option bool
}.

Inductive GError :=
| StatusNotifierErr (code : StatusNotifierError) (message : string)
| GioErr.

Inductive signal_args :=
| ArgsError (e : option GError)
| ArgsXY (x y : Z)
| ArgsScroll (delta : Z) (orientation : StatusNotifierScrollOrientation).

(** The calls the file makes to its libraries, as the trace records
    them. *)
Inductive effect :=
| Notify (prop : prop_id)
| GSignalEmit (signal : signal_id) (args : signal_args)
| DBusEmitSignal (conn : option GDBusConnection) (signal : string)
                 (params : option string)
| BusWatchName (name : string) (id : Z)
| BusUnwatchName (id : Z)
| SignalConnect (proxy : option GDBusProxy) (detailed : string) (id : Z)
| SignalHandlerDisconnect (proxy : option GDBusProxy) (id : Z)
| BusOwnName (name : string) (id : Z)
| BusUnownName (id : Z)
| ProxyNewForBus (name object interface : string)
| ProxyCall (proxy : option GDBusProxy) (method : string) (arg : option string)
| ProxyUnref (proxy : option GDBusProxy)
| RegisterObject (conn : option GDBusConnection) (object : string) (id : Z)
| UnregisterObject (conn : option GDBusConnection) (id : Z)
| ConnectionUnref (conn : GDBusConnection)
| FileTest (path : string)
| MethodReturn
| GCritical.

(** ** The private structure *)

(** One cell of the array [icon]: the flag and the anonymous union. The
    union holds one pointer; the embedding keeps which member was stored
    last, so that reading the other member is visible. *)
Inductive icon_union :=
| U_icon_name (icon_name : option string)
| U_pixbuf (pixbuf : option GdkPixbuf).

Record icon_cell := mkIcon {
  has_pixbuf : bool;
  icon_u : icon_union
}.

Record icon_array := mkIcons {
  icon_main : icon_cell;
  icon_attention : icon_cell;
  icon_overlay : icon_cell;
  icon_tooltip : icon_cell
}.

Definition icon_get (a : icon_array) (icon : StatusNotifierIcon) : icon_cell :=
  match icon with
  | STATUS_NOTIFIER_ICON => icon_main a
  | STATUS_NOTIFIER_ATTENTION_ICON => icon_attention a
  | STATUS_NOTIFIER_OVERLAY_ICON => icon_overlay a
  | STATUS_NOTIFIER_TOOLTIP_ICON => icon_tooltip a
  end.

Definition icon_set (a : icon_array) (icon : StatusNotifierIcon) (c : icon_cell)
  : icon_array :=
  match icon with
  | STATUS_NOTIFIER_ICON =>
      mkIcons c (icon_attention a) (icon_overlay a) (icon_tooltip a)
  | STATUS_NOTIFIER_ATTENTION_ICON =>
      mkIcons (icon_main a) c (icon_overlay a) (icon_tooltip a)
  | STATUS_NOTIFIER_OVERLAY_ICON =>
      mkIcons (icon_main a) (icon_attention a) c (icon_tooltip a)
  | STATUS_NOTIFIER_TOOLTIP_ICON =>
      mkIcons (icon_main a) (icon_attention a) (icon_overlay a) c
  end.

(** The member [icon_name] of the union, read as a string pointer. *)
Definition union_icon_name (u : icon_union) : option string :=
  match u with
  | U_icon_name s => s
  | U_pixbuf _ => None
  end.

(** The member [pixbuf] of the union, read as a pixbuf pointer. *)
Definition union_pixbuf (u : icon_union) : option GdkPixbuf :=
  match u with
  | U_pixbuf p => p
  | U_icon_name _ => None
  end.

Record Priv := mkPriv {
  id : option string;
  category : StatusNotifierCategory;
  title : option string;
  status : StatusNotifierStatus;
  icon : icon_array;
  attention_movie_name : option string;
  tooltip_title : option string;
  tooltip_body : option string;
  window_id : Z;
  item_is_menu : bool;
  tooltip_freeze : Z;
  state : StatusNotifierState;
  dbus_watch_id : Z;
  dbus_sid : Z;
  dbus_owner_id : Z;
  dbus_reg_id : Z;
  register_bus_name : Z;
  dbus_proxy : option GDBusProxy;
  dbus_conn : option GDBusConnection
}.

(** What the process and the session bus answer to the item. *)
Record Env := mkEnv {
  env_pid : Z;
  env_flatpak_info : bool;
  env_register_object_ok : bool
}.

(** The state a function of the file runs in: the private structure of
    the item at hand, the file-level counter [uniq_id], the next handle
    GLib hands out (watch, owner, registration and signal-handler ids are
    positive), and the environment. *)
Record St := mkSt {
  priv : Priv;
  uniq_id : Z;
  next_handle : positive;
  env : Env
}.

(** ** The monad of the embedding: state and trace *)

Definition M (A : Type) : Type := St -> A * St * list effect.

Definition M_ret {A} (a : A) : M A := fun s => (a, s, []).

Definition M_bind {A B} (f : A -> M B) (m : M A) : M B :=
  fun s =>
    let '(a, s1, t1) := m s in
    let '(b, s2, t2) := f a s1 in
    (b, s2, t1 ++ t2).

#[global] Instance M_mret : MRet M := @M_ret.
#[global] Instance M_mbind : MBind M := @M_bind.

Definition get_priv : M Priv := fun s => (priv s, s, []).

Definition modify_priv (f : Priv -> Priv) : M unit :=
  fun s => (tt, mkSt (f (priv s)) (uniq_id s) (next_handle s) (env s), []).

Definition get_env : M Env := fun s => (env s, s, []).

Definition emit (e : effect) : M unit := fun s => (tt, s, [e]).

(** A handle returned by GLib: positive, and not handed out before. *)
Definition fresh_handle : M Z :=
  fun s => (Z.pos (next_handle s),
            mkSt (priv s) (uniq_id s) (Pos.succ (next_handle s)) (env s), []).

(** [++uniq_id] on the [static guint]. *)
Definition incr_uniq_id : M Z :=
  fun s => let u := (uniq_id s + 1) mod 2 ^ 32 in
           (u, mkSt (priv s) u (next_handle s) (env s), []).

Definition run {A} (m : M A) (s : St) : St := snd (fst (m s)).
Definition trace {A} (m : M A) (s : St) : list effect := snd (m s).
Definition result {A} (m : M A) (s : St) : A := fst (fst (m s)).

(** The macro [notify (sn, prop)]. *)
Definition notify (prop : prop_id) : M unit := emit (Notify prop).

(** Assignments to one member of the private structure. *)
Definition assign_title (v : option string) (p : Priv) : Priv :=
  mkPriv (id p) (category p) v (status p) (icon p) (attention_movie_name p)
    (tooltip_title p) (tooltip_body p) (window_id p) (item_is_menu p)
    (tooltip_freeze p) (state p) (dbus_watch_id p) (dbus_sid p) (dbus_owner_id
    p) (dbus_reg_id p) (register_bus_name p) (dbus_proxy p) (dbus_conn p).

Definition assign_status (v : StatusNotifierStatus) (p : Priv) : Priv :=
  mkPriv (id p) (category p) (title p) v (icon p) (attention_movie_name p)
    (tooltip_title p) (tooltip_body p) (window_id p) (item_is_menu p)
    (tooltip_freeze p) (state p) (dbus_watch_id p) (dbus_sid p) (dbus_owner_id
    p) (dbus_reg_id p) (register_bus_name p) (dbus_proxy p) (dbus_conn p).

Definition assign_icon (v : icon_array) (p : Priv) : Priv :=
  mkPriv (id p) (category p) (title p) (status p) v (attention_movie_name p)
    (tooltip_title p) (tooltip_body p) (window_id p) (item_is_menu p)
    (tooltip_freeze p) (state p) (dbus_watch_id p) (dbus_sid p) (dbus_owner_id
    p) (dbus_reg_id p) (register_bus_name p) (dbus_proxy p) (dbus_conn p).

Definition assign_attention_movie_name (v : option string) (p : Priv) : Priv :=
  mkPriv (id p) (category p) (title p) (status p) (icon p) v (tooltip_title
    p) (tooltip_body p) (window_id p) (item_is_menu p) (tooltip_freeze p)
    (state p) (dbus_watch_id p) (dbus_sid p) (dbus_owner_id p) (dbus_reg_id p)
    (register_bus_name p) (dbus_proxy p) (dbus_conn p).

Definition assign_tooltip_title (v : option string) (p : Priv) : Priv :=
  mkPriv (id p) (category p) (title p) (status p) (icon p)
    (attention_movie_name p) v (tooltip_body p) (window_id p) (item_is_menu p)
    (tooltip_freeze p) (state p) (dbus_watch_id p) (dbus_sid p) (dbus_owner_id
    p) (dbus_reg_id p) (register_bus_name p) (dbus_proxy p) (dbus_conn p).

Definition assign_tooltip_body (v : option string) (p : Priv) : Priv :=
  mkPriv (id p) (category p) (title p) (status p) (icon p)
    (attention_movie_name p) (tooltip_title p) v (window_id p) (item_is_menu
    p) (tooltip_freeze p) (state p) (dbus_watch_id p) (dbus_sid p)
    (dbus_owner_id p) (dbus_reg_id p) (register_bus_name p) (dbus_proxy p)
    (dbus_conn p).

Definition assign_window_id (v : Z) (p : Priv) : Priv :=
  mkPriv (id p) (category p) (title p) (status p) (icon p)
    (attention_movie_name p) (tooltip_title p) (tooltip_body p) v
    (item_is_menu p) (tooltip_freeze p) (state p) (dbus_watch_id p) (dbus_sid
    p) (dbus_owner_id p) (dbus_reg_id p) (register_bus_name p) (dbus_proxy p)
    (dbus_conn p).

Definition assign_item_is_menu (v : bool) (p : Priv) : Priv :=
  mkPriv (id p) (category p) (title p) (status p) (icon p)
    (attention_movie_name p) (tooltip_title p) (tooltip_body p) (window_id p)
    v (tooltip_freeze p) (state p) (dbus_watch_id p) (dbus_sid p)
    (dbus_owner_id p) (dbus_reg_id p) (register_bus_name p) (dbus_proxy p)
    (dbus_conn p).

Definition assign_tooltip_freeze (v : Z) (p : Priv) : Priv :=
  mkPriv (id p) (category p) (title p) (status p) (icon p)
    (attention_movie_name p) (tooltip_title p) (tooltip_body p) (window_id p)
    (item_is_menu p) v (state p) (dbus_watch_id p) (dbus_sid p) (dbus_owner_id
    p) (dbus_reg_id p) (register_bus_name p) (dbus_proxy p) (dbus_conn p).

Definition assign_state (v : StatusNotifierState) (p : Priv) : Priv :=
  mkPriv (id p) (category p) (title p) (status p) (icon p)
    (attention_movie_name p) (tooltip_title p) (tooltip_body p) (window_id p)
    (item_is_menu p) (tooltip_freeze p) v (dbus_watch_id p) (dbus_sid p)
    (dbus_owner_id p) (dbus_reg_id p) (register_bus_name p) (dbus_proxy p)
    (dbus_conn p).

Definition assign_dbus_watch_id (v : Z) (p : Priv) : Priv :=
  mkPriv (id p) (category p) (title p) (status p) (icon p)
    (attention_movie_name p) (tooltip_title p) (tooltip_body p) (window_id p)
    (item_is_menu p) (tooltip_freeze p) (state p) v (dbus_sid p)
    (dbus_owner_id p) (dbus_reg_id p) (register_bus_name p) (dbus_proxy p)
    (dbus_conn p).

Definition assign_dbus_sid (v : Z) (p : Priv) : Priv :=
  mkPriv (id p) (category p) (title p) (status p) (icon p)
    (attention_movie_name p) (tooltip_title p) (tooltip_body p) (window_id p)
    (item_is_menu p) (tooltip_freeze p) (state p) (dbus_watch_id p) v
    (dbus_owner_id p) (dbus_reg_id p) (register_bus_name p) (dbus_proxy p)
    (dbus_conn p).

Definition assign_dbus_owner_id (v : Z) (p : Priv) : Priv :=
  mkPriv (id p) (category p) (title p) (status p) (icon p)
    (attention_movie_name p) (tooltip_title p) (tooltip_body p) (window_id p)
    (item_is_menu p) (tooltip_freeze p) (state p) (dbus_watch_id p) (dbus_sid
    p) v (dbus_reg_id p) (register_bus_name p) (dbus_proxy p) (dbus_conn p).

Definition assign_dbus_reg_id (v : Z) (p : Priv) : Priv :=
  mkPriv (id p) (category p) (title p) (status p) (icon p)
    (attention_movie_name p) (tooltip_title p) (tooltip_body p) (window_id p)
    (item_is_menu p) (tooltip_freeze p) (state p) (dbus_watch_id p) (dbus_sid
    p) (dbus_owner_id p) v (register_bus_name p) (dbus_proxy p) (dbus_conn p).

Definition assign_register_bus_name (v : Z) (p : Priv) : Priv :=
  mkPriv (id p) (category p) (title p) (status p) (icon p)
    (attention_movie_name p) (tooltip_title p) (tooltip_body p) (window_id p)
    (item_is_menu p) (tooltip_freeze p) (state p) (dbus_watch_id p) (dbus_sid
    p) (dbus_owner_id p) (dbus_reg_id p) v (dbus_proxy p) (dbus_conn p).

Definition assign_dbus_proxy (v : option GDBusProxy) (p : Priv) : Priv :=
  mkPriv (id p) (category p) (title p) (status p) (icon p)
    (attention_movie_name p) (tooltip_title p) (tooltip_body p) (window_id p)
    (item_is_menu p) (tooltip_freeze p) (state p) (dbus_watch_id p) (dbus_sid
    p) (dbus_owner_id p) (dbus_reg_id p) (register_bus_name p) v (dbus_conn
    p).

Definition assign_dbus_conn (v : option GDBusConnection) (p : Priv) : Priv :=
  mkPriv (id p) (category p) (title p) (status p) (icon p)
    (attention_movie_name p) (tooltip_title p) (tooltip_body p) (window_id p)
    (item_is_menu p) (tooltip_freeze p) (state p) (dbus_watch_id p) (dbus_sid
    p) (dbus_owner_id p) (dbus_reg_id p) (register_bus_name p) (dbus_proxy p)
    v.


Definition priv_icon (p : Priv) (i : StatusNotifierIcon) : icon_cell :=
  icon_get (icon p) i.

Definition assign_icon_cell (i : StatusNotifierIcon) (c : icon_cell) (p : Priv)
  : Priv :=
  assign_icon (icon_set (icon p) i c) p.

Definition assign_has_pixbuf (i : StatusNotifierIcon) (b : bool) (p : Priv)
  : Priv :=
  assign_icon_cell i (mkIcon b (icon_u (priv_icon p i))) p.

Definition assign_icon_u (i : StatusNotifierIcon) (u : icon_union) (p : Priv)
  : Priv :=
  assign_icon_cell i (mkIcon (has_pixbuf (priv_icon p i)) u) p.

(** [icon != STATUS_NOTIFIER_TOOLTIP_ICON]. *)
Definition not_tooltip_icon (icon : StatusNotifierIcon) : bool :=
  match icon with
  | STATUS_NOTIFIER_TOOLTIP_ICON => false
  | _ => true
  end.

(** Modelled from the spec: the names of interfaces.h (not part of the
    sources), which are those of the org.kde flavour of the protocol the
    header comment of the file refers to. *)
Definition WATCHER_NAME : string := "org.kde.StatusNotifierWatcher".
Definition WATCHER_OBJECT : string := "/StatusNotifierWatcher".
Definition WATCHER_INTERFACE : string := "org.kde.StatusNotifierWatcher".
Definition ITEM_OBJECT : string := "/StatusNotifierItem".
Definition ITEM_INTERFACE : string := "org.kde.StatusNotifierItem".

(** ** Item state: release helpers and the DBus change signals *)

Definition free_icon (icon : StatusNotifierIcon) : M unit :=
  modify_priv (assign_has_pixbuf icon false);;
  modify_priv (assign_icon_u icon (U_icon_name None)).

Definition dbus_free : M unit :=
  p ← get_priv;
  (if 0 <? dbus_watch_id p then
     emit (BusUnwatchName (dbus_watch_id p));;
     modify_priv (assign_dbus_watch_id 0)
   else mret tt);;
  p ← get_priv;
  (if 0 <? dbus_sid p then
     emit (SignalHandlerDisconnect (dbus_proxy p) (dbus_sid p));;
     modify_priv (assign_dbus_sid 0)
   else mret tt);;
  p ← get_priv;
  (if 0 <? dbus_owner_id p then
     emit (BusUnownName (dbus_owner_id p));;
     modify_priv (assign_dbus_owner_id 0)
   else mret tt);;
  p ← get_priv;
  (match dbus_proxy p with
   | Some proxy =>
       emit (ProxyUnref (Some proxy));;
       modify_priv (assign_dbus_proxy None)
   | None => mret tt
   end);;
  p ← get_priv;
  (if 0 <? dbus_reg_id p then
     emit (UnregisterObject (dbus_conn p) (dbus_reg_id p));;
     modify_priv (assign_dbus_reg_id 0)
   else mret tt);;
  p ← get_priv;
  match dbus_conn p with
  | Some conn =>
      emit (ConnectionUnref conn);;
      modify_priv (assign_dbus_conn None)
  | None => mret tt
  end.

(** The label table [s_status], indexed by the status. *)
Definition s_status (s : StatusNotifierStatus) : string :=
  match s with
  | STATUS_NOTIFIER_STATUS_PASSIVE => "Passive"
  | STATUS_NOTIFIER_STATUS_ACTIVE => "Active"
  | STATUS_NOTIFIER_STATUS_NEEDS_ATTENTION => "NeedsAttention"
  end.

(** The label table [s_category], indexed by the category. *)
Definition s_category (c : StatusNotifierCategory) : string :=
  match c with
  | STATUS_NOTIFIER_CATEGORY_APPLICATION_STATUS => "ApplicationStatus"
  | STATUS_NOTIFIER_CATEGORY_COMMUNICATIONS => "Communications"
  | STATUS_NOTIFIER_CATEGORY_SYSTEM_SERVICES => "SystemServices"
  | STATUS_NOTIFIER_CATEGORY_HARDWARE => "Hardware"
  end.

(** The [switch] of [dbus_notify] for the payload-less signals: the name
    left in the local [signal], [None] for the [default:] label. *)
Definition dbus_notify_signal (prop : prop_id) : option string :=
  match prop with
  | PROP_TITLE => Some "NewTitle"
  | PROP_MAIN_ICON_NAME | PROP_MAIN_ICON_PIXBUF => Some "NewIcon"
  | PROP_ATTENTION_ICON_NAME | PROP_ATTENTION_ICON_PIXBUF =>
      Some "NewAttentionIcon"
  | PROP_OVERLAY_ICON_NAME | PROP_OVERLAY_ICON_PIXBUF => Some "NewOverlayIcon"
  | PROP_TOOLTIP_TITLE | PROP_TOOLTIP_BODY
  | PROP_TOOLTIP_ICON_NAME | PROP_TOOLTIP_ICON_PIXBUF => Some "NewToolTip"
  | _ => None
  end.

Definition dbus_notify (prop : prop_id) : M unit :=
  p ← get_priv;
  match state p with
  | STATUS_NOTIFIER_STATE_REGISTERED =>
      match prop with
      | PROP_STATUS =>
          emit (DBusEmitSignal (dbus_conn p) "NewStatus"
                  (Some (s_status (status p))))
      | _ =>
          match dbus_notify_signal prop with
          | Some signal => emit (DBusEmitSignal (dbus_conn p) signal None)
          | None => emit GCritical
          end
      end
  | _ => mret tt
  end.

(** ** Item state: the public setters and getters *)

Definition status_notifier_item_set_from_pixbuf
    (icon : StatusNotifierIcon) (pixbuf : option GdkPixbuf) : M unit :=
  free_icon icon;;
  modify_priv (assign_has_pixbuf icon true);;
  modify_priv (assign_icon_u icon (U_pixbuf pixbuf));;
  notify (prop_name_from_icon icon);;
  p ← get_priv;
  if not_tooltip_icon icon || (tooltip_freeze p =? 0)
  then dbus_notify (prop_name_from_icon icon)
  else mret tt.

Definition status_notifier_item_set_from_icon_name
    (icon : StatusNotifierIcon) (icon_name : option string) : M unit :=
  free_icon icon;;
  modify_priv (assign_icon_u icon (U_icon_name icon_name));;
  notify (prop_pixbuf_from_icon icon);;
  p ← get_priv;
  if not_tooltip_icon icon || (tooltip_freeze p =? 0)
  then dbus_notify (prop_name_from_icon icon)
  else mret tt.

Definition status_notifier_item_has_pixbuf
    (p : Priv) (icon : StatusNotifierIcon) : bool :=
  has_pixbuf (priv_icon p icon).

Definition status_notifier_item_get_pixbuf
    (p : Priv) (icon : StatusNotifierIcon) : option GdkPixbuf :=
  if negb (has_pixbuf (priv_icon p icon)) then None
  else union_pixbuf (icon_u (priv_icon p icon)).

Definition status_notifier_item_get_icon_name
    (p : Priv) (icon : StatusNotifierIcon) : option string :=
  if has_pixbuf (priv_icon p icon) then None
  else union_icon_name (icon_u (priv_icon p icon)).

Definition status_notifier_item_set_attention_movie_name
    (movie_name : option string) : M unit :=
  modify_priv (assign_attention_movie_name movie_name);;
  notify PROP_ATTENTION_MOVIE_NAME.

Definition status_notifier_item_set_title (title : option string) : M unit :=
  modify_priv (assign_title title);;
  notify PROP_TITLE;;
  dbus_notify PROP_TITLE.

Definition status_notifier_item_set_status (status : StatusNotifierStatus)
  : M unit :=
  modify_priv (assign_status status);;
  notify PROP_STATUS;;
  dbus_notify PROP_STATUS.

Definition status_notifier_item_set_window_id (window_id : Z) : M unit :=
  modify_priv (assign_window_id window_id);;
  notify PROP_WINDOW_ID.

Definition status_notifier_item_set_item_is_menu (is_menu : bool) : M unit :=
  modify_priv (assign_item_is_menu is_menu).

(** [++priv->tooltip_freeze], on a [guint]. *)
Definition incr_tooltip_freeze (p : Priv) : Priv :=
  assign_tooltip_freeze ((tooltip_freeze p + 1) mod 2 ^ 32) p.

(** [--priv->tooltip_freeze], on a [guint]. *)
Definition decr_tooltip_freeze (p : Priv) : Priv :=
  assign_tooltip_freeze ((tooltip_freeze p - 1) mod 2 ^ 32) p.

Definition status_notifier_item_freeze_tooltip : M unit :=
  modify_priv incr_tooltip_freeze.

Definition status_notifier_item_thaw_tooltip : M unit :=
  p ← get_priv;
  if negb (0 <? tooltip_freeze p) then emit GCritical
  else
    modify_priv decr_tooltip_freeze;;
    p ← get_priv;
    if tooltip_freeze p =? 0 then dbus_notify PROP_TOOLTIP_TITLE else mret tt.

Definition status_notifier_item_set_tooltip_title (title : option string)
  : M unit :=
  modify_priv (assign_tooltip_title title);;
  notify PROP_TOOLTIP_TITLE;;
  p ← get_priv;
  if tooltip_freeze p =? 0 then dbus_notify PROP_TOOLTIP_TITLE else mret tt.

Definition status_notifier_item_set_tooltip_body (body : option string)
  : M unit :=
  modify_priv (assign_tooltip_body body);;
  notify PROP_TOOLTIP_BODY;;
  p ← get_priv;
  if tooltip_freeze p =? 0 then dbus_notify PROP_TOOLTIP_BODY else mret tt.

Definition status_notifier_item_set_tooltip
    (icon_name title body : option string) : M unit :=
  modify_priv incr_tooltip_freeze;;
  status_notifier_item_set_from_icon_name STATUS_NOTIFIER_TOOLTIP_ICON icon_name;;
  status_notifier_item_set_tooltip_title title;;
  status_notifier_item_set_tooltip_body body;;
  status_notifier_item_thaw_tooltip.

Definition status_notifier_item_set_tooltip_with_pixbuf
    (pixbuf : option GdkPixbuf) (title body : option string) : M unit :=
  modify_priv incr_tooltip_freeze;;
  status_notifier_item_set_from_pixbuf STATUS_NOTIFIER_TOOLTIP_ICON pixbuf;;
  status_notifier_item_set_tooltip_title title;;
  status_notifier_item_set_tooltip_body body;;
  status_notifier_item_thaw_tooltip.

(** ** Interface adapter: inbound method calls *)

(** [g_ascii_tolower] and [g_ascii_strcasecmp] of GLib. Only the letters
    A-Z are folded. The loop of the comparison runs while neither string
    is at its end; a NUL character of a Rocq string is the end of the C
    string. *)
Definition g_ascii_tolower (c : ascii) : ascii :=
  let n := N_of_ascii c in
  if ((65 <=? n) && (n <=? 90))%N then ascii_of_N (n + 32) else c.

Fixpoint g_ascii_strcasecmp (s1 s2 : string) : Z :=
  match s1, s2 with
  | String a1 r1, String a2 r2 =>
      if (N_of_ascii a1 =? 0)%N || (N_of_ascii a2 =? 0)%N
      then Z.of_N (N_of_ascii a1) - Z.of_N (N_of_ascii a2)
      else
        let c1 := Z.of_N (N_of_ascii (g_ascii_tolower a1)) in
        let c2 := Z.of_N (N_of_ascii (g_ascii_tolower a2)) in
        if negb (c1 =? c2) then c1 - c2 else g_ascii_strcasecmp r1 r2
  | String a1 _, EmptyString => Z.of_N (N_of_ascii a1)
  | EmptyString, String a2 _ => - Z.of_N (N_of_ascii a2)
  | EmptyString, EmptyString => 0
  end.

(** The parameters of a method call, by their DBus signature. *)
Inductive method_params :=
| Params_ii (x y : Z)
| Params_is (delta : Z) (s_orientation : string).

Definition method_call (method : string) (params : method_params) : M unit :=
  let xy (signal : signal_id) : M unit :=
    match params with
    | Params_ii x y =>
        emit (GSignalEmit signal (ArgsXY x y));;
        emit MethodReturn
    | Params_is _ _ => emit GCritical
    end in
  if String.eqb method "ContextMenu" then xy SIGNAL_CONTEXT_MENU
  else if String.eqb method "Activate" then xy SIGNAL_ACTIVATE
  else if String.eqb method "SecondaryActivate" then xy SIGNAL_SECONDARY_ACTIVATE
  else if String.eqb method "Scroll" then
    match params with
    | Params_is delta s_orientation =>
        let orientation :=
          if g_ascii_strcasecmp s_orientation "vertical" =? 0
          then STATUS_NOTIFIER_SCROLL_ORIENTATION_VERTICAL
          else STATUS_NOTIFIER_SCROLL_ORIENTATION_HORIZONTAL in
        emit (GSignalEmit SIGNAL_SCROLL (ArgsScroll delta orientation));;
        emit MethodReturn
    | Params_ii _ _ => emit GCritical
    end
  else emit GCritical.

(** ** Icon codec *)

(** [G_BYTE_ORDER] of the host the file is compiled for. *)
Inductive byte_order := G_LITTLE_ENDIAN | G_BIG_ENDIAN.

(** [GUINT32_SWAP_LE_BE], which is [GUINT_TO_BE] on a little-endian
    host. *)
Definition GUINT32_SWAP_LE_BE (val : Z) : Z :=
  Z.lor
    (Z.lor
       (Z.lor (Z.shiftl (Z.land val 0xff) 24)
              (Z.shiftl (Z.land val 0xff00) 8))
       (Z.shiftr (Z.land val 0xff0000) 8))
    (Z.shiftr (Z.land val 0xff000000) 24).

(** The loop [for (i = 0; i < max; ++i) data[i] = GUINT_TO_BE (data[i])],
    started at index [i] with [n] rounds to go. *)
Fixpoint swap_loop (n : nat) (i : nat) (data : list Z) : list Z :=
  match n with
  | O => data
  | S n' => swap_loop n' (S i) (alter GUINT32_SWAP_LE_BE i data)
  end.

(** The four bytes a host stores a [guint] in, lowest address first. *)
Definition guint_bytes (order : byte_order) (w : Z) : list Z :=
  let b0 := Z.land w 255 in
  let b1 := Z.land (Z.shiftr w 8) 255 in
  let b2 := Z.land (Z.shiftr w 16) 255 in
  let b3 := Z.land (Z.shiftr w 24) 255 in
  match order with
  | G_LITTLE_ENDIAN => [b0; b1; b2; b3]
  | G_BIG_ENDIAN => [b3; b2; b1; b0]
  end.

(** The memory of a [guint] array, read as bytes. *)
Definition guint_array_bytes (order : byte_order) (data : list Z) : list Z :=
  flat_map (guint_bytes order) data.

(** [cairo_image_surface_get_stride] of a [CAIRO_FORMAT_ARGB32] surface:
    four bytes a pixel, no padding. *)
Definition cairo_image_surface_get_stride (width : Z) : Z := 4 * width.

(** One element of the array [a(iiay)]. *)
Definition pixmap_entry : Type := Z * Z * list Z.

(** A builder of an [a(iiay)], by the elements added to it. *)
Definition GVariantBuilder : Type := list pixmap_entry.

Definition get_builder_for_icon_pixmap
    (order : byte_order) (p : Priv) (icon : StatusNotifierIcon)
  : option GVariantBuilder :=
  if negb (has_pixbuf (priv_icon p icon)) then None
  else
    match union_pixbuf (icon_u (priv_icon p icon)) with
    | None => None (* a NULL pixbuf behind the flag: outside the encoder *)
    | Some pixbuf =>
        let width := pixbuf_width pixbuf in
        let height := pixbuf_height pixbuf in
        let stride := cairo_image_surface_get_stride width in
        let data := pixbuf_argb pixbuf in
        let data :=
          match order with
          | G_LITTLE_ENDIAN =>
              let max := ((stride * height) mod 2 ^ 32) / 4 in
              swap_loop (Z.to_nat max) 0 data
          | G_BIG_ENDIAN => data
          end in
        Some [(width, height,
               take (Z.to_nat (stride * height)) (guint_array_bytes order data))]
    end.

(** ** Interface adapter: property reads *)

(** The values [get_prop] builds, by the arguments it hands to
    [g_variant_new]. A string argument is the C pointer: [None] is NULL,
    which is not a string for the format [s]. A builder argument is the C
    pointer too: for an array format GLib reads NULL as the empty
    array. *)
Inductive GVariant :=
| Variant_s (s : option string)
| Variant_i (n : Z)
| Variant_b (b : bool)
| Variant_o (path : string)
| Variant_a_iiay (builder : option GVariantBuilder)
| Variant_sa_iiay_ss (icon_name : option string)
                     (builder : option GVariantBuilder)
                     (title body : option string).

(** The elements of an [a(iiay)] built from a builder pointer. *)
Definition pixmap_entries (builder : option GVariantBuilder)
  : list pixmap_entry :=
  match builder with
  | Some entries => entries
  | None => []
  end.

(** The C idiom [(s) ? s : ""]. *)
Definition or_empty (s : option string) : option string :=
  match s with
  | Some v => Some v
  | None => Some ""
  end.

(** A [guint32] passed for the format [i]: the same 32 bits, signed. *)
Definition as_gint32 (n : Z) : Z :=
  let m := n mod 2 ^ 32 in
  if m <? 2 ^ 31 then m else m - 2 ^ 32.

Definition icon_name_prop (p : Priv) (icon : StatusNotifierIcon) : GVariant :=
  Variant_s
    (if negb (has_pixbuf (priv_icon p icon))
     then or_empty (union_icon_name (icon_u (priv_icon p icon)))
     else Some "").

Definition get_prop (order : byte_order) (p : Priv) (property : string)
  : option GVariant :=
  if String.eqb property "Id" then Some (Variant_s (id p))
  else if String.eqb property "Category" then
    Some (Variant_s (Some (s_category (category p))))
  else if String.eqb property "Title" then
    Some (Variant_s (or_empty (title p)))
  else if String.eqb property "Status" then
    Some (Variant_s (Some (s_status (status p))))
  else if String.eqb property "WindowId" then
    Some (Variant_i (as_gint32 (window_id p)))
  else if String.eqb property "IconName" then
    Some (icon_name_prop p STATUS_NOTIFIER_ICON)
  else if String.eqb property "IconPixmap" then
    Some (Variant_a_iiay
            (get_builder_for_icon_pixmap order p STATUS_NOTIFIER_ICON))
  else if String.eqb property "OverlayIconName" then
    Some (icon_name_prop p STATUS_NOTIFIER_OVERLAY_ICON)
  else if String.eqb property "OverlayIconPixmap" then
    Some (Variant_a_iiay
            (get_builder_for_icon_pixmap order p STATUS_NOTIFIER_OVERLAY_ICON))
  else if String.eqb property "AttentionIconName" then
    Some (icon_name_prop p STATUS_NOTIFIER_ATTENTION_ICON)
  else if String.eqb property "AttentionIconPixmap" then
    Some (Variant_a_iiay
            (get_builder_for_icon_pixmap order p STATUS_NOTIFIER_ATTENTION_ICON))
  else if String.eqb property "AttentionMovieName" then
    Some (Variant_s (or_empty (attention_movie_name p)))
  else if String.eqb property "ToolTip" then
    if negb (has_pixbuf (priv_icon p STATUS_NOTIFIER_TOOLTIP_ICON)) then
      Some (Variant_sa_iiay_ss
              (or_empty
                 (union_icon_name
                    (icon_u (priv_icon p STATUS_NOTIFIER_TOOLTIP_ICON))))
              None
              (or_empty (tooltip_title p))
              (or_empty (tooltip_body p)))
    else
      Some (Variant_sa_iiay_ss
              (Some "")
              (get_builder_for_icon_pixmap order p STATUS_NOTIFIER_TOOLTIP_ICON)
              (or_empty (tooltip_title p))
              (or_empty (tooltip_body p)))
  else if String.eqb property "ItemIsMenu" then
    Some (Variant_b (item_is_menu p))
  else if String.eqb property "Menu" then
    Some (Variant_o "/NO_DBUSMENU")
  else None.

(** ** Registration state machine *)

Definition dbus_failed (error : GError) (fatal : bool) : M unit :=
  dbus_free;;
  (if fatal then
     modify_priv (assign_state STATUS_NOTIFIER_STATE_FAILED);;
     notify PROP_STATE
   else mret tt);;
  emit (GSignalEmit SIGNAL_REGISTRATION_FAILED (ArgsError (Some error))).

Definition bus_acquired (conn : option GDBusConnection) : M unit :=
  e ← get_env;
  id ← (if env_register_object_ok e then fresh_handle else mret 0);
  emit (RegisterObject conn ITEM_OBJECT id);;
  modify_priv (assign_dbus_reg_id id);;
  if id =? 0 then dbus_failed GioErr true
  else modify_priv (assign_dbus_conn conn).

(** The completion of the call [RegisterStatusNotifierItem]:
    [g_dbus_proxy_call_finish] gives the reply or NULL. *)
Definition register_item_cb (variant : option unit) : M unit :=
  match variant with
  | None => dbus_failed GioErr true
  | Some _ =>
      modify_priv (assign_state STATUS_NOTIFIER_STATE_REGISTERED);;
      notify PROP_STATE
  end.

Definition name_acquired (name : option string) : M unit :=
  p ← get_priv;
  emit (ProxyCall (dbus_proxy p) "RegisterStatusNotifierItem" name);;
  emit (ProxyUnref (dbus_proxy p));;
  modify_priv (assign_dbus_proxy None).

Definition name_lost (conn : option GDBusConnection) : M unit :=
  match conn with
  | None =>
      dbus_failed
        (StatusNotifierErr STATUS_NOTIFIER_ERROR_NO_CONNECTION
           "Failed to establish DBus connection") true
  | Some _ =>
      dbus_failed
        (StatusNotifierErr STATUS_NOTIFIER_ERROR_NO_NAME
           "Failed to acquire name for item") true
  end.

Definition should_register_name : M bool :=
  p ← get_priv;
  (if register_bus_name p =? -1 then
     e ← get_env;
     emit (FileTest "/.flatpak-info");;
     modify_priv (assign_register_bus_name
                    (if negb (env_flatpak_info e) then 1 else 0));;
     notify PROP_REGISTER_NAME_ON_BUS
   else mret tt);;
  p ← get_priv;
  mret (negb (register_bus_name p =? 0)).

(** The conversion [%u] of [g_snprintf]. *)
Definition format_u (n : Z) : string :=
  DecimalString.NilEmpty.string_of_uint (N.to_uint (Z.to_N n)).

Definition dbus_reg_item : M unit :=
  b ← should_register_name;
  if negb b then
    p ← get_priv;
    bus_acquired (proxy_connection <$> dbus_proxy p);;
    p ← get_priv;
    name_acquired (conn_unique_name <$> dbus_conn p)
  else
    e ← get_env;
    u ← incr_uniq_id;
    id ← fresh_handle;
    emit (BusOwnName
            (String.append "org.kde.StatusNotifierItem-"
               (String.append (format_u (env_pid e))
                  (String.append "-" (format_u u))))
            id);;
    modify_priv (assign_dbus_owner_id id).

Definition watcher_signal (signal : string) : M unit :=
  if String.eqb signal "StatusNotifierHostRegistered" then
    p ← get_priv;
    emit (SignalHandlerDisconnect (dbus_proxy p) (dbus_sid p));;
    modify_priv (assign_dbus_sid 0);;
    dbus_reg_item
  else mret tt.

(** The completion of [g_dbus_proxy_new_for_bus]:
    [g_dbus_proxy_new_for_bus_finish] gives the proxy or NULL. *)
Definition proxy_cb (result : option GDBusProxy) : M unit :=
  modify_priv (assign_dbus_proxy result);;
  p ← get_priv;
  match dbus_proxy p with
  | None => dbus_failed GioErr true
  | Some the_proxy =>
      let variant := proxy_host_registered the_proxy in
      if match variant with Some true => false | _ => true end then
        let proxy := dbus_proxy p in
        modify_priv (assign_dbus_proxy None);;
        dbus_failed
          (StatusNotifierErr STATUS_NOTIFIER_ERROR_NO_HOST
             "No Host registered on the Watcher") false;;
        modify_priv (assign_dbus_proxy proxy);;
        id ← fresh_handle;
        emit (SignalConnect proxy "g-signal" id);;
        modify_priv (assign_dbus_sid id)
      else dbus_reg_item
  end.

Definition watcher_appeared : M unit :=
  p ← get_priv;
  emit (BusUnwatchName (dbus_watch_id p));;
  modify_priv (assign_dbus_watch_id 0);;
  emit (ProxyNewForBus WATCHER_NAME WATCHER_OBJECT WATCHER_INTERFACE).

Definition watcher_vanished : M unit :=
  p ← get_priv;
  let id := dbus_watch_id p in
  modify_priv (assign_dbus_watch_id 0);;
  dbus_failed
    (StatusNotifierErr STATUS_NOTIFIER_ERROR_NO_WATCHER "No Watcher found")
    false;;
  modify_priv (assign_dbus_watch_id id).

Definition status_notifier_item_register : M unit :=
  p ← get_priv;
  match state p with
  | STATUS_NOTIFIER_STATE_REGISTERING | STATUS_NOTIFIER_STATE_REGISTERED =>
      mret tt
  | _ =>
      modify_priv (assign_state STATUS_NOTIFIER_STATE_REGISTERING);;
      id ← fresh_handle;
      emit (BusWatchName WATCHER_NAME id);;
      modify_priv (assign_dbus_watch_id id)
  end.

Definition status_notifier_item_get_state (p : Priv) : StatusNotifierState :=
  state p.

(** The instance right after [g_object_new]: zero-filled private data in
    which [status_notifier_item_set_property] has stored the three
    construct-only properties. *)
Definition priv_new (id : option string) (category : StatusNotifierCategory)
    (register_name_on_bus : Z) : Priv :=
  let empty := mkIcon false (U_icon_name None) in
  mkPriv id category None STATUS_NOTIFIER_STATUS_PASSIVE
    (mkIcons empty empty empty empty) None None None 0 false 0
    STATUS_NOTIFIER_STATE_NOT_REGISTERED 0 0 0 0 register_name_on_bus
    None None.

(** ** The item as a reactive object *)

(** What can happen to an item: a call of its public interface by the
    owner, or a callback GLib runs for it. *)
Inductive call :=
| Set_from_pixbuf (icon : StatusNotifierIcon) (pixbuf : option GdkPixbuf)
| Set_from_icon_name (icon : StatusNotifierIcon) (icon_name : option string)
| Set_attention_movie_name (movie_name : option string)
| Set_title (title : option string)
| Set_status (status : StatusNotifierStatus)
| Set_window_id (window_id : Z)
| Freeze_tooltip
| Thaw_tooltip
| Set_tooltip (icon_name title body : option string)
| Set_tooltip_with_pixbuf (pixbuf : option GdkPixbuf) (title body : option string)
| Set_tooltip_title (title : option string)
| Set_tooltip_body (body : option string)
| Set_item_is_menu (is_menu : bool)
| Register
| Method_call (method : string) (params : method_params)
| Watcher_appeared
| Watcher_vanished
| Proxy_cb (result : option GDBusProxy)
| Watcher_signal (signal : string)
| Bus_acquired (conn : option GDBusConnection)
| Name_acquired (name : option string)
| Name_lost (conn : option GDBusConnection)
| Register_item_cb (variant : option unit).

Definition perform (c : call) : M unit :=
  match c with
  | Set_from_pixbuf icon pixbuf => status_notifier_item_set_from_pixbuf icon pixbuf
  | Set_from_icon_name icon icon_name =>
      status_notifier_item_set_from_icon_name icon icon_name
  | Set_attention_movie_name movie_name =>
      status_notifier_item_set_attention_movie_name movie_name
  | Set_title title => status_notifier_item_set_title title
  | Set_status status => status_notifier_item_set_status status
  | Set_window_id window_id => status_notifier_item_set_window_id window_id
  | Freeze_tooltip => status_notifier_item_freeze_tooltip
  | Thaw_tooltip => status_notifier_item_thaw_tooltip
  | Set_tooltip icon_name title body =>
      status_notifier_item_set_tooltip icon_name title body
  | Set_tooltip_with_pixbuf pixbuf title body =>
      status_notifier_item_set_tooltip_with_pixbuf pixbuf title body
  | Set_tooltip_title title => status_notifier_item_set_tooltip_title title
  | Set_tooltip_body body => status_notifier_item_set_tooltip_body body
  | Set_item_is_menu is_menu => status_notifier_item_set_item_is_menu is_menu
  | Register => status_notifier_item_register
  | Method_call method params => method_call method params
  | Watcher_appeared => watcher_appeared
  | Watcher_vanished => watcher_vanished
  | Proxy_cb result => proxy_cb result
  | Watcher_signal signal => watcher_signal signal
  | Bus_acquired conn => bus_acquired conn
  | Name_acquired name => name_acquired name
  | Name_lost conn => name_lost conn
  | Register_item_cb variant => register_item_cb variant
  end.

Fixpoint perform_all (cs : list call) : M unit :=
  match cs with
  | [] => mret tt
  | c :: cs' => perform c;; perform_all cs'
  end.

(** The signals sent on the bus, among the effects of a trace. *)
Definition is_wire_signal (e : effect) : bool :=
  match e with
  | DBusEmitSignal _ _ _ => true
  | _ => false
  end.

Definition wire_signals (t : list effect) : list effect :=
  List.filter is_wire_signal t.

(** The local property-changed notifications of a trace. *)
Definition is_notify (e : effect) : bool :=
  match e with
  | Notify _ => true
  | _ => false
  end.

Definition local_notifications (t : list effect) : list effect :=
  List.filter is_notify t.

(** The flag of a cell agrees with the member of the union stored last:
    the condition under which every read of the union in the file reads
    the member that was written. *)
Definition icon_cell_consistent (c : icon_cell) : Prop :=
  match icon_u c with
  | U_pixbuf _ => has_pixbuf c = true
  | U_icon_name _ => has_pixbuf c = false
  end.

(** The calls that change one of the four fields behind the DBus
    property [ToolTip]. *)
Definition tooltip_mutation (c : call) : bool :=
  match c with
  | Set_from_pixbuf icon _ | Set_from_icon_name icon _ =>
      negb (not_tooltip_icon icon)
  | Set_tooltip_title _ | Set_tooltip_body _ => true
  | Set_tooltip _ _ _ | Set_tooltip_with_pixbuf _ _ _ => true
  | _ => false
  end.

(** The two GObject properties of an icon slot. *)
Definition slot_props (icon : StatusNotifierIcon) : list prop_id :=
  [prop_name_from_icon icon; prop_pixbuf_from_icon icon].

(** The setters of one field, with the property of the field: for an icon
    setter, the property of the representation it stores. *)
Definition setter_field (c : call) : option prop_id :=
  match c with
  | Set_from_pixbuf icon _ => Some (prop_pixbuf_from_icon icon)
  | Set_from_icon_name icon _ => Some (prop_name_from_icon icon)
  | Set_attention_movie_name _ => Some PROP_ATTENTION_MOVIE_NAME
  | Set_title _ => Some PROP_TITLE
  | Set_status _ => Some PROP_STATUS
  | Set_window_id _ => Some PROP_WINDOW_ID
  | Set_tooltip_title _ => Some PROP_TOOLTIP_TITLE
  | Set_tooltip_body _ => Some PROP_TOOLTIP_BODY
  | Set_item_is_menu _ => Some PROP_ITEM_IS_MENU
  | _ => None
  end.

(** The DBus signal of the interface that announces a change of a
    property, for the properties that have one. *)
Definition wire_signal_of (conn : option GDBusConnection)
    (st : StatusNotifierStatus) (prop : prop_id) : option effect :=
  match prop with
  | PROP_STATUS => Some (DBusEmitSignal conn "NewStatus" (Some (s_status st)))
  | PROP_TITLE => Some (DBusEmitSignal conn "NewTitle" None)
  | PROP_MAIN_ICON_NAME | PROP_MAIN_ICON_PIXBUF =>
      Some (DBusEmitSignal conn "NewIcon" None)
  | PROP_ATTENTION_ICON_NAME | PROP_ATTENTION_ICON_PIXBUF =>
      Some (DBusEmitSignal conn "NewAttentionIcon" None)
  | PROP_OVERLAY_ICON_NAME | PROP_OVERLAY_ICON_PIXBUF =>
      Some (DBusEmitSignal conn "NewOverlayIcon" None)
  | PROP_TOOLTIP_TITLE | PROP_TOOLTIP_BODY
  | PROP_TOOLTIP_ICON_NAME | PROP_TOOLTIP_ICON_PIXBUF =>
      Some (DBusEmitSignal conn "NewToolTip" None)
  | _ => None
  end.

(** The four properties folded into the DBus property [ToolTip]. *)
Definition tooltip_prop (prop : prop_id) : bool :=
  match prop with
  | PROP_TOOLTIP_TITLE | PROP_TOOLTIP_BODY
  | PROP_TOOLTIP_ICON_NAME | PROP_TOOLTIP_ICON_PIXBUF => true
  | _ => false
  end.

(** The C string a Rocq string stands for: it ends at the first NUL. *)
Fixpoint c_str (s : string) : string :=
  match s with
  | EmptyString => EmptyString
  | String a r => if (N_of_ascii a =? 0)%N then EmptyString else String a (c_str r)
  end.

(** A string with its ASCII capitals folded to small letters. *)
Fixpoint ascii_casefold (s : string) : string :=
  match s with
  | EmptyString => EmptyString
  | String a r => String (g_ascii_tolower a) (ascii_casefold r)
  end.

(** Two C strings are equal up to ASCII case. *)
Definition equal_ignoring_case (s1 s2 : string) : Prop :=
  ascii_casefold (c_str s1) = ascii_casefold (c_str s2).

(** The big-endian byte sequence of a 32-bit pixel word. *)
Definition big_endian_bytes (w : Z) : list Z :=
  [Z.land (Z.shiftr w 24) 255; Z.land (Z.shiftr w 16) 255;
   Z.land (Z.shiftr w 8) 255; Z.land w 255].

(** ** A session bus that cooperates *)

(** What a bus with a running watcher answers to a request of the item:
    the proxy is created, a requested name is granted on the connection
    of the proxy, the registration call succeeds. *)
Definition bus_reply (watcher : GDBusProxy) (e : effect) : list call :=
  match e with
  | ProxyNewForBus _ _ _ => [Proxy_cb (Some watcher)]
  | BusOwnName name _ =>
      [Bus_acquired (Some (proxy_connection watcher)); Name_acquired (Some name)]
  | ProxyCall (Some _) _ (Some _) => [Register_item_cb (Some tt)]
  | _ => []
  end.

(** The main loop: the pending callbacks run in order, and the answers of
    the bus to what they did are queued behind them. *)
Fixpoint deliver (fuel : nat) (watcher : GDBusProxy) (queue : list call)
    (s : St) : St :=
  match fuel, queue with
  | S n, c :: q =>
      deliver n watcher (q ++ flat_map (bus_reply watcher) (trace (perform c) s))
        (run (perform c) s)
  | _, _ => s
  end.

(** ** Several items in one process *)

(** The items of a process share the counter, the handles and the
    environment; each has its private structure. *)
Record Process := mkProcess {
  items : list Priv;
  p_uniq_id : Z;
  p_next_handle : positive;
  p_env : Env
}.

(** A function of the file run on the item at index [i]. *)
Definition on_item {A} (i : nat) (m : M A) (ps : Process)
  : option (A * Process * list effect) :=
  match items ps !! i with
  | None => None
  | Some p =>
      let '(a, s, t) := m (mkSt p (p_uniq_id ps) (p_next_handle ps) (p_env ps)) in
      Some (a, mkProcess (<[i := priv s]> (items ps)) (uniq_id s)
                 (next_handle s) (p_env ps), t)
  end.

(** A sequence of identity resolutions, each on the item named; the
    trace keeps which item an effect belongs to. *)
Fixpoint resolve_identities (resolutions : list nat) (ps : Process)
  : list (nat * effect) :=
  match resolutions with
  | [] => []
  | i :: rest =>
      match on_item i should_register_name ps with
      | None => resolve_identities rest ps
      | Some (_, ps', t) => map (pair i) t ++ resolve_identities rest ps'
      end
  end.

(** The reads of the sandbox marker in such a trace. *)
Definition is_file_test (e : effect) : bool :=
  match e with
  | FileTest _ => true
  | _ => false
  end.

Definition marker_reads (t : list (nat * effect)) : nat :=
  length (List.filter (fun ie => is_file_test (snd ie)) t).

Definition marker_reads_of (i : nat) (t : list (nat * effect)) : nat :=
  length (List.filter (fun ie => Nat.eqb (fst ie) i && is_file_test (snd ie)) t).


(** The surface cairo paints for a pixbuf has one word a pixel, and a
    size in bytes that fits the [gint] the encoder computes it in. *)
Definition pixbuf_painted (p : GdkPixbuf) : Prop :=
  0 <= pixbuf_width p /\ 0 <= pixbuf_height p
  /\ 4 * pixbuf_width p * pixbuf_height p < 2 ^ 31
  /\ length (pixbuf_argb p) = Z.to_nat (pixbuf_width p * pixbuf_height p).

(** A batch: [freeze_tooltip], the calls of [muts], [thaw_tooltip]. *)
Definition tooltip_batch (muts : list call) : M unit :=
  status_notifier_item_freeze_tooltip;;
  perform_all muts;;
  status_notifier_item_thaw_tooltip.

(** The item at index [i] of a process has its policy decided. *)
Definition decided (i : nat) (ps : Process) : Prop :=
  forall p, items ps !! i = Some p -> register_bus_name p <> -1.

(** The DBus property that carries the name of an icon slot, and the one
    that carries its pixmap; the tooltip icon travels inside [ToolTip]. *)
Definition icon_name_property (icon : StatusNotifierIcon) : option string :=
  match icon with
  | STATUS_NOTIFIER_ICON => Some "IconName"
  | STATUS_NOTIFIER_ATTENTION_ICON => Some "AttentionIconName"
  | STATUS_NOTIFIER_OVERLAY_ICON => Some "OverlayIconName"
  | STATUS_NOTIFIER_TOOLTIP_ICON => None
  end.

Definition icon_pixmap_property (icon : StatusNotifierIcon) : option string :=
  match icon with
  | STATUS_NOTIFIER_ICON => Some "IconPixmap"
  | STATUS_NOTIFIER_ATTENTION_ICON => Some "AttentionIconPixmap"
  | STATUS_NOTIFIER_OVERLAY_ICON => Some "OverlayIconPixmap"
  | STATUS_NOTIFIER_TOOLTIP_ICON => None
  end.

(** C8 as the specification words it: every setter raises the local
    notification of the field it sets and, on a registered item, sends a
    DBus signal, unless the field is one of the tooltip and a batch is
    open. *)
Definition every_setter_notifies : Prop :=
  forall (c : call) (f : prop_id) (s : St),
    setter_field c = Some f ->
    In (Notify f) (trace (perform c) s)
    /\ (state (priv s) = STATUS_NOTIFIER_STATE_REGISTERED ->
        tooltip_prop f = false \/ tooltip_freeze (priv s) = 0 ->
        wire_signals (trace (perform c) s) <> []).

(** ** Sample values *)

Definition sample_env : Env := mkEnv 4242 false true.

Definition sample_conn : GDBusConnection := mkConn 9 ":1.7".

(** A watcher with a host registered, and one without. *)
Definition sample_watcher : GDBusProxy := mkProxy 5 sample_conn (Some true).
Definition sample_watcher_no_host : GDBusProxy :=
  mkProxy 5 sample_conn (Some false).

Definition sample_pixbuf : GdkPixbuf :=
  mkPixbuf 2 1 [0x11223344; 0xAABBCCDD].

(** A fresh item "app", as the process starts. *)
Definition sample_new : St :=
  mkSt (priv_new (Some "app") STATUS_NOTIFIER_CATEGORY_APPLICATION_STATUS (-1))
       0 1%positive sample_env.

(** The item after [register ()], the watcher not found yet. *)
Definition sample_registering : St :=
  run (perform Register) sample_new.

(** The item with its registration complete. *)
Definition sample_registered : St :=
  deliver 6 sample_watcher [Register; Watcher_appeared] sample_new.

(** The item "app" with a bitmap as its main icon. *)
Definition sample_with_pixbuf : St :=
  run (perform (Set_from_pixbuf STATUS_NOTIFIER_ICON (Some sample_pixbuf)))
      sample_new.

(** A process with two items, both created with the policy -1. *)
Definition two_auto_items : Process :=
  mkProcess
    [priv_new (Some "a") STATUS_NOTIFIER_CATEGORY_APPLICATION_STATUS (-1);
     priv_new (Some "b") STATUS_NOTIFIER_CATEGORY_COMMUNICATIONS (-1)]
    0 1%positive sample_env.

(** An item created without an id. *)
Definition item_without_id : Priv :=
  priv_new None STATUS_NOTIFIER_CATEGORY_APPLICATION_STATUS (-1).

(** ** Vocabulary of the proofs *)

(** A computation that sends nothing on the bus, whatever the state. *)
Definition silent {A} (m : M A) : Prop :=
  forall s, wire_signals (trace m s) = [].

(** A computation that leaves the icon array as it is. *)
Definition keeps_icons {A} (m : M A) : Prop :=
  forall s, icon (priv (run m s)) = icon (priv s).

(** Every cell of the icon array is consistent. *)
Definition icons_consistent (p : Priv) : Prop :=
  forall i : StatusNotifierIcon, icon_cell_consistent (priv_icon p i).

(** The functions of the embedding, for unfolding. *)
Create HintDb model.
#[global] Hint Unfold trace run result perform
  status_notifier_item_set_from_pixbuf status_notifier_item_set_from_icon_name
  status_notifier_item_set_attention_movie_name status_notifier_item_set_title
  status_notifier_item_set_status status_notifier_item_set_window_id
  status_notifier_item_set_item_is_menu status_notifier_item_freeze_tooltip
  status_notifier_item_thaw_tooltip status_notifier_item_set_tooltip_title
  status_notifier_item_set_tooltip_body status_notifier_item_set_tooltip
  status_notifier_item_set_tooltip_with_pixbuf status_notifier_item_register
  free_icon dbus_free dbus_notify dbus_failed bus_acquired register_item_cb
  name_acquired name_lost should_register_name dbus_reg_item watcher_signal
  proxy_cb watcher_appeared watcher_vanished notify
  incr_tooltip_freeze decr_tooltip_freeze
  mbind M_mbind M_bind mret M_mret M_ret get_priv get_env modify_priv emit
  fresh_handle incr_uniq_id : model.

(** ** The rest of the file: GObject properties, constructors, release *)

Definition assign_id (v : option string) (p : Priv) : Priv :=
  mkPriv v (category p) (title p) (status p) (icon p)
    (attention_movie_name p) (tooltip_title p) (tooltip_body p) (window_id p)
    (item_is_menu p) (tooltip_freeze p) (state p) (dbus_watch_id p)
    (dbus_sid p) (dbus_owner_id p) (dbus_reg_id p) (register_bus_name p)
    (dbus_proxy p) (dbus_conn p).

Definition assign_category (v : StatusNotifierCategory) (p : Priv) : Priv :=
  mkPriv (id p) v (title p) (status p) (icon p)
    (attention_movie_name p) (tooltip_title p) (tooltip_body p) (window_id p)
    (item_is_menu p) (tooltip_freeze p) (state p) (dbus_watch_id p)
    (dbus_sid p) (dbus_owner_id p) (dbus_reg_id p) (register_bus_name p)
    (dbus_proxy p) (dbus_conn p).

(** A [GValue], by the type it holds. GObject hands [set_property] a
    value of the type of the property, validated against its
    specification; the readers below give what GLib gives on a value of
    another type (NULL, zero, the first member of the enumeration). *)
Inductive GValue :=
| Value_string (s : option string)
| Value_category (c : StatusNotifierCategory)
| Value_status (st : StatusNotifierStatus)
| Value_state (st : StatusNotifierState)
| Value_pixbuf (o : option GdkPixbuf)
| Value_menu
| Value_boolean (b : bool)
| Value_uint (n : Z)
| Value_int (n : Z).

Definition g_value_get_string (v : GValue) : option string :=
  match v with Value_string s => s | _ => None end.

Definition g_value_get_category (v : GValue) : StatusNotifierCategory :=
  match v with
  | Value_category c => c
  | _ => STATUS_NOTIFIER_CATEGORY_APPLICATION_STATUS
  end.

Definition g_value_get_status (v : GValue) : StatusNotifierStatus :=
  match v with
  | Value_status st => st
  | _ => STATUS_NOTIFIER_STATUS_PASSIVE
  end.

Definition g_value_get_pixbuf (v : GValue) : option GdkPixbuf :=
  match v with Value_pixbuf o => o | _ => None end.

Definition g_value_get_boolean (v : GValue) : bool :=
  match v with Value_boolean b => b | _ => false end.

Definition g_value_get_uint (v : GValue) : Z :=
  match v with Value_uint n => n | _ => 0 end.

Definition g_value_get_int (v : GValue) : Z :=
  match v with Value_int n => n | _ => 0 end.

(** The outcome of a property access: the property was handled, or the
    [default:] label was reached and
    [G_OBJECT_WARN_INVALID_PROPERTY_ID] logged its warning. *)
Inductive property_access :=
| PropertyHandled
| InvalidPropertyId.

Definition status_notifier_item_set_property (prop : prop_id) (value : GValue)
  : M property_access :=
  match prop with
  | PROP_ID =>
      modify_priv (assign_id (g_value_get_string value));;
      mret PropertyHandled
  | PROP_TITLE =>
      status_notifier_item_set_title (g_value_get_string value);;
      mret PropertyHandled
  | PROP_CATEGORY =>
      modify_priv (assign_category (g_value_get_category value));;
      mret PropertyHandled
  | PROP_STATUS =>
      status_notifier_item_set_status (g_value_get_status value);;
      mret PropertyHandled
  | PROP_MAIN_ICON_NAME =>
      status_notifier_item_set_from_icon_name STATUS_NOTIFIER_ICON
        (g_value_get_string value);;
      mret PropertyHandled
  | PROP_MAIN_ICON_PIXBUF =>
      status_notifier_item_set_from_pixbuf STATUS_NOTIFIER_ICON
        (g_value_get_pixbuf value);;
      mret PropertyHandled
  | PROP_OVERLAY_ICON_NAME =>
      status_notifier_item_set_from_icon_name STATUS_NOTIFIER_OVERLAY_ICON
        (g_value_get_string value);;
      mret PropertyHandled
  | PROP_OVERLAY_ICON_PIXBUF =>
      status_notifier_item_set_from_pixbuf STATUS_NOTIFIER_OVERLAY_ICON
        (g_value_get_pixbuf value);;
      mret PropertyHandled
  | PROP_ATTENTION_ICON_NAME =>
      status_notifier_item_set_from_icon_name STATUS_NOTIFIER_ATTENTION_ICON
        (g_value_get_string value);;
      mret PropertyHandled
  | PROP_ATTENTION_ICON_PIXBUF =>
      status_notifier_item_set_from_pixbuf STATUS_NOTIFIER_ATTENTION_ICON
        (g_value_get_pixbuf value);;
      mret PropertyHandled
  | PROP_ATTENTION_MOVIE_NAME =>
      status_notifier_item_set_attention_movie_name (g_value_get_string value);;
      mret PropertyHandled
  | PROP_TOOLTIP_ICON_NAME =>
      status_notifier_item_set_from_icon_name STATUS_NOTIFIER_TOOLTIP_ICON
        (g_value_get_string value);;
      mret PropertyHandled
  | PROP_TOOLTIP_ICON_PIXBUF =>
      status_notifier_item_set_from_pixbuf STATUS_NOTIFIER_TOOLTIP_ICON
        (g_value_get_pixbuf value);;
      mret PropertyHandled
  | PROP_TOOLTIP_TITLE =>
      status_notifier_item_set_tooltip_title (g_value_get_string value);;
      mret PropertyHandled
  | PROP_TOOLTIP_BODY =>
      status_notifier_item_set_tooltip_body (g_value_get_string value);;
      mret PropertyHandled
  | PROP_ITEM_IS_MENU =>
      status_notifier_item_set_item_is_menu (g_value_get_boolean value);;
      mret PropertyHandled
  | PROP_WINDOW_ID =>
      status_notifier_item_set_window_id (g_value_get_uint value);;
      mret PropertyHandled
  | PROP_REGISTER_NAME_ON_BUS =>
      modify_priv (assign_register_bus_name (g_value_get_int value));;
      mret PropertyHandled
  | _ => mret InvalidPropertyId
  end.

Definition status_notifier_item_get_register_name_on_bus (p : Priv) : Z :=
  register_bus_name p.

Definition status_notifier_item_get_property (p : Priv) (prop : prop_id)
  : option GValue :=
  match prop with
  | PROP_ID => Some (Value_string (id p))
  | PROP_TITLE => Some (Value_string (title p))
  | PROP_CATEGORY => Some (Value_category (category p))
  | PROP_STATUS => Some (Value_status (status p))
  | PROP_MAIN_ICON_NAME =>
      Some (Value_string
              (status_notifier_item_get_icon_name p STATUS_NOTIFIER_ICON))
  | PROP_MAIN_ICON_PIXBUF =>
      Some (Value_pixbuf (status_notifier_item_get_pixbuf p STATUS_NOTIFIER_ICON))
  | PROP_OVERLAY_ICON_NAME =>
      Some (Value_string
              (status_notifier_item_get_icon_name p STATUS_NOTIFIER_OVERLAY_ICON))
  | PROP_OVERLAY_ICON_PIXBUF =>
      Some (Value_pixbuf
              (status_notifier_item_get_pixbuf p STATUS_NOTIFIER_OVERLAY_ICON))
  | PROP_ATTENTION_ICON_NAME =>
      Some (Value_string
              (status_notifier_item_get_icon_name p
                 STATUS_NOTIFIER_ATTENTION_ICON))
  | PROP_ATTENTION_ICON_PIXBUF =>
      Some (Value_pixbuf
              (status_notifier_item_get_pixbuf p STATUS_NOTIFIER_ATTENTION_ICON))
  | PROP_ATTENTION_MOVIE_NAME => Some (Value_string (attention_movie_name p))
  | PROP_TOOLTIP_ICON_NAME =>
      Some (Value_string
              (status_notifier_item_get_icon_name p STATUS_NOTIFIER_TOOLTIP_ICON))
  | PROP_TOOLTIP_ICON_PIXBUF =>
      Some (Value_pixbuf
              (status_notifier_item_get_pixbuf p STATUS_NOTIFIER_TOOLTIP_ICON))
  | PROP_TOOLTIP_TITLE => Some (Value_string (tooltip_title p))
  | PROP_TOOLTIP_BODY => Some (Value_string (tooltip_body p))
  | PROP_ITEM_IS_MENU => Some (Value_boolean (item_is_menu p))
  | PROP_MENU => Some Value_menu
  | PROP_WINDOW_ID => Some (Value_uint (window_id p))
  | PROP_STATE => Some (Value_state (state p))
  | PROP_REGISTER_NAME_ON_BUS =>
      Some (Value_int (status_notifier_item_get_register_name_on_bus p))
  | PROP_0 => None
  end.

(** The loop of [status_notifier_item_finalize] over the four icons, and
    the release of the bus resources. *)
Definition status_notifier_item_finalize : M unit :=
  free_icon STATUS_NOTIFIER_ICON;;
  free_icon STATUS_NOTIFIER_ATTENTION_ICON;;
  free_icon STATUS_NOTIFIER_OVERLAY_ICON;;
  free_icon STATUS_NOTIFIER_TOOLTIP_ICON;;
  dbus_free.

(** The zero-filled private data GObject allocates for an instance. *)
Definition priv_zero : Priv :=
  let empty := mkIcon false (U_icon_name None) in
  mkPriv None STATUS_NOTIFIER_CATEGORY_APPLICATION_STATUS None
    STATUS_NOTIFIER_STATUS_PASSIVE (mkIcons empty empty empty empty)
    None None None 0 false 0 STATUS_NOTIFIER_STATE_NOT_REGISTERED 0 0 0 0 0
    None None.

(** [g_object_new] with the properties given: the three construct-only
    properties are stored first, [register-name-on-bus] with its default
    -1, then the other property is set. *)
Definition status_notifier_item_new_from_icon_name
    (id : option string) (category : StatusNotifierCategory)
    (icon_name : option string) : M property_access :=
  status_notifier_item_set_property PROP_ID (Value_string id);;
  status_notifier_item_set_property PROP_CATEGORY (Value_category category);;
  status_notifier_item_set_property PROP_REGISTER_NAME_ON_BUS (Value_int (-1));;
  status_notifier_item_set_property PROP_MAIN_ICON_NAME (Value_string icon_name).

Definition status_notifier_item_new_from_pixbuf
    (id : option string) (category : StatusNotifierCategory)
    (pixbuf : option GdkPixbuf) : M property_access :=
  status_notifier_item_set_property PROP_ID (Value_string id);;
  status_notifier_item_set_property PROP_CATEGORY (Value_category category);;
  status_notifier_item_set_property PROP_REGISTER_NAME_ON_BUS (Value_int (-1));;
  status_notifier_item_set_property PROP_MAIN_ICON_PIXBUF (Value_pixbuf pixbuf).

(** ** Vocabulary of the further properties *)

(** What the owner sets and sees of an item, apart from the bus. *)
Definition item_data (p : Priv) :=
  (id p, category p, title p, status p, icon p, attention_movie_name p,
   tooltip_title p, tooltip_body p, window_id p, item_is_menu p,
   tooltip_freeze p, state p, register_bus_name p).

(** The handles and objects an item holds on the bus. *)
Definition bus_fields (p : Priv) :=
  (dbus_watch_id p, dbus_sid p, dbus_owner_id p, dbus_reg_id p,
   dbus_proxy p, dbus_conn p).

(** Nothing is held on the bus. *)
Definition dbus_released (p : Priv) : Prop :=
  dbus_watch_id p <= 0 /\ dbus_sid p <= 0 /\ dbus_owner_id p <= 0
  /\ dbus_proxy p = None /\ dbus_reg_id p <= 0 /\ dbus_conn p = None.

(** The calls that give a resource back. *)
Definition is_release (e : effect) : bool :=
  match e with
  | BusUnwatchName _ | SignalHandlerDisconnect _ _ | BusUnownName _
  | ProxyUnref _ | UnregisterObject _ _ | ConnectionUnref _ => true
  | _ => false
  end.

(** The calls a setter may make: notifications and signals, and the
    warning of a failed check. *)
Definition is_announcement (e : effect) : bool :=
  match e with
  | Notify _ | DBusEmitSignal _ _ _ | GCritical => true
  | _ => false
  end.

(** The calls of the public interface that set fields of the item. *)
Definition is_setter (c : call) : bool :=
  match c with
  | Set_from_pixbuf _ _ | Set_from_icon_name _ _ | Set_attention_movie_name _
  | Set_title _ | Set_status _ | Set_window_id _ | Freeze_tooltip
  | Thaw_tooltip | Set_tooltip _ _ _ | Set_tooltip_with_pixbuf _ _ _
  | Set_tooltip_title _ | Set_tooltip_body _ | Set_item_is_menu _ => true
  | _ => false
  end.

(** The callbacks that end a registration attempt for good, with the
    error they report: the loss of the name or of the connection, a failed
    proxy, a failed registration call, and an object that the connection
    refuses to register. *)
Definition fatal_callback (e : Env) (c : call) : option GError :=
  match c with
  | Name_lost None =>
      Some (StatusNotifierErr STATUS_NOTIFIER_ERROR_NO_CONNECTION
              "Failed to establish DBus connection")
  | Name_lost (Some _) =>
      Some (StatusNotifierErr STATUS_NOTIFIER_ERROR_NO_NAME
              "Failed to acquire name for item")
  | Register_item_cb None => Some GioErr
  | Proxy_cb None => Some GioErr
  | Bus_acquired _ => if env_register_object_ok e then None else Some GioErr
  | _ => None
  end.

(** The well-known name an item asks for, from the process id and the
    value of the counter. *)
Definition item_bus_name (pid u : Z) : string :=
  String.append "org.kde.StatusNotifierItem-"
    (String.append (format_u pid) (String.append "-" (format_u u))).

(** A value of a [GValue] is of the type of a writable property. *)
Definition value_of_property (prop : prop_id) (v : GValue) : bool :=
  match prop, v with
  | (PROP_TITLE | PROP_MAIN_ICON_NAME | PROP_OVERLAY_ICON_NAME
     | PROP_ATTENTION_ICON_NAME | PROP_TOOLTIP_ICON_NAME
     | PROP_ATTENTION_MOVIE_NAME | PROP_TOOLTIP_TITLE | PROP_TOOLTIP_BODY),
    Value_string _ => true
  | PROP_STATUS, Value_status _ => true
  | (PROP_MAIN_ICON_PIXBUF | PROP_OVERLAY_ICON_PIXBUF
     | PROP_ATTENTION_ICON_PIXBUF | PROP_TOOLTIP_ICON_PIXBUF),
    Value_pixbuf _ => true
  | PROP_ITEM_IS_MENU, Value_boolean _ => true
  | PROP_WINDOW_ID, Value_uint _ => true
  | _, _ => false
  end.

(** The icon slot a property belongs to, if any. *)
Definition prop_slot (prop : prop_id) : option StatusNotifierIcon :=
  match prop with
  | PROP_MAIN_ICON_NAME | PROP_MAIN_ICON_PIXBUF => Some STATUS_NOTIFIER_ICON
  | PROP_ATTENTION_ICON_NAME | PROP_ATTENTION_ICON_PIXBUF =>
      Some STATUS_NOTIFIER_ATTENTION_ICON
  | PROP_OVERLAY_ICON_NAME | PROP_OVERLAY_ICON_PIXBUF =>
      Some STATUS_NOTIFIER_OVERLAY_ICON
  | PROP_TOOLTIP_ICON_NAME | PROP_TOOLTIP_ICON_PIXBUF =>
      Some STATUS_NOTIFIER_TOOLTIP_ICON
  | _ => None
  end.

(** The 32-bit word four bytes spell, most significant byte first, and
    the words of a byte sequence read four bytes at a time. *)
Definition word_of_big_endian (b3 b2 b1 b0 : Z) : Z :=
  b3 * 2 ^ 24 + b2 * 2 ^ 16 + b1 * 2 ^ 8 + b0.

Fixpoint words_of_big_endian (bytes : list Z) : list Z :=
  match bytes with
  | b3 :: b2 :: b1 :: b0 :: rest =>
      word_of_big_endian b3 b2 b1 b0 :: words_of_big_endian rest
  | _ => []
  end.

(** [n] calls of [freeze_tooltip], and [n] calls of [thaw_tooltip]. *)
Fixpoint freeze_times (n : nat) : M unit :=
  match n with
  | O => mret tt
  | S n' => status_notifier_item_freeze_tooltip;; freeze_times n'
  end.

Fixpoint thaw_times (n : nat) : M unit :=
  match n with
  | O => mret tt
  | S n' => status_notifier_item_thaw_tooltip;; thaw_times n'
  end.

#[global] Hint Unfold status_notifier_item_set_property
  status_notifier_item_finalize status_notifier_item_new_from_icon_name
  status_notifier_item_new_from_pixbuf method_call : model.

(** ** Closed forms and samples of the further properties *)

(** [dbus_free] on one handle: a held handle (positive) is given back and
    zeroed, anything else is left as it is. *)
Definition release_handle (h : Z) : Z := if 0 <? h then 0 else h.

(** The private data [dbus_free] leaves, and the calls it makes, in the
    order of the source. *)
Definition dbus_free_priv (p : Priv) : Priv :=
  assign_dbus_conn None
    (assign_dbus_reg_id (release_handle (dbus_reg_id p))
       (assign_dbus_proxy None
          (assign_dbus_owner_id (release_handle (dbus_owner_id p))
             (assign_dbus_sid (release_handle (dbus_sid p))
                (assign_dbus_watch_id (release_handle (dbus_watch_id p)) p))))).

Definition dbus_free_trace (p : Priv) : list effect :=
  (if 0 <? dbus_watch_id p then [BusUnwatchName (dbus_watch_id p)] else [])
  ++ (if 0 <? dbus_sid p
      then [SignalHandlerDisconnect (dbus_proxy p) (dbus_sid p)] else [])
  ++ (if 0 <? dbus_owner_id p then [BusUnownName (dbus_owner_id p)] else [])
  ++ (match dbus_proxy p with Some x => [ProxyUnref (Some x)] | None => [] end)
  ++ (if 0 <? dbus_reg_id p
      then [UnregisterObject (dbus_conn p) (dbus_reg_id p)] else [])
  ++ (match dbus_conn p with Some c => [ConnectionUnref c] | None => [] end).

(** The method is one of the interface, and the parameters are of its
    signature. *)
Definition method_signature_ok (method : string) (params : method_params) : bool :=
  match params with
  | Params_ii _ _ =>
      String.eqb method "ContextMenu" || String.eqb method "Activate"
      || String.eqb method "SecondaryActivate"
  | Params_is _ _ => String.eqb method "Scroll"
  end.

(** The method is one of the four the interface declares. *)
Definition method_of_interface (method : string) : bool :=
  String.eqb method "ContextMenu" || String.eqb method "Activate"
  || String.eqb method "SecondaryActivate" || String.eqb method "Scroll".

(** A computation that leaves the identity of the item as it is, and
    a policy that is decided as it is. *)
Definition keeps_identity {A} (m : M A) : Prop :=
  forall s,
    id (priv (run m s)) = id (priv s)
    /\ category (priv (run m s)) = category (priv s)
    /\ (register_bus_name (priv s) <> -1 ->
        register_bus_name (priv (run m s)) = register_bus_name (priv s)).

(** An item that does not claim a name (policy 0), its proxy to the
    watcher created; and the same on a connection that refuses the
    object. *)
Definition sample_without_name : St :=
  mkSt (assign_dbus_proxy (Some sample_watcher)
          (priv_new (Some "app") STATUS_NOTIFIER_CATEGORY_APPLICATION_STATUS 0))
       0 1%positive sample_env.

Definition sample_without_name_refused : St :=
  mkSt (assign_dbus_proxy (Some sample_watcher)
          (priv_new (Some "app") STATUS_NOTIFIER_CATEGORY_APPLICATION_STATUS 0))
       0 1%positive (mkEnv 4242 false false).

(** * Properties *)

(** ** Reasoning about the monad *)

Lemma trace_bind {A B} (m : M A) (f : A -> M B) s :
  trace (m ≫= f) s = trace m s ++ trace (f (result m s)) (run m s).
Proof.
  unfold trace, run, result, mbind, M_mbind, M_bind.
  destruct (m s) as [[a s1] t1]; cbn. destruct (f a s1) as [[b s2] t2]; reflexivity.
Qed.

Lemma run_bind {A B} (m : M A) (f : A -> M B) s :
  run (m ≫= f) s = run (f (result m s)) (run m s).
Proof.
  unfold trace, run, result, mbind, M_mbind, M_bind.
  destruct (m s) as [[a s1] t1]; cbn. destruct (f a s1) as [[b s2] t2]; reflexivity.
Qed.

Lemma wire_signals_app t1 t2 :
  wire_signals (t1 ++ t2) = wire_signals t1 ++ wire_signals t2.
Proof. apply List.filter_app. Qed.

Lemma silent_bind {A B} (m : M A) (f : A -> M B) :
  silent m -> (forall a, silent (f a)) -> silent (m ≫= f).
Proof.
  intros Hm Hf s. rewrite trace_bind, wire_signals_app, Hm, Hf. reflexivity.
Qed.

Lemma silent_ret {A} (a : A) : silent (mret a).
Proof. intros s. reflexivity. Qed.

Lemma silent_get_priv : silent get_priv.
Proof. intros s. reflexivity. Qed.

Lemma silent_get_env : silent get_env.
Proof. intros s. reflexivity. Qed.

Lemma silent_modify_priv f : silent (modify_priv f).
Proof. intros s. reflexivity. Qed.

Lemma silent_fresh_handle : silent fresh_handle.
Proof. intros s. reflexivity. Qed.

Lemma silent_incr_uniq_id : silent incr_uniq_id.
Proof. intros s. reflexivity. Qed.

Lemma silent_emit e : is_wire_signal e = false -> silent (emit e).
Proof.
  intros H s. destruct e; try discriminate H; reflexivity.
Qed.

Ltac silent_step :=
  first
    [ apply silent_ret | apply silent_get_priv | apply silent_get_env
    | apply silent_modify_priv | apply silent_fresh_handle
    | apply silent_incr_uniq_id
    | apply silent_emit; reflexivity
    | apply silent_bind; [| intros ?]
    | match goal with
      | |- silent (if ?c then _ else _) => destruct c
      | |- silent (match ?x with _ => _ end) => destruct x
      end ].

Ltac silent_auto := repeat silent_step.

Lemma silent_dbus_free : silent dbus_free.
Proof. unfold dbus_free. silent_auto. Qed.

Lemma silent_dbus_failed e fatal : silent (dbus_failed e fatal).
Proof. unfold dbus_failed, notify. silent_auto. Qed.

Lemma silent_bus_acquired conn : silent (bus_acquired conn).
Proof. unfold bus_acquired. silent_auto. Qed.

Lemma silent_name_acquired name : silent (name_acquired name).
Proof. unfold name_acquired. silent_auto. Qed.

Lemma silent_should_register_name : silent should_register_name.
Proof. unfold should_register_name, notify. silent_auto. Qed.

Lemma silent_dbus_reg_item : silent dbus_reg_item.
Proof.
  unfold dbus_reg_item. silent_auto.
Qed.

Lemma silent_registration c :
  match c with
  | Register | Method_call _ _ | Watcher_appeared | Watcher_vanished
  | Proxy_cb _ | Watcher_signal _ | Bus_acquired _ | Name_acquired _
  | Name_lost _ | Register_item_cb _ | Set_attention_movie_name _
  | Set_window_id _ | Set_item_is_menu _ | Freeze_tooltip => silent (perform c)
  | _ => True
  end.
Proof.
  destruct c; try exact I; cbn [perform].
  - unfold status_notifier_item_set_attention_movie_name, notify. silent_auto.
  - unfold status_notifier_item_set_window_id, notify. silent_auto.
  - unfold status_notifier_item_freeze_tooltip. silent_auto.
  - unfold status_notifier_item_set_item_is_menu. silent_auto.
  - unfold status_notifier_item_register. silent_auto.
  - unfold method_call. silent_auto.
  - unfold watcher_appeared. silent_auto.
  - unfold watcher_vanished. silent_auto.
  - unfold proxy_cb. silent_auto.
  - unfold watcher_signal. silent_auto.
  - apply silent_bus_acquired.
  - apply silent_name_acquired.
  - unfold name_lost. silent_auto.
  - unfold register_item_cb, notify. silent_auto.
Qed.

Ltac model_cbn := autounfold with model; cbn.

Ltac crush_state s :=
  destruct s as [[? ? ? ? [[? ?] [? ?] [? ?] [? ?]] ? ? ? ? ? ? ? ? ? ? ? ? ? ?] ? ? ?].

Lemma setters_quiet (c : call) (s : St) :
  state (priv s) <> STATUS_NOTIFIER_STATE_REGISTERED ->
  match c with
  | Set_from_pixbuf _ _ | Set_from_icon_name _ _ | Set_title _ | Set_status _
  | Thaw_tooltip | Set_tooltip _ _ _ | Set_tooltip_with_pixbuf _ _ _
  | Set_tooltip_title _ | Set_tooltip_body _ =>
      wire_signals (trace (perform c) s) = []
  | _ => True
  end.
Proof.
  intros H. crush_state s. cbn in H.
  destruct c; try exact I; cbn [perform];
    match goal with
    | st : StatusNotifierState |- _ => destruct st; try congruence
    end;
    try match goal with
    | i : StatusNotifierIcon |- _ => destruct i
    end;
    model_cbn;
    repeat match goal with
    | |- context [if ?c then _ else _] => destruct c; cbn
    end; reflexivity.
Qed.

(** ** Signals on the bus and the registration state *)

(** C3. No DBus signal is sent while the item is not registered: a call
    or callback that starts in a state other than REGISTERED sends none.
    Setting the status to NeedsAttention on a registered item sends
    exactly one signal, NewStatus with the label "NeedsAttention"; the
    same call on an item that is not registered sends nothing. *)
Theorem no_wire_signal_unless_registered :
  (forall (c : call) (s : St),
     state (priv s) <> STATUS_NOTIFIER_STATE_REGISTERED ->
     wire_signals (trace (perform c) s) = [])
  /\ (forall s : St,
        state (priv s) = STATUS_NOTIFIER_STATE_REGISTERED ->
        wire_signals
          (trace (status_notifier_item_set_status
                    STATUS_NOTIFIER_STATUS_NEEDS_ATTENTION) s)
        = [DBusEmitSignal (dbus_conn (priv s)) "NewStatus" (Some "NeedsAttention")])
  /\ (forall s : St,
        state (priv s) <> STATUS_NOTIFIER_STATE_REGISTERED ->
        wire_signals
          (trace (status_notifier_item_set_status
                    STATUS_NOTIFIER_STATUS_NEEDS_ATTENTION) s) = []).
Proof.
  split; [| split].
  - intros c s H.
    pose proof (setters_quiet c s H) as Hq.
    pose proof (silent_registration c) as Hs.
    destruct c; first [exact Hq | exact (Hs s)].
  - intros s H. crush_state s. cbn in H. subst. model_cbn. reflexivity.
  - intros s H. exact (setters_quiet (Set_status _) s H).
Qed.

Lemma no_wire_signal_unless_registered_witness :
  wire_signals (trace (perform (Set_tooltip (Some "i") (Some "t") (Some "b")))
                      sample_registering) = []
  /\ wire_signals
       (trace (status_notifier_item_set_status
                 STATUS_NOTIFIER_STATUS_NEEDS_ATTENTION) sample_registered)
     = [DBusEmitSignal (Some sample_conn) "NewStatus" (Some "NeedsAttention")]
  /\ wire_signals
       (trace (status_notifier_item_set_status
                 STATUS_NOTIFIER_STATUS_NEEDS_ATTENTION) sample_registering)
     = [].
Proof.
  destruct no_wire_signal_unless_registered as (Hany & Hreg & Hnot).
  assert (state (priv sample_registering) <> STATUS_NOTIFIER_STATE_REGISTERED)
    as Hn by discriminate.
  split; [exact (Hany _ sample_registering Hn) |].
  split; [exact (Hreg sample_registered eq_refl) |].
  exact (Hnot sample_registering Hn).
Defined.

(** ** Inbound Scroll requests *)

Lemma g_ascii_strcasecmp_zero (s1 s2 : string) :
  g_ascii_strcasecmp s1 s2 = 0 <-> equal_ignoring_case s1 s2.
Proof.
  unfold equal_ignoring_case. revert s2.
  induction s1 as [|a1 r1 IH]; intros [|a2 r2]; cbn [g_ascii_strcasecmp c_str].
  - split; reflexivity.
  - destruct (N_of_ascii a2 =? 0)%N eqn:E2.
    + apply N.eqb_eq in E2. rewrite E2. split; reflexivity.
    + apply N.eqb_neq in E2. cbn. split; [lia | discriminate].
  - destruct (N_of_ascii a1 =? 0)%N eqn:E1.
    + apply N.eqb_eq in E1. rewrite E1. split; reflexivity.
    + apply N.eqb_neq in E1. cbn. split; [lia | discriminate].
  - destruct (N_of_ascii a1 =? 0)%N eqn:E1, (N_of_ascii a2 =? 0)%N eqn:E2; cbn [orb].
    + apply N.eqb_eq in E1, E2. rewrite E1, E2. split; reflexivity.
    + apply N.eqb_eq in E1. apply N.eqb_neq in E2. rewrite E1. cbn.
      split; [lia | discriminate].
    + apply N.eqb_neq in E1. apply N.eqb_eq in E2. rewrite E2. cbn.
      split; [lia | discriminate].
    + cbn [ascii_casefold].
      destruct (Z.of_N (N_of_ascii (g_ascii_tolower a1))
                =? Z.of_N (N_of_ascii (g_ascii_tolower a2))) eqn:E; cbn [negb].
      * apply Z.eqb_eq, N2Z.inj in E.
        assert (g_ascii_tolower a1 = g_ascii_tolower a2) as ->.
        { rewrite <- (ascii_N_embedding (g_ascii_tolower a1)), E.
          apply ascii_N_embedding. }
        rewrite IH. split; [intros ->; reflexivity | intros H; injection H; auto].
      * apply Z.eqb_neq in E. split; [lia |].
        intros H; injection H as H1 _. rewrite H1 in E. congruence.
Qed.

(** C10. A Scroll request is delivered to the owner as one scroll signal
    with the delta received and an orientation that is vertical exactly
    when the string received equals "vertical" up to ASCII case, and
    horizontal for every other string; the call is then answered with an
    empty reply, and the item is left as it was. *)
Theorem scroll_orientation_canonicalized
    (delta : Z) (s_orientation : string) (s : St) :
  exists o : StatusNotifierScrollOrientation,
    method_call "Scroll" (Params_is delta s_orientation) s
    = (tt, s, [GSignalEmit SIGNAL_SCROLL (ArgsScroll delta o); MethodReturn])
    /\ (o = STATUS_NOTIFIER_SCROLL_ORIENTATION_VERTICAL
        <-> equal_ignoring_case s_orientation "vertical")
    /\ (o = STATUS_NOTIFIER_SCROLL_ORIENTATION_HORIZONTAL
        <-> ~ equal_ignoring_case s_orientation "vertical").
Proof.
  pose proof (g_ascii_strcasecmp_zero s_orientation "vertical") as Hz.
  unfold method_call. cbn [String.eqb Ascii.eqb Bool.eqb].
  destruct (g_ascii_strcasecmp s_orientation "vertical" =? 0) eqn:E;
    eexists; (split; [reflexivity |]).
  - apply Z.eqb_eq in E. apply Hz in E. split; split; auto; try discriminate.
    intros Hn; contradiction.
  - apply Z.eqb_neq in E. split; split; auto; try discriminate.
    + intros Heq. apply Hz in Heq. contradiction.
    + intros _ Heq. apply Hz in Heq. contradiction.
Qed.

Example scroll_examples :
  trace (method_call "Scroll" (Params_is 3 "VERTICAL"))
        (mkSt (priv_new (Some "app") STATUS_NOTIFIER_CATEGORY_HARDWARE 1)
              0 1%positive (mkEnv 1 false true))
  = [GSignalEmit SIGNAL_SCROLL
       (ArgsScroll 3 STATUS_NOTIFIER_SCROLL_ORIENTATION_VERTICAL);
     MethodReturn]
  /\ trace (method_call "Scroll" (Params_is (-2) "Horizontal"))
        (mkSt (priv_new (Some "app") STATUS_NOTIFIER_CATEGORY_HARDWARE 1)
              0 1%positive (mkEnv 1 false true))
  = [GSignalEmit SIGNAL_SCROLL
       (ArgsScroll (-2) STATUS_NOTIFIER_SCROLL_ORIENTATION_HORIZONTAL);
     MethodReturn]
  /\ trace (method_call "Scroll" (Params_is 1 ""))
        (mkSt (priv_new (Some "app") STATUS_NOTIFIER_CATEGORY_HARDWARE 1)
              0 1%positive (mkEnv 1 false true))
  = [GSignalEmit SIGNAL_SCROLL
       (ArgsScroll 1 STATUS_NOTIFIER_SCROLL_ORIENTATION_HORIZONTAL);
     MethodReturn]
  /\ trace (method_call "Scroll" (Params_is 1 "verticals"))
        (mkSt (priv_new (Some "app") STATUS_NOTIFIER_CATEGORY_HARDWARE 1)
              0 1%positive (mkEnv 1 false true))
  = [GSignalEmit SIGNAL_SCROLL
       (ArgsScroll 1 STATUS_NOTIFIER_SCROLL_ORIENTATION_HORIZONTAL);
     MethodReturn].
Proof. repeat split. Qed.

(** ** The registration state machine *)

Ltac split_ifs :=
  repeat match goal with
  | |- context [if ?c then _ else _] => destruct c eqn:?; cbn
  | |- context [match ?x with Some _ => _ | None => _ end] =>
      destruct x eqn:?; cbn
  end.

(** Closes [~ In e t] for a trace [t] whose elements all differ from [e]
    by their constructor. *)
Ltac absent :=
  let H := fresh "H" in
  try match goal with |- forall _ : _, ~ _ => intros ? end;
  intros H; repeat (destruct H as [H | H]; [discriminate H |]); exact H.

Ltac conjuncts :=
  repeat match goal with
  | |- _ /\ _ => split
  end.

Example sample_registered_state :
  state (priv sample_registering) = STATUS_NOTIFIER_STATE_REGISTERING
  /\ state (priv sample_registered) = STATUS_NOTIFIER_STATE_REGISTERED
  /\ dbus_conn (priv sample_registered) = Some sample_conn.
Proof. repeat split. Qed.

(** C2. [register ()] on an item that is REGISTERING or REGISTERED does
    nothing: the state of the item is the same and no call is made. On
    an item that is NOT_REGISTERED or FAILED it sets the state to
    REGISTERING and starts one watch on the well-known name of the
    watcher, whose (positive) handle it keeps in [dbus_watch_id]. *)
Theorem register_idempotent_or_starts_watch (s : St) :
  (state (priv s) = STATUS_NOTIFIER_STATE_REGISTERING
   \/ state (priv s) = STATUS_NOTIFIER_STATE_REGISTERED ->
   status_notifier_item_register s = (tt, s, []))
  /\ (state (priv s) = STATUS_NOTIFIER_STATE_NOT_REGISTERED
      \/ state (priv s) = STATUS_NOTIFIER_STATE_FAILED ->
      state (priv (run status_notifier_item_register s))
      = STATUS_NOTIFIER_STATE_REGISTERING
      /\ trace status_notifier_item_register s
         = [BusWatchName WATCHER_NAME
              (dbus_watch_id (priv (run status_notifier_item_register s)))]
      /\ 0 < dbus_watch_id (priv (run status_notifier_item_register s))).
Proof.
  crush_state s. cbn.
  split; intros [H | H]; subst; model_cbn; repeat split; reflexivity.
Qed.

Lemma register_idempotent_or_starts_watch_witness :
  status_notifier_item_register sample_registering = (tt, sample_registering, [])
  /\ status_notifier_item_register sample_registered = (tt, sample_registered, [])
  /\ state (priv (run status_notifier_item_register sample_new))
     = STATUS_NOTIFIER_STATE_REGISTERING
  /\ trace status_notifier_item_register sample_new
     = [BusWatchName "org.kde.StatusNotifierWatcher" 1].
Proof.
  split; [| split].
  - apply (register_idempotent_or_starts_watch sample_registering).
    left; reflexivity.
  - apply (register_idempotent_or_starts_watch sample_registered).
    right; reflexivity.
  - destruct (register_idempotent_or_starts_watch sample_new) as [_ H].
    destruct H as (H1 & H2 & _); [left; reflexivity |].
    split; [exact H1 | exact H2].
Defined.

Lemma watcher_vanished_spec (s : St) :
  let s' := run watcher_vanished s in
  let t := trace watcher_vanished s in
  state (priv s') = state (priv s)
  /\ dbus_watch_id (priv s') = dbus_watch_id (priv s)
  /\ env s' = env s
  /\ (forall id, ~ In (BusUnwatchName id) t)
  /\ ~ In (Notify PROP_STATE) t
  /\ last t = Some (GSignalEmit SIGNAL_REGISTRATION_FAILED
                     (ArgsError (Some (StatusNotifierErr
                        STATUS_NOTIFIER_ERROR_NO_WATCHER "No Watcher found")))).
Proof.
  crush_state s. model_cbn. split_ifs; conjuncts; try reflexivity; absent.
Qed.

Lemma proxy_cb_no_host_spec (s : St) (proxy : GDBusProxy) :
  proxy_host_registered proxy <> Some true ->
  let s' := run (proxy_cb (Some proxy)) s in
  let t := trace (proxy_cb (Some proxy)) s in
  state (priv s') = state (priv s)
  /\ dbus_proxy (priv s') = Some proxy
  /\ env s' = env s
  /\ (forall p, ~ In (ProxyUnref p) t)
  /\ ~ In (Notify PROP_STATE) t
  /\ In (GSignalEmit SIGNAL_REGISTRATION_FAILED
           (ArgsError (Some (StatusNotifierErr
              STATUS_NOTIFIER_ERROR_NO_HOST
              "No Host registered on the Watcher")))) t
  /\ 0 < dbus_sid (priv s')
  /\ last t = Some (SignalConnect (Some proxy) "g-signal" (dbus_sid (priv s'))).
Proof.
  intros Hh. crush_state s. destruct proxy as [pid pc [[|]|]]; cbn in Hh;
    try congruence; clear Hh;
    model_cbn; split_ifs; conjuncts; try reflexivity; try absent;
    try (cbn; auto 10; fail); lia.
Qed.

(** Once the watcher shows up with a host, the callbacks alone take the
    item to REGISTERED, whatever it held before. *)
Lemma deliver_watcher_appeared (k : nat) (watcher : GDBusProxy) (s : St) :
  env_register_object_ok (env s) = true ->
  proxy_host_registered watcher = Some true ->
  state (priv (deliver (5 + k) watcher [Watcher_appeared] s))
  = STATUS_NOTIFIER_STATE_REGISTERED.
Proof.
  intros Hok Hhost. crush_state s.
  match goal with e : Env |- _ => destruct e end. cbn in Hok. subst.
  destruct watcher as [pid pc ph]. cbn in Hhost. subst.
  cbn [Nat.add deliver]. model_cbn. split_ifs; destruct k; reflexivity.
Qed.

(** Once the watcher announces a host, the callbacks alone take an item
    that kept its proxy to REGISTERED. *)
Lemma deliver_host_registered (k : nat) (proxy : GDBusProxy) (s : St) :
  env_register_object_ok (env s) = true ->
  dbus_proxy (priv s) = Some proxy ->
  state (priv (deliver (4 + k) proxy
                 [Watcher_signal "StatusNotifierHostRegistered"] s))
  = STATUS_NOTIFIER_STATE_REGISTERED.
Proof.
  intros Hok Hp. crush_state s.
  match goal with e : Env |- _ => destruct e end. cbn in Hok, Hp. subst.
  cbn [Nat.add deliver]. model_cbn.
  split_ifs; destruct k as [|[|]]; reflexivity.
Qed.

(** C1. The two failures that are not fatal leave the item REGISTERING
    and its subscription armed. When the watcher is found absent
    ([watcher_vanished]) the failure signal is raised with NO_WATCHER,
    the state is not touched and not notified, the watch handle is still
    in [dbus_watch_id] and no unwatch call was made. When the watcher has
    no host ([proxy_cb] with the host flag false or unreadable) the
    failure signal is raised with NO_HOST, the state is not touched, the
    proxy is kept without an unref, and the last call made connects the
    handler of the watcher's signals, whose handle is in [dbus_sid]. From
    either point the callbacks of a bus on which the watcher, or the
    host, then shows up take the item to REGISTERED; [register] is not
    among them. *)
Theorem nonfatal_failure_keeps_registering :
  (forall s : St,
     state (priv s) = STATUS_NOTIFIER_STATE_REGISTERING ->
     let s' := run watcher_vanished s in
     let t := trace watcher_vanished s in
     state (priv s') = STATUS_NOTIFIER_STATE_REGISTERING
     /\ last t = Some (GSignalEmit SIGNAL_REGISTRATION_FAILED
                        (ArgsError (Some (StatusNotifierErr
                           STATUS_NOTIFIER_ERROR_NO_WATCHER "No Watcher found"))))
     /\ ~ In (Notify PROP_STATE) t
     /\ dbus_watch_id (priv s') = dbus_watch_id (priv s)
     /\ (forall id, ~ In (BusUnwatchName id) t)
     /\ (forall (k : nat) (watcher : GDBusProxy),
           env_register_object_ok (env s) = true ->
           proxy_host_registered watcher = Some true ->
           state (priv (deliver (5 + k) watcher [Watcher_appeared] s'))
           = STATUS_NOTIFIER_STATE_REGISTERED))
  /\ (forall (s : St) (proxy : GDBusProxy),
        state (priv s) = STATUS_NOTIFIER_STATE_REGISTERING ->
        proxy_host_registered proxy <> Some true ->
        let s' := run (proxy_cb (Some proxy)) s in
        let t := trace (proxy_cb (Some proxy)) s in
        state (priv s') = STATUS_NOTIFIER_STATE_REGISTERING
        /\ In (GSignalEmit SIGNAL_REGISTRATION_FAILED
                 (ArgsError (Some (StatusNotifierErr
                    STATUS_NOTIFIER_ERROR_NO_HOST
                    "No Host registered on the Watcher")))) t
        /\ ~ In (Notify PROP_STATE) t
        /\ dbus_proxy (priv s') = Some proxy
        /\ (forall p, ~ In (ProxyUnref p) t)
        /\ 0 < dbus_sid (priv s')
        /\ last t
           = Some (SignalConnect (Some proxy) "g-signal" (dbus_sid (priv s')))
        /\ (forall k : nat,
              env_register_object_ok (env s) = true ->
              state (priv (deliver (4 + k) proxy
                             [Watcher_signal "StatusNotifierHostRegistered"] s'))
              = STATUS_NOTIFIER_STATE_REGISTERED)).
Proof.
  split.
  - intros s Hs s' t.
    destruct (watcher_vanished_spec s) as (H1 & H2 & H3 & H4 & H5 & H6).
    fold s' in H1, H2, H3. fold t in H4, H5, H6.
    conjuncts; auto; [congruence |].
    intros k watcher Hok Hh. apply deliver_watcher_appeared; congruence.
  - intros s proxy Hs Hh s' t.
    destruct (proxy_cb_no_host_spec s proxy Hh)
      as (H1 & H2 & H3 & H4 & H5 & H6 & H7 & H8).
    fold s' in H1, H2, H3, H7, H8. fold t in H4, H5, H6, H8.
    conjuncts; auto; [congruence |].
    intros k Hok. apply deliver_host_registered; congruence.
Qed.

Lemma nonfatal_failure_keeps_registering_witness :
  state (priv (run watcher_vanished sample_registering))
  = STATUS_NOTIFIER_STATE_REGISTERING
  /\ state (priv (deliver 5 sample_watcher [Watcher_appeared]
                    (run watcher_vanished sample_registering)))
     = STATUS_NOTIFIER_STATE_REGISTERED
  /\ state (priv (run (proxy_cb (Some sample_watcher_no_host))
                    sample_registering))
     = STATUS_NOTIFIER_STATE_REGISTERING
  /\ state (priv (deliver 4 sample_watcher_no_host
                    [Watcher_signal "StatusNotifierHostRegistered"]
                    (run (proxy_cb (Some sample_watcher_no_host))
                       sample_registering)))
     = STATUS_NOTIFIER_STATE_REGISTERED.
Proof.
  destruct nonfatal_failure_keeps_registering as [Hw Hh].
  destruct (Hw sample_registering eq_refl) as (H1 & _ & _ & _ & _ & H2).
  assert (proxy_host_registered sample_watcher_no_host <> Some true) as Hn
    by discriminate.
  destruct (Hh sample_registering sample_watcher_no_host eq_refl Hn)
    as (H3 & _ & _ & _ & _ & _ & _ & H4).
  split; [exact H1 |].
  split; [exact (H2 0%nat sample_watcher eq_refl eq_refl) |].
  split; [exact H3 | exact (H4 0%nat eq_refl)].
Defined.

(** ** The icon codec *)

Lemma testbit_255 n : 0 <= n -> Z.testbit 255 n = (n <? 8).
Proof.
  intros Hn. change 255 with (Z.ones 8).
  destruct (n <? 8) eqn:E.
  - apply Z.ltb_lt in E. apply Z.ones_spec_low. lia.
  - apply Z.ltb_ge in E. apply Z.ones_spec_high. lia.
Qed.

Lemma testbit_mask k n :
  0 <= k -> 0 <= n ->
  Z.testbit (Z.shiftl 255 k) n = (k <=? n) && (n <? k + 8).
Proof.
  intros Hk Hn. rewrite Z.shiftl_spec by lia.
  destruct (k <=? n) eqn:E.
  - apply Z.leb_le in E. rewrite testbit_255 by lia. cbn.
    destruct (n - k <? 8) eqn:E1, (n <? k + 8) eqn:E2; try reflexivity;
      rewrite ?Z.ltb_lt, ?Z.ltb_ge in *; lia.
  - apply Z.leb_gt in E. rewrite Z.testbit_neg_r by lia. reflexivity.
Qed.

Ltac decide_cmp :=
  repeat match goal with
  | |- context [?a <=? ?b] =>
      first [ replace (a <=? b) with true by (symmetry; apply Z.leb_le; lia)
            | replace (a <=? b) with false by (symmetry; apply Z.leb_gt; lia) ]
  | |- context [?a <? ?b] =>
      first [ replace (a <? b) with true by (symmetry; apply Z.ltb_lt; lia)
            | replace (a <? b) with false by (symmetry; apply Z.ltb_ge; lia) ]
  end.

Lemma testbit_shl_mask w m k i :
  0 <= m -> 0 <= k -> 0 <= i ->
  Z.testbit (Z.shiftl (Z.land w (Z.shiftl 255 m)) k) i
  = Z.testbit w (i - k) && ((m + k <=? i) && (i <? m + k + 8)).
Proof.
  intros Hm Hk Hi. rewrite Z.shiftl_spec by lia.
  destruct (Z.lt_ge_cases i k) as [Hlt | Hge].
  - rewrite !Z.testbit_neg_r by lia. reflexivity.
  - rewrite Z.land_spec, testbit_mask by lia. f_equal.
    destruct (m <=? i - k) eqn:E1, (m + k <=? i) eqn:E2,
             (i - k <? m + 8) eqn:E3, (i <? m + k + 8) eqn:E4;
      try reflexivity;
      rewrite ?Z.leb_le, ?Z.leb_gt, ?Z.ltb_lt, ?Z.ltb_ge in *; lia.
Qed.

Lemma byte_of_swap (w k : Z) :
  In k [0; 8; 16; 24] ->
  Z.land (Z.shiftr (GUINT32_SWAP_LE_BE w) k) 255
  = Z.land (Z.shiftr w (24 - k)) 255.
Proof.
  intros Hk. unfold GUINT32_SWAP_LE_BE.
  change 0xff00 with (Z.shiftl 255 8).
  change 0xff0000 with (Z.shiftl 255 16). change 0xff000000 with (Z.shiftl 255 24).
  apply Z.bits_inj'. intros n Hn.
  rewrite !Z.land_spec, (testbit_255 n) by lia.
  destruct (n <? 8) eqn:E; [| rewrite !andb_false_r; reflexivity].
  apply Z.ltb_lt in E. rewrite !andb_true_r.
  change (Z.land w 255) with (Z.land w (Z.shiftl 255 0)).
  cbn in Hk. destruct Hk as [<- | [<- | [<- | [<- | []]]]];
    rewrite !Z.shiftr_spec, !Z.lor_spec by lia;
    rewrite ?Z.shiftr_spec by lia;
    rewrite !testbit_shl_mask by lia;
    rewrite !Z.land_spec;
    rewrite !testbit_mask by lia;
    decide_cmp; cbn [andb orb];
    rewrite ?andb_false_r, ?andb_true_r, ?orb_false_r; cbn [andb orb];
    f_equal; lia.
Qed.

Lemma guint_bytes_swap (w : Z) :
  guint_bytes G_LITTLE_ENDIAN (GUINT32_SWAP_LE_BE w) = big_endian_bytes w.
Proof.
  unfold guint_bytes, big_endian_bytes.
  rewrite <- (Z.shiftr_0_r (GUINT32_SWAP_LE_BE w)) at 1.
  rewrite !byte_of_swap by (cbn; auto). reflexivity.
Qed.

Lemma guint_bytes_big_endian (w : Z) :
  guint_bytes G_BIG_ENDIAN w = big_endian_bytes w.
Proof. reflexivity. Qed.

Lemma swap_loop_all (pre data : list Z) :
  swap_loop (length data) (length pre) (pre ++ data)
  = pre ++ map GUINT32_SWAP_LE_BE data.
Proof.
  revert pre. induction data as [| w data IH]; intros pre; cbn [swap_loop length map].
  - reflexivity.
  - replace (alter GUINT32_SWAP_LE_BE (length pre) (pre ++ w :: data))
      with ((pre ++ [GUINT32_SWAP_LE_BE w]) ++ data).
    + replace (S (length pre)) with (length (pre ++ [GUINT32_SWAP_LE_BE w]))
        by (rewrite length_app; cbn; lia).
      rewrite IH, <- app_assoc. reflexivity.
    + rewrite <- (Nat.add_0_r (length pre)), alter_app_r, <- app_assoc.
      reflexivity.
Qed.

Lemma guint_array_bytes_length order data :
  length (guint_array_bytes order data) = (4 * length data)%nat.
Proof.
  unfold guint_array_bytes. induction data as [| w data IH]; cbn [flat_map].
  - reflexivity.
  - rewrite length_app, IH. destruct order; cbn; lia.
Qed.

Lemma guint_array_bytes_swapped data :
  guint_array_bytes G_LITTLE_ENDIAN (map GUINT32_SWAP_LE_BE data)
  = flat_map big_endian_bytes data.
Proof.
  unfold guint_array_bytes. induction data as [| w data IH]; cbn [flat_map map].
  - reflexivity.
  - rewrite guint_bytes_swap, IH. reflexivity.
Qed.

(** C4. For a slot that holds a bitmap, the encoder gives one entry with
    the width and the height of the bitmap as they are and, for every
    pixel word of the painted surface in order, its four bytes from the
    most significant to the least: the same bytes on a little-endian
    host, where every word is swapped first, and on a big-endian host.
    For a slot whose flag says there is no bitmap (an icon name, or
    nothing) the encoder gives no builder. *)
Theorem icon_pixmap_big_endian :
  (forall (order : byte_order) (p : Priv) (icon : StatusNotifierIcon)
          (pixbuf : GdkPixbuf),
     priv_icon p icon = mkIcon true (U_pixbuf (Some pixbuf)) ->
     pixbuf_painted pixbuf ->
     get_builder_for_icon_pixmap order p icon
     = Some [(pixbuf_width pixbuf, pixbuf_height pixbuf,
              flat_map big_endian_bytes (pixbuf_argb pixbuf))])
  /\ (forall (order : byte_order) (p : Priv) (icon : StatusNotifierIcon),
        has_pixbuf (priv_icon p icon) = false ->
        get_builder_for_icon_pixmap order p icon = None).
Proof.
  split.
  - intros order p icon pixbuf Hc (Hw & Hh & Hsz & Hlen).
    unfold get_builder_for_icon_pixmap, cairo_image_surface_get_stride.
    rewrite Hc. cbn [has_pixbuf negb icon_u union_pixbuf].
    assert (0 <= 4 * pixbuf_width pixbuf * pixbuf_height pixbuf) by nia.
    assert (Z.to_nat (4 * pixbuf_width pixbuf * pixbuf_height pixbuf)
            = (4 * length (pixbuf_argb pixbuf))%nat) as Hbytes.
    { rewrite Hlen. rewrite <- Z.mul_assoc, Z2Nat.inj_mul by nia. reflexivity. }
    destruct order.
    + rewrite Z.mod_small by (split; [lia | ]; transitivity (2 ^ 31); lia).
      replace (4 * pixbuf_width pixbuf * pixbuf_height pixbuf / 4)
        with (pixbuf_width pixbuf * pixbuf_height pixbuf)
        by (apply Z.div_unique_exact; lia).
      rewrite <- Hlen.
      pose proof (swap_loop_all [] (pixbuf_argb pixbuf)) as Hloop.
      cbn [length app] in Hloop. rewrite Hloop.
      rewrite guint_array_bytes_swapped.
      rewrite firstn_all2; [reflexivity |].
      rewrite Hbytes, <- guint_array_bytes_swapped, guint_array_bytes_length,
        length_map. lia.
    + rewrite firstn_all2.
      * unfold guint_array_bytes. f_equal.
      * rewrite Hbytes, guint_array_bytes_length. lia.
  - intros order p icon H. unfold get_builder_for_icon_pixmap. rewrite H.
    reflexivity.
Qed.

Lemma icon_pixmap_big_endian_witness :
  get_builder_for_icon_pixmap G_LITTLE_ENDIAN (priv sample_with_pixbuf)
    STATUS_NOTIFIER_ICON
  = Some [(2, 1, [0x11; 0x22; 0x33; 0x44; 0xAA; 0xBB; 0xCC; 0xDD])]
  /\ get_builder_for_icon_pixmap G_BIG_ENDIAN (priv sample_with_pixbuf)
       STATUS_NOTIFIER_ICON
     = Some [(2, 1, [0x11; 0x22; 0x33; 0x44; 0xAA; 0xBB; 0xCC; 0xDD])]
  /\ get_builder_for_icon_pixmap G_LITTLE_ENDIAN (priv sample_new)
       STATUS_NOTIFIER_ICON = None.
Proof.
  destruct icon_pixmap_big_endian as [Hbitmap Hnone].
  assert (pixbuf_painted sample_pixbuf) as Hp.
  { unfold pixbuf_painted; cbn; repeat split; lia. }
  split; [| split].
  - exact (Hbitmap G_LITTLE_ENDIAN (priv sample_with_pixbuf)
             STATUS_NOTIFIER_ICON sample_pixbuf eq_refl Hp).
  - exact (Hbitmap G_BIG_ENDIAN (priv sample_with_pixbuf)
             STATUS_NOTIFIER_ICON sample_pixbuf eq_refl Hp).
  - exact (Hnone G_LITTLE_ENDIAN (priv sample_new) STATUS_NOTIFIER_ICON eq_refl).
Defined.

(** ** Tooltip batches *)

(** Decides the integer tests of the goal from the hypotheses. *)
Ltac decide_tests :=
  repeat first
    [ rewrite Z.mod_small by lia
    | match goal with
      | |- context [?a =? ?b] =>
          first [ replace (a =? b) with true by (symmetry; apply Z.eqb_eq; lia)
                | replace (a =? b) with false by (symmetry; apply Z.eqb_neq; lia) ]
      | |- context [?a <? ?b] =>
          first [ replace (a <? b) with true by (symmetry; apply Z.ltb_lt; lia)
                | replace (a <? b) with false by (symmetry; apply Z.ltb_ge; lia) ]
      end
    | progress cbn ].

Lemma tooltip_mutation_frozen (c : call) (s : St) :
  tooltip_mutation c = true ->
  0 < tooltip_freeze (priv s) < 2 ^ 32 - 1 ->
  wire_signals (trace (perform c) s) = []
  /\ tooltip_freeze (priv (run (perform c) s)) = tooltip_freeze (priv s)
  /\ state (priv (run (perform c) s)) = state (priv s)
  /\ dbus_conn (priv (run (perform c) s)) = dbus_conn (priv s).
Proof.
  intros Hc Hf. crush_state s. cbn in Hf.
  destruct c; try discriminate Hc;
    try match goal with
    | i : StatusNotifierIcon |- _ => destruct i; try discriminate Hc
    end;
    model_cbn; decide_tests; repeat split; try reflexivity.
  all: try lia.
Qed.

Lemma tooltip_mutations_frozen (muts : list call) (s : St) :
  Forall (fun c => tooltip_mutation c = true) muts ->
  0 < tooltip_freeze (priv s) < 2 ^ 32 - 1 ->
  wire_signals (trace (perform_all muts) s) = []
  /\ tooltip_freeze (priv (run (perform_all muts) s)) = tooltip_freeze (priv s)
  /\ state (priv (run (perform_all muts) s)) = state (priv s)
  /\ dbus_conn (priv (run (perform_all muts) s)) = dbus_conn (priv s).
Proof.
  intros Hm. revert s. induction Hm as [| c muts Hc Hm IH]; intros s Hf.
  - repeat split.
  - cbn [perform_all]. rewrite trace_bind, run_bind, wire_signals_app.
    destruct (tooltip_mutation_frozen c s Hc Hf) as (H1 & H2 & H3 & H4).
    destruct (IH (run (perform c) s)) as (I1 & I2 & I3 & I4); [lia |].
    rewrite H1, I1, I2, I3, I4. auto.
Qed.

(** C5. A batch opened on an item whose freeze count is zero, around any
    number of changes of the tooltip fields (the two tooltip strings, the
    tooltip icon by name or by bitmap, and the two helpers that set all
    three), ends with the count back at zero. On a registered item the
    batch sends exactly one DBus signal, NewToolTip, and it is the last
    thing the batch does; on an item that is not registered it sends
    none. [thaw_tooltip] at count zero fails its precondition check: the
    item is untouched and nothing but the warning of the check is
    produced. *)
Theorem tooltip_batch_emits_once :
  (forall (muts : list call) (s : St),
     Forall (fun c => tooltip_mutation c = true) muts ->
     tooltip_freeze (priv s) = 0 ->
     tooltip_freeze (priv (run (tooltip_batch muts) s)) = 0
     /\ (state (priv s) = STATUS_NOTIFIER_STATE_REGISTERED ->
         wire_signals (trace (tooltip_batch muts) s)
         = [DBusEmitSignal (dbus_conn (priv s)) "NewToolTip" None]
         /\ last (trace (tooltip_batch muts) s)
            = Some (DBusEmitSignal (dbus_conn (priv s)) "NewToolTip" None))
     /\ (state (priv s) <> STATUS_NOTIFIER_STATE_REGISTERED ->
         wire_signals (trace (tooltip_batch muts) s) = []))
  /\ (forall s : St,
        tooltip_freeze (priv s) = 0 ->
        status_notifier_item_thaw_tooltip s = (tt, s, [GCritical])).
Proof.
  split.
  - intros muts s Hm Hz. unfold tooltip_batch.
    rewrite !trace_bind, !run_bind.
    remember (run status_notifier_item_freeze_tooltip s) as s1 eqn:Es1.
    assert (tooltip_freeze (priv s1) = 1 /\ state (priv s1) = state (priv s)
            /\ dbus_conn (priv s1) = dbus_conn (priv s)
            /\ trace status_notifier_item_freeze_tooltip s = [])
      as (F1 & F2 & F3 & F4).
    { subst s1. crush_state s. cbn in Hz. subst. repeat split. }
    destruct (tooltip_mutations_frozen muts s1 Hm) as (M1 & M2 & M3 & M4);
      [lia |].
    remember (run (perform_all muts) s1) as s2 eqn:Es2.
    assert (tooltip_freeze (priv s2) = 1) as T1 by congruence.
    assert (state (priv s2) = state (priv s)) as T2 by congruence.
    assert (dbus_conn (priv s2) = dbus_conn (priv s)) as T3 by congruence.
    clear Es1 Es2 M2 M3 M4 F1 F2 F3.
    rewrite F4. cbn [app]. rewrite wire_signals_app, M1. cbn [app].
    split; [| split].
    + crush_state s2. cbn in T1. subst. clear T2.
      match goal with st : StatusNotifierState |- _ => destruct st end;
        reflexivity.
    + intros Hr. rewrite Hr in T2.
      assert (trace status_notifier_item_thaw_tooltip s2
              = [DBusEmitSignal (dbus_conn (priv s)) "NewToolTip" None]) as ->.
      { rewrite <- T3. crush_state s2. cbn in T1, T2. subst. reflexivity. }
      split; [reflexivity |]. apply last_snoc.
    + intros Hr. rewrite <- T2 in Hr. crush_state s2. cbn in T1, Hr. subst.
      match goal with st : StatusNotifierState |- _ => destruct st end;
        try congruence; reflexivity.
  - intros s Hz. crush_state s. cbn in Hz. subst. reflexivity.
Qed.

Lemma tooltip_batch_emits_once_witness :
  wire_signals
    (trace (tooltip_batch [Set_tooltip_title (Some "t");
                           Set_tooltip_body (Some "b");
                           Set_from_icon_name STATUS_NOTIFIER_TOOLTIP_ICON
                             (Some "i")])
           sample_registered)
  = [DBusEmitSignal (Some sample_conn) "NewToolTip" None]
  /\ wire_signals (trace (tooltip_batch []) sample_registered)
     = [DBusEmitSignal (Some sample_conn) "NewToolTip" None]
  /\ wire_signals (trace (tooltip_batch [Set_tooltip_title (Some "t")])
                     sample_registering) = []
  /\ status_notifier_item_thaw_tooltip sample_registered
     = (tt, sample_registered, [GCritical]).
Proof.
  destruct tooltip_batch_emits_once as [Hbatch Hthaw].
  split; [| split; [| split]].
  - refine (proj1 (proj1 (proj2 (Hbatch _ sample_registered _ eq_refl)) eq_refl)).
    repeat constructor.
  - refine (proj1 (proj1 (proj2 (Hbatch [] sample_registered _ eq_refl)) eq_refl)).
    constructor.
  - refine (proj2 (proj2 (Hbatch _ sample_registering _ eq_refl)) _).
    + repeat constructor.
    + discriminate.
  - exact (Hthaw sample_registered eq_refl).
Defined.

(** ** Icon slots *)

Lemma keeps_icons_bind {A B} (m : M A) (f : A -> M B) :
  keeps_icons m -> (forall a, keeps_icons (f a)) -> keeps_icons (m ≫= f).
Proof. intros Hm Hf s. rewrite run_bind, Hf, Hm. reflexivity. Qed.

Lemma keeps_icons_pure {A} (m : M A) :
  (forall s, priv (run m s) = priv s) -> keeps_icons m.
Proof. intros H s. rewrite H. reflexivity. Qed.

Lemma keeps_icons_modify_priv (f : Priv -> Priv) :
  (forall p, icon (f p) = icon p) -> keeps_icons (modify_priv f).
Proof. intros H s. apply H. Qed.

Ltac keeps_icons_step :=
  first
    [ apply keeps_icons_pure; reflexivity
    | apply keeps_icons_modify_priv; reflexivity
    | apply keeps_icons_bind; [| intros ?]
    | match goal with
      | |- keeps_icons (if ?c then _ else _) => destruct c
      | |- keeps_icons (match ?x with _ => _ end) => destruct x
      end ].

Ltac keeps_icons_auto := repeat keeps_icons_step.

Lemma keeps_icons_dbus_failed e fatal : keeps_icons (dbus_failed e fatal).
Proof. unfold dbus_failed. keeps_icons_auto. Qed.

Lemma keeps_icons_dbus_reg_item : keeps_icons dbus_reg_item.
Proof. unfold dbus_reg_item. keeps_icons_auto. Qed.

Lemma keeps_icons_dbus_notify prop : keeps_icons (dbus_notify prop).
Proof. unfold dbus_notify. keeps_icons_auto. Qed.

Lemma keeps_icons_other (c : call) :
  match c with
  | Set_from_pixbuf _ _ | Set_from_icon_name _ _
  | Set_tooltip _ _ _ | Set_tooltip_with_pixbuf _ _ _ => True
  | _ => keeps_icons (perform c)
  end.
Proof.
  destruct c; try exact I; cbn [perform].
  all: try (unfold status_notifier_item_set_attention_movie_name,
      status_notifier_item_set_title, status_notifier_item_set_status,
      status_notifier_item_set_window_id, status_notifier_item_freeze_tooltip,
      status_notifier_item_thaw_tooltip, status_notifier_item_set_tooltip_title,
      status_notifier_item_set_tooltip_body, status_notifier_item_set_item_is_menu,
      status_notifier_item_register, method_call, watcher_appeared,
      watcher_vanished, proxy_cb, watcher_signal, bus_acquired, name_acquired,
      name_lost, register_item_cb; keeps_icons_auto).
Qed.

Ltac destruct_state :=
  match goal with st : StatusNotifierState |- _ => destruct st end.

Lemma set_from_icon_name_cell (s : St) (i : StatusNotifierIcon)
    (icon_name : option string) :
  let p' := priv (run (status_notifier_item_set_from_icon_name i icon_name) s) in
  priv_icon p' i = mkIcon false (U_icon_name icon_name)
  /\ forall j, j <> i -> priv_icon p' j = priv_icon (priv s) j.
Proof.
  crush_state s. destruct_state; destruct i; model_cbn; split_ifs;
    (split; [reflexivity | intros [] Hj; try reflexivity; congruence]).
Qed.

Lemma set_from_pixbuf_cell (s : St) (i : StatusNotifierIcon)
    (pixbuf : option GdkPixbuf) :
  let p' := priv (run (status_notifier_item_set_from_pixbuf i pixbuf) s) in
  priv_icon p' i = mkIcon true (U_pixbuf pixbuf)
  /\ forall j, j <> i -> priv_icon p' j = priv_icon (priv s) j.
Proof.
  crush_state s. destruct_state; destruct i; model_cbn; split_ifs;
    (split; [reflexivity | intros [] Hj; try reflexivity; congruence]).
Qed.

Lemma set_tooltip_cell (s : St) (icon_name title body : option string) :
  let p' := priv (run (status_notifier_item_set_tooltip icon_name title body) s) in
  priv_icon p' STATUS_NOTIFIER_TOOLTIP_ICON = mkIcon false (U_icon_name icon_name)
  /\ forall j, j <> STATUS_NOTIFIER_TOOLTIP_ICON ->
               priv_icon p' j = priv_icon (priv s) j.
Proof.
  crush_state s. destruct_state; model_cbn; split_ifs;
    (split; [reflexivity | intros [] Hj; try reflexivity; congruence]).
Qed.

Lemma set_tooltip_with_pixbuf_cell (s : St) (pixbuf : option GdkPixbuf)
    (title body : option string) :
  let p' := priv (run (status_notifier_item_set_tooltip_with_pixbuf
                         pixbuf title body) s) in
  priv_icon p' STATUS_NOTIFIER_TOOLTIP_ICON = mkIcon true (U_pixbuf pixbuf)
  /\ forall j, j <> STATUS_NOTIFIER_TOOLTIP_ICON ->
               priv_icon p' j = priv_icon (priv s) j.
Proof.
  crush_state s. destruct_state; model_cbn; split_ifs;
    (split; [reflexivity | intros [] Hj; try reflexivity; congruence]).
Qed.

Lemma icon_eq_dec (i j : StatusNotifierIcon) : {i = j} + {i <> j}.
Proof. decide equality. Qed.

Lemma cell_update_consistent (p p' : Priv) (i : StatusNotifierIcon) (c : icon_cell) :
  icons_consistent p ->
  icon_cell_consistent c ->
  priv_icon p' i = c ->
  (forall j, j <> i -> priv_icon p' j = priv_icon p j) ->
  icons_consistent p'.
Proof.
  intros Hp Hc Hi Hj j. destruct (icon_eq_dec j i) as [-> | Hne].
  - rewrite Hi. exact Hc.
  - rewrite Hj by exact Hne. apply Hp.
Qed.

Lemma perform_icons_consistent (c : call) (s : St) :
  icons_consistent (priv s) -> icons_consistent (priv (run (perform c) s)).
Proof.
  intros Hs. pose proof (keeps_icons_other c) as Hk.
  destruct c; cbn [perform] in *;
    try (intros j; unfold priv_icon; rewrite Hk; apply Hs).
  - match goal with
    | |- context [status_notifier_item_set_from_pixbuf ?i ?pb] =>
        destruct (set_from_pixbuf_cell s i pb) as [H1 H2];
        eapply (cell_update_consistent (priv s) _ i);
          [exact Hs | | exact H1 | exact H2]; reflexivity
    end.
  - match goal with
    | |- context [status_notifier_item_set_from_icon_name ?i ?nm] =>
        destruct (set_from_icon_name_cell s i nm) as [H1 H2];
        eapply (cell_update_consistent (priv s) _ i);
          [exact Hs | | exact H1 | exact H2]; reflexivity
    end.
  - match goal with
    | |- context [status_notifier_item_set_tooltip ?nm ?t ?b] =>
        destruct (set_tooltip_cell s nm t b) as [H1 H2];
        eapply (cell_update_consistent (priv s) _ STATUS_NOTIFIER_TOOLTIP_ICON);
          [exact Hs | | exact H1 | exact H2]; reflexivity
    end.
  - match goal with
    | |- context [status_notifier_item_set_tooltip_with_pixbuf ?pb ?t ?b] =>
        destruct (set_tooltip_with_pixbuf_cell s pb t b) as [H1 H2];
        eapply (cell_update_consistent (priv s) _ STATUS_NOTIFIER_TOOLTIP_ICON);
          [exact Hs | | exact H1 | exact H2]; reflexivity
    end.
Qed.

Lemma perform_all_icons_consistent (cs : list call) (s : St) :
  icons_consistent (priv s) -> icons_consistent (priv (run (perform_all cs) s)).
Proof.
  revert s. induction cs as [| c cs IH]; intros s Hs; cbn [perform_all].
  - exact Hs.
  - rewrite run_bind. apply IH, perform_icons_consistent, Hs.
Qed.

(** C6. A slot never holds both representations. Setting an icon name
    leaves the slot without a bitmap, whatever it held, and with that
    name; setting a bitmap leaves it without a name and with that bitmap.
    In every state an item reaches from its creation, by any sequence of
    calls and callbacks, the flag of every slot agrees with what the
    slot stores, and at most one of the two getters gives a value. *)
Theorem icon_slot_mutual_exclusion :
  (forall (s : St) (icon : StatusNotifierIcon) (icon_name : option string),
     let p' := priv (run (status_notifier_item_set_from_icon_name icon icon_name) s) in
     status_notifier_item_has_pixbuf p' icon = false
     /\ status_notifier_item_get_pixbuf p' icon = None
     /\ status_notifier_item_get_icon_name p' icon = icon_name)
  /\ (forall (s : St) (icon : StatusNotifierIcon) (pixbuf : option GdkPixbuf),
        let p' := priv (run (status_notifier_item_set_from_pixbuf icon pixbuf) s) in
        status_notifier_item_has_pixbuf p' icon = true
        /\ status_notifier_item_get_icon_name p' icon = None
        /\ status_notifier_item_get_pixbuf p' icon = pixbuf)
  /\ (forall (id : option string) (category : StatusNotifierCategory)
             (register_name_on_bus uniq : Z) (handle : positive) (e : Env)
             (cs : list call) (icon : StatusNotifierIcon),
        let p := priv (run (perform_all cs)
                         (mkSt (priv_new id category register_name_on_bus)
                               uniq handle e)) in
        icon_cell_consistent (priv_icon p icon)
        /\ (status_notifier_item_get_icon_name p icon = None
            \/ status_notifier_item_get_pixbuf p icon = None)).
Proof.
  split; [| split].
  - intros s icon icon_name p'.
    destruct (set_from_icon_name_cell s icon icon_name) as [H _]. fold p' in H.
    unfold status_notifier_item_has_pixbuf, status_notifier_item_get_pixbuf,
      status_notifier_item_get_icon_name. rewrite H. repeat split.
  - intros s icon pixbuf p'.
    destruct (set_from_pixbuf_cell s icon pixbuf) as [H _]. fold p' in H.
    unfold status_notifier_item_has_pixbuf, status_notifier_item_get_pixbuf,
      status_notifier_item_get_icon_name. rewrite H. repeat split.
  - intros id category policy uniq handle e cs icon p. split.
    + apply perform_all_icons_consistent. intros []; reflexivity.
    + unfold status_notifier_item_get_icon_name, status_notifier_item_get_pixbuf.
      destruct (has_pixbuf (priv_icon p icon)); [left | right]; reflexivity.
Qed.

(** ** Identity resolution *)

Lemma should_register_name_auto (s : St) :
  register_bus_name (priv s) = -1 ->
  trace should_register_name s
  = [FileTest "/.flatpak-info"; Notify PROP_REGISTER_NAME_ON_BUS]
  /\ register_bus_name (priv (run should_register_name s))
     = (if env_flatpak_info (env s) then 0 else 1)
  /\ result should_register_name s = negb (env_flatpak_info (env s)).
Proof.
  intros H. crush_state s. cbn in H. subst. model_cbn.
  match goal with e : Env |- _ => destruct e as [? [] ?] end; repeat split.
Qed.

Lemma should_register_name_decided (s : St) :
  register_bus_name (priv s) <> -1 ->
  should_register_name s
  = (negb (register_bus_name (priv s) =? 0), s, []).
Proof.
  intros H. crush_state s. cbn in H. model_cbn.
  match goal with
  | |- context [?a =? -1] =>
      replace (a =? -1) with false by (symmetry; apply Z.eqb_neq; exact H)
  end.
  reflexivity.
Qed.

Lemma should_register_name_settles (s : St) :
  register_bus_name (priv (run should_register_name s)) <> -1.
Proof.
  destruct (Z.eq_dec (register_bus_name (priv s)) (-1)) as [Ha | Hd].
  - destruct (should_register_name_auto s Ha) as (_ & -> & _).
    destruct (env_flatpak_info (env s)); discriminate.
  - unfold run. rewrite (should_register_name_decided s Hd). exact Hd.
Qed.

Lemma should_register_name_answer (s : St) :
  result should_register_name s
  = negb (register_bus_name (priv (run should_register_name s)) =? 0).
Proof.
  destruct (Z.eq_dec (register_bus_name (priv s)) (-1)) as [Ha | Hd].
  - destruct (should_register_name_auto s Ha) as (_ & -> & ->).
    destruct (env_flatpak_info (env s)); reflexivity.
  - unfold run, result. rewrite (should_register_name_decided s Hd). reflexivity.
Qed.

Lemma marker_reads_of_app i t1 t2 :
  marker_reads_of i (t1 ++ t2) = (marker_reads_of i t1 + marker_reads_of i t2)%nat.
Proof. unfold marker_reads_of. rewrite List.filter_app, length_app. reflexivity. Qed.

Lemma marker_reads_of_other i j (t : list effect) :
  j <> i -> marker_reads_of i (map (pair j) t) = 0%nat.
Proof.
  intros Hne. unfold marker_reads_of. induction t as [| e t IH]; cbn.
  - reflexivity.
  - replace (j =? i)%nat with false by (symmetry; apply Nat.eqb_neq; exact Hne).
    cbn. exact IH.
Qed.

Lemma marker_reads_of_resolution i (s : St) :
  (marker_reads_of i (map (pair i) (trace should_register_name s)) <= 1)%nat
  /\ (register_bus_name (priv s) <> -1 ->
      marker_reads_of i (map (pair i) (trace should_register_name s)) = 0%nat).
Proof.
  destruct (Z.eq_dec (register_bus_name (priv s)) (-1)) as [Ha | Hd].
  - destruct (should_register_name_auto s Ha) as (-> & _). split; [| congruence].
    unfold marker_reads_of. cbn. rewrite Nat.eqb_refl. cbn. lia.
  - unfold trace. rewrite (should_register_name_decided s Hd). cbn.
    split; [lia | reflexivity].
Qed.

Lemma on_item_resolution (j : nat) (ps : Process) (p : Priv) :
  items ps !! j = Some p ->
  let s := mkSt p (p_uniq_id ps) (p_next_handle ps) (p_env ps) in
  on_item j should_register_name ps
  = Some (result should_register_name s,
          mkProcess (<[j := priv (run should_register_name s)]> (items ps))
                    (uniq_id (run should_register_name s))
                    (next_handle (run should_register_name s)) (p_env ps),
          trace should_register_name s).
Proof.
  intros Hp s. unfold on_item. rewrite Hp. fold s.
  unfold result, run, trace. destruct (should_register_name s) as [[a s'] t].
  reflexivity.
Qed.

Lemma resolve_decided (rs : list nat) (ps : Process) (i : nat) :
  decided i ps -> marker_reads_of i (resolve_identities rs ps) = 0%nat.
Proof.
  revert ps. induction rs as [| j rs IH]; intros ps Hd; cbn [resolve_identities].
  - reflexivity.
  - destruct (items ps !! j) as [p |] eqn:Hp.
    + rewrite (on_item_resolution j ps p Hp). cbn zeta.
      rewrite marker_reads_of_app.
      set (s := mkSt p (p_uniq_id ps) (p_next_handle ps) (p_env ps)).
      rewrite IH.
      * destruct (Nat.eq_dec j i) as [-> | Hne].
        -- rewrite (proj2 (marker_reads_of_resolution i s)); [reflexivity |].
           apply (Hd p Hp).
        -- rewrite marker_reads_of_other by exact Hne. reflexivity.
      * intros q Hq. cbn in Hq.
        destruct (Nat.eq_dec j i) as [-> | Hne].
        -- rewrite list_lookup_insert_eq in Hq by (eapply lookup_lt_Some; eauto).
           injection Hq as <-. apply should_register_name_settles.
        -- rewrite list_lookup_insert_ne in Hq by exact Hne. apply (Hd q Hq).
    + unfold on_item. rewrite Hp. apply IH, Hd.
Qed.

Lemma resolve_once (rs : list nat) (ps : Process) (i : nat) :
  (marker_reads_of i (resolve_identities rs ps) <= 1)%nat.
Proof.
  revert ps. induction rs as [| j rs IH]; intros ps; cbn [resolve_identities].
  - cbn. lia.
  - destruct (items ps !! j) as [p |] eqn:Hp.
    + rewrite (on_item_resolution j ps p Hp). cbn zeta.
      rewrite marker_reads_of_app.
      set (s := mkSt p (p_uniq_id ps) (p_next_handle ps) (p_env ps)).
      destruct (Nat.eq_dec j i) as [-> | Hne].
      * rewrite resolve_decided.
        -- pose proof (proj1 (marker_reads_of_resolution i s)). lia.
        -- intros q Hq. cbn in Hq.
           rewrite list_lookup_insert_eq in Hq by (eapply lookup_lt_Some; eauto).
           injection Hq as <-. apply should_register_name_settles.
      * rewrite marker_reads_of_other by exact Hne. apply IH.
    + unfold on_item. rewrite Hp. apply IH.
Qed.

(** C9, as stated, does not hold: the answer is kept in the item, not in
    the process. With two items created with the policy -1, the marker
    is read once for each of them, twice in all. *)
Lemma marker_read_by_each_item :
  marker_reads (resolve_identities [0; 1; 0; 1]%nat two_auto_items) = 2%nat
  /\ ~ (forall (rs : list nat) (ps : Process),
          (marker_reads (resolve_identities rs ps) <= 1)%nat).
Proof.
  assert (marker_reads (resolve_identities [0; 1; 0; 1]%nat two_auto_items) = 2%nat)
    as H by reflexivity.
  split; [exact H |].
  intros Hall. specialize (Hall [0; 1; 0; 1]%nat two_auto_items).
  rewrite H in Hall. lia.
Qed.

(** C9, amended. Under the policy -1 an item reads the sandbox marker on
    its first identity resolution and stores the answer in its own
    policy field (1 when the marker is absent, 0 when it is present); a
    later resolution of the same item makes no call at all, leaves the
    item as it is and gives the answer of the first. In any sequence of
    resolutions over the items of a process, the marker is read at most
    once for each item. *)
Theorem marker_read_once_per_item :
  (forall s : St,
     register_bus_name (priv s) = -1 ->
     trace should_register_name s
     = [FileTest "/.flatpak-info"; Notify PROP_REGISTER_NAME_ON_BUS]
     /\ register_bus_name (priv (run should_register_name s))
        = (if env_flatpak_info (env s) then 0 else 1)
     /\ result should_register_name s = negb (env_flatpak_info (env s)))
  /\ (forall s : St,
        let s1 := run should_register_name s in
        should_register_name s1 = (result should_register_name s, s1, []))
  /\ (forall (rs : list nat) (ps : Process) (i : nat),
        (marker_reads_of i (resolve_identities rs ps) <= 1)%nat).
Proof.
  split; [exact should_register_name_auto | split].
  - intros s s1. subst s1.
    rewrite should_register_name_decided by apply should_register_name_settles.
    rewrite <- should_register_name_answer. reflexivity.
  - exact resolve_once.
Qed.

Lemma marker_read_once_per_item_witness :
  trace should_register_name sample_new
  = [FileTest "/.flatpak-info"; Notify PROP_REGISTER_NAME_ON_BUS]
  /\ register_bus_name (priv (run should_register_name sample_new)) = 1
  /\ should_register_name (run should_register_name sample_new)
     = (true, run should_register_name sample_new, []).
Proof.
  destruct marker_read_once_per_item as (Hfirst & Hnext & _).
  destruct (Hfirst sample_new eq_refl) as (H1 & H2 & _).
  split; [exact H1 | split; [exact H2 | exact (Hnext sample_new)]].
Defined.

(** ** Property reads *)

(** C7, as stated, does not hold for [Id]: the stored pointer is handed
    to [g_variant_new] as it is, and for an item created without an id
    it is NULL, not the empty string. *)
Lemma get_prop_id_unset :
  id item_without_id = None
  /\ get_prop G_LITTLE_ENDIAN item_without_id "Id" = Some (Variant_s None)
  /\ get_prop G_LITTLE_ENDIAN item_without_id "Id" <> Some (Variant_s (Some "")).
Proof. repeat split. discriminate. Qed.

(** C7, amended. [Id] is answered with the stored id as it is. Every
    other string property has the empty string as its default: [Title]
    and [AttentionMovieName] when the field is unset, the three icon-name
    properties when the slot holds a bitmap or no name, and inside
    [ToolTip] the title, the body and the icon name alike. An icon-pixmap
    property, and the pixmap inside [ToolTip], is the empty array when
    the slot holds a name or nothing. *)
Theorem get_prop_defaults (order : byte_order) (p : Priv) :
  get_prop order p "Id" = Some (Variant_s (id p))
  /\ (title p = None -> get_prop order p "Title" = Some (Variant_s (Some "")))
  /\ (attention_movie_name p = None ->
      get_prop order p "AttentionMovieName" = Some (Variant_s (Some "")))
  /\ (forall (icon : StatusNotifierIcon) (property : string),
        icon_name_property icon = Some property ->
        status_notifier_item_get_icon_name p icon = None ->
        get_prop order p property = Some (Variant_s (Some "")))
  /\ (forall (icon : StatusNotifierIcon) (property : string),
        icon_pixmap_property icon = Some property ->
        status_notifier_item_has_pixbuf p icon = false ->
        exists builder,
          get_prop order p property = Some (Variant_a_iiay builder)
          /\ pixmap_entries builder = [])
  /\ (exists (icon_name title body : string) (builder : option GVariantBuilder),
        get_prop order p "ToolTip"
        = Some (Variant_sa_iiay_ss (Some icon_name) builder
                  (Some title) (Some body))
        /\ (tooltip_title p = None -> title = "")
        /\ (tooltip_body p = None -> body = "")
        /\ (status_notifier_item_get_icon_name p STATUS_NOTIFIER_TOOLTIP_ICON
            = None -> icon_name = "")
        /\ (status_notifier_item_has_pixbuf p STATUS_NOTIFIER_TOOLTIP_ICON
            = false -> pixmap_entries builder = [])).
Proof.
  split; [reflexivity |].
  split; [intros H; unfold get_prop; cbn; rewrite H; reflexivity |].
  split; [intros H; unfold get_prop; cbn; rewrite H; reflexivity |].
  split; [| split].
  - intros icon property Hp Hn.
    unfold status_notifier_item_get_icon_name in Hn.
    destruct icon; cbn in Hp; inversion Hp; subst; unfold get_prop; cbn;
      unfold icon_name_prop;
      match goal with
      | |- context [has_pixbuf ?c] => destruct (has_pixbuf c)
      end; cbn in *; try rewrite Hn; reflexivity.
  - intros icon property Hp Hn.
    unfold status_notifier_item_has_pixbuf in Hn.
    destruct icon; cbn in Hp; inversion Hp; subst; unfold get_prop; cbn;
      eexists; (split; [reflexivity |]);
      unfold get_builder_for_icon_pixmap; rewrite Hn; reflexivity.
  - unfold get_prop, status_notifier_item_get_icon_name,
      status_notifier_item_has_pixbuf; cbn.
    unfold get_builder_for_icon_pixmap; cbn.
    destruct (has_pixbuf (icon_tooltip (icon p))) eqn:E; cbn.
    + destruct (tooltip_title p), (tooltip_body p); cbn;
        do 4 eexists; (split; [reflexivity |]);
        repeat split; intros; congruence.
    + destruct (tooltip_title p), (tooltip_body p),
        (union_icon_name (icon_u (icon_tooltip (icon p))));
        cbn; do 4 eexists; (split; [reflexivity |]);
        repeat split; intros; congruence.
Qed.

Lemma get_prop_defaults_witness :
  get_prop G_LITTLE_ENDIAN (priv sample_with_pixbuf) "Title"
  = Some (Variant_s (Some ""))
  /\ get_prop G_LITTLE_ENDIAN (priv sample_with_pixbuf) "IconName"
     = Some (Variant_s (Some ""))
  /\ get_prop G_LITTLE_ENDIAN (priv sample_with_pixbuf) "OverlayIconName"
     = Some (Variant_s (Some ""))
  /\ (exists builder,
        get_prop G_LITTLE_ENDIAN (priv sample_with_pixbuf) "OverlayIconPixmap"
        = Some (Variant_a_iiay builder)
        /\ pixmap_entries builder = []).
Proof.
  destruct (get_prop_defaults G_LITTLE_ENDIAN (priv sample_with_pixbuf))
    as (_ & Htitle & _ & Hname & Hpixmap & _).
  split; [exact (Htitle eq_refl) |].
  split; [exact (Hname STATUS_NOTIFIER_ICON "IconName" eq_refl eq_refl) |].
  split; [exact (Hname STATUS_NOTIFIER_OVERLAY_ICON "OverlayIconName"
                   eq_refl eq_refl) |].
  exact (Hpixmap STATUS_NOTIFIER_OVERLAY_ICON "OverlayIconPixmap"
           eq_refl eq_refl).
Defined.

(** ** Setters and their notifications *)

(** C8, as stated, does not hold: [set_item_is_menu] raises no local
    notification, and the setters of fields without a DBus signal, such
    as the window id, send none on a registered item. *)
Lemma item_is_menu_not_notified :
  trace (perform (Set_item_is_menu true)) sample_registered = []
  /\ state (priv sample_registered) = STATUS_NOTIFIER_STATE_REGISTERED
  /\ trace (perform (Set_window_id 7)) sample_registered = [Notify PROP_WINDOW_ID]
  /\ ~ every_setter_notifies.
Proof.
  repeat split. intros H.
  destruct (H (Set_item_is_menu true) PROP_ITEM_IS_MENU sample_registered eq_refl)
    as [Hin _].
  exact Hin.
Qed.

(** C8, amended. A setter other than [set_item_is_menu] raises exactly
    one local notification: the setters of the title, the status, the
    window id, the attention movie name and the two tooltip strings for
    the field they set, an icon setter for a property of the slot it
    sets. On an item that is not registered no setter sends a DBus
    signal. On a registered item a setter sends the signal of its field
    when the interface has one (NewTitle, NewStatus with the label of the
    new status, NewIcon, NewAttentionIcon, NewOverlayIcon, NewToolTip)
    and nothing otherwise (window id, attention movie name, item-is-menu);
    the four tooltip fields send NewToolTip only while the freeze count
    is zero. *)
Theorem setter_notifications (c : call) (f : prop_id) (s : St) :
  setter_field c = Some f ->
  let t := trace (perform c) s in
  let p' := priv (run (perform c) s) in
  match c with
  | Set_item_is_menu _ => True
  | Set_from_pixbuf icon _ | Set_from_icon_name icon _ =>
      exists q, In q (slot_props icon) /\ local_notifications t = [Notify q]
  | _ => local_notifications t = [Notify f]
  end
  /\ (state (priv s) <> STATUS_NOTIFIER_STATE_REGISTERED -> wire_signals t = [])
  /\ (state (priv s) = STATUS_NOTIFIER_STATE_REGISTERED ->
      wire_signals t
      = match wire_signal_of (dbus_conn (priv s)) (status p') f with
        | Some signal =>
            if tooltip_prop f && negb (tooltip_freeze (priv s) =? 0)
            then [] else [signal]
        | None => []
        end).
Proof.
  intros Hf t p'. subst t p'. crush_state s.
  destruct c; cbn in Hf; try discriminate Hf; injection Hf as <-;
    destruct_state;
    try match goal with
    | i : StatusNotifierIcon |- _ => destruct i
    end;
    model_cbn; split_ifs;
    (split; [ first [ exact I | reflexivity
                    | eexists; split; [| reflexivity]; cbn; auto ]
            | split; [intros H; first [reflexivity | congruence]
                     | intros H; first [reflexivity | discriminate H]] ]).
Qed.

Lemma setter_notifications_witness :
  local_notifications (trace (perform (Set_title (Some "t"))) sample_registered)
  = [Notify PROP_TITLE]
  /\ wire_signals (trace (perform (Set_title (Some "t"))) sample_registered)
     = [DBusEmitSignal (Some sample_conn) "NewTitle" None]
  /\ wire_signals (trace (perform (Set_title (Some "t"))) sample_registering)
     = [].
Proof.
  destruct (setter_notifications (Set_title (Some "t")) PROP_TITLE
              sample_registered eq_refl) as (H1 & _ & H3).
  destruct (setter_notifications (Set_title (Some "t")) PROP_TITLE
              sample_registering eq_refl) as (_ & H2 & _).
  split; [exact H1 | split; [exact (H3 eq_refl) | apply H2; discriminate]].
Defined.

(** * Further properties of the code *)

(** ** Release of the bus resources *)

Lemma dbus_free_eq (s : St) :
  dbus_free s
  = (tt, mkSt (dbus_free_priv (priv s)) (uniq_id s) (next_handle s) (env s),
     dbus_free_trace (priv s)).
Proof.
  crush_state s. unfold dbus_free_priv, dbus_free_trace, release_handle.
  model_cbn. split_ifs; first [reflexivity | discriminate].
Qed.

Lemma dbus_free_priv_released (p : Priv) : dbus_released (dbus_free_priv p).
Proof.
  unfold dbus_released, dbus_free_priv, release_handle; cbn.
  repeat match goal with
  | |- context [0 <? ?x] => destruct (Z.ltb_spec 0 x)
  end; conjuncts; first [reflexivity | lia].
Qed.

Lemma dbus_free_released (s : St) :
  dbus_released (priv s) -> dbus_free s = (tt, s, []).
Proof.
  intros (H1 & H2 & H3 & H4 & H5 & H6). rewrite dbus_free_eq.
  crush_state s. cbn in *. subst.
  unfold dbus_free_priv, dbus_free_trace, release_handle. cbn.
  repeat match goal with
  | H : ?x <= 0 |- context [0 <? ?x] =>
      replace (0 <? x) with false by (symmetry; apply Z.ltb_ge; exact H)
  end.
  reflexivity.
Qed.

(** [dbus_free] releases everything: after it nothing is held on the bus,
    and a second [dbus_free] changes nothing and makes no call. *)
Theorem dbus_free_idempotent (s : St) :
  dbus_released (priv (run dbus_free s))
  /\ dbus_free (run dbus_free s) = (tt, run dbus_free s, []).
Proof.
  assert (dbus_released (priv (run dbus_free s))) as H.
  { unfold run. rewrite dbus_free_eq. apply dbus_free_priv_released. }
  split; [exact H | apply dbus_free_released, H].
Qed.

(** [dbus_free] touches the bus fields only: the data of the item (the
    state included) is as before, every call it makes gives a resource
    back, and every resource that was held is given back: the watch, the
    signal handler (on the proxy), the owned name, the proxy, the
    registered object (on the connection) and the connection. *)
Theorem dbus_free_only_releases (s : St) :
  item_data (priv (run dbus_free s)) = item_data (priv s)
  /\ forallb is_release (trace dbus_free s) = true
  /\ (0 < dbus_watch_id (priv s) ->
      In (BusUnwatchName (dbus_watch_id (priv s))) (trace dbus_free s))
  /\ (0 < dbus_sid (priv s) ->
      In (SignalHandlerDisconnect (dbus_proxy (priv s)) (dbus_sid (priv s)))
         (trace dbus_free s))
  /\ (0 < dbus_owner_id (priv s) ->
      In (BusUnownName (dbus_owner_id (priv s))) (trace dbus_free s))
  /\ (forall proxy, dbus_proxy (priv s) = Some proxy ->
      In (ProxyUnref (Some proxy)) (trace dbus_free s))
  /\ (0 < dbus_reg_id (priv s) ->
      In (UnregisterObject (dbus_conn (priv s)) (dbus_reg_id (priv s)))
         (trace dbus_free s))
  /\ (forall conn, dbus_conn (priv s) = Some conn ->
      In (ConnectionUnref conn) (trace dbus_free s)).
Proof.
  unfold run, trace. rewrite dbus_free_eq. cbn [fst snd priv].
  unfold dbus_free_trace.
  split; [reflexivity |]. split.
  { rewrite !forallb_app.
    destruct (0 <? dbus_watch_id (priv s)), (0 <? dbus_sid (priv s)),
      (0 <? dbus_owner_id (priv s)), (dbus_proxy (priv s)),
      (0 <? dbus_reg_id (priv s)), (dbus_conn (priv s)); reflexivity. }
  conjuncts.
  - intros H. apply Z.ltb_lt in H. rewrite H. apply in_or_app; left; left; reflexivity.
  - intros H. apply Z.ltb_lt in H. rewrite H.
    apply in_or_app; right. apply in_or_app; left; left; reflexivity.
  - intros H. apply Z.ltb_lt in H. rewrite H.
    do 2 (apply in_or_app; right). apply in_or_app; left; left; reflexivity.
  - intros proxy H. rewrite H.
    do 3 (apply in_or_app; right). apply in_or_app; left; left; reflexivity.
  - intros H. apply Z.ltb_lt in H. rewrite H.
    do 4 (apply in_or_app; right). apply in_or_app; left; left; reflexivity.
  - intros conn H. rewrite H.
    do 5 (apply in_or_app; right). left; reflexivity.
Qed.

Lemma dbus_free_only_releases_witness :
  In (BusUnwatchName (dbus_watch_id (priv sample_registering)))
     (trace dbus_free sample_registering)
  /\ In (ConnectionUnref sample_conn) (trace dbus_free sample_registered).
Proof.
  split.
  - destruct (dbus_free_only_releases sample_registering)
      as (_ & _ & H & _).
    apply H. reflexivity.
  - destruct (dbus_free_only_releases sample_registered)
      as (_ & _ & _ & _ & _ & _ & _ & H).
    apply H. vm_compute. reflexivity.
Defined.

Lemma dbus_free_trace_releases (p : Priv) :
  forallb is_release (dbus_free_trace p) = true.
Proof.
  unfold dbus_free_trace. rewrite !forallb_app.
  destruct (0 <? dbus_watch_id p), (0 <? dbus_sid p), (0 <? dbus_owner_id p),
    (dbus_proxy p), (0 <? dbus_reg_id p), (dbus_conn p); reflexivity.
Qed.

Lemma dbus_free_trace_watch (p : Priv) :
  0 < dbus_watch_id p ->
  exists rest, dbus_free_trace p = BusUnwatchName (dbus_watch_id p) :: rest.
Proof.
  intros H. apply Z.ltb_lt in H. unfold dbus_free_trace. rewrite H.
  eexists. reflexivity.
Qed.

(** [status_notifier_item_finalize] clears the four icon cells and then
    frees the bus resources as [dbus_free] does: the calls are exactly
    those of [dbus_free], all of them releases, the watch first when one is
    held; the state is not changed and no signal or notification is
    made. *)
Theorem finalize_releases (s : St) :
  let s' := run status_notifier_item_finalize s in
  let t := trace status_notifier_item_finalize s in
  dbus_released (priv s')
  /\ forallb is_release t = true
  /\ t = trace dbus_free s
  /\ (0 < dbus_watch_id (priv s) ->
      exists rest, t = BusUnwatchName (dbus_watch_id (priv s)) :: rest)
  /\ (forall i, priv_icon (priv s') i = mkIcon false (U_icon_name None))
  /\ state (priv s') = state (priv s).
Proof.
  intros s' t.
  assert (status_notifier_item_finalize s
          = (tt, run status_notifier_item_finalize s, dbus_free_trace (priv s)))
    as Heq.
  { unfold run, status_notifier_item_finalize, free_icon, mbind, M_mbind, M_bind,
      modify_priv. cbn -[dbus_free]. rewrite dbus_free_eq. reflexivity. }
  assert (priv s'
          = dbus_free_priv
              (assign_icon (mkIcons (mkIcon false (U_icon_name None))
                              (mkIcon false (U_icon_name None))
                              (mkIcon false (U_icon_name None))
                              (mkIcon false (U_icon_name None))) (priv s)))
    as Hp.
  { subst s'. unfold run, status_notifier_item_finalize, free_icon, mbind,
      M_mbind, M_bind, modify_priv. cbn -[dbus_free]. rewrite dbus_free_eq.
    reflexivity. }
  assert (t = dbus_free_trace (priv s)) as Ht.
  { subst t. unfold trace. rewrite Heq. reflexivity. }
  conjuncts.
  - rewrite Hp. apply dbus_free_priv_released.
  - rewrite Ht. apply dbus_free_trace_releases.
  - rewrite Ht. unfold trace. rewrite dbus_free_eq. reflexivity.
  - intros H. rewrite Ht. apply dbus_free_trace_watch, H.
  - intros i. rewrite Hp. destruct i; reflexivity.
  - rewrite Hp. reflexivity.
Qed.

Lemma finalize_releases_witness :
  exists rest,
    trace status_notifier_item_finalize sample_registering
    = BusUnwatchName (dbus_watch_id (priv sample_registering)) :: rest.
Proof.
  destruct (finalize_releases sample_registering) as (_ & _ & _ & H & _).
  apply H. reflexivity.
Defined.

(** ** Fatal failures *)

Lemma bind_eq {A B} (m : M A) (f : A -> M B) (s : St) a s1 t1 :
  m s = (a, s1, t1) ->
  (m ≫= f) s = (let '(b, s2, t2) := f a s1 in (b, s2, t1 ++ t2)).
Proof. intros H. unfold mbind, M_mbind, M_bind. rewrite H. reflexivity. Qed.

Lemma dbus_failed_eq (error : GError) (fatal : bool) (s : St) :
  dbus_failed error fatal s
  = (tt,
     mkSt ((if fatal then assign_state STATUS_NOTIFIER_STATE_FAILED else fun p => p)
             (dbus_free_priv (priv s)))
          (uniq_id s) (next_handle s) (env s),
     dbus_free_trace (priv s)
     ++ (if fatal then [Notify PROP_STATE] else [])
     ++ [GSignalEmit SIGNAL_REGISTRATION_FAILED (ArgsError (Some error))]).
Proof.
  unfold dbus_failed. rewrite (bind_eq _ _ _ _ _ _ (dbus_free_eq s)).
  destruct fatal; reflexivity.
Qed.

Lemma dbus_released_assign_state st p :
  dbus_released p -> dbus_released (assign_state st p).
Proof. intros H. exact H. Qed.

(** Every fatal failure ends the same way, whichever callback reports it
    ([name_lost], a failed [proxy_cb] or [register_item_cb], or
    [bus_acquired] on a connection that refuses the object): the state is
    FAILED, nothing is held on the bus any more, the data of the item is
    otherwise as before, and the last two calls are the notification of
    [state] and the signal [registration-failed] with the error, in this
    order. A later [dbus_free] has nothing left to do. *)
Theorem fatal_callback_fails (c : call) (s : St) (err : GError) :
  fatal_callback (env s) c = Some err ->
  let s' := run (perform c) s in
  let t := trace (perform c) s in
  state (priv s') = STATUS_NOTIFIER_STATE_FAILED
  /\ dbus_released (priv s')
  /\ item_data (priv s') = item_data (assign_state STATUS_NOTIFIER_STATE_FAILED (priv s))
  /\ (exists before,
        t = before
            ++ [Notify PROP_STATE;
                GSignalEmit SIGNAL_REGISTRATION_FAILED (ArgsError (Some err))])
  /\ dbus_free s' = (tt, s', []).
Proof.
  intros Hf s' t.
  assert (state (priv s') = STATUS_NOTIFIER_STATE_FAILED
          /\ dbus_released (priv s')
          /\ item_data (priv s')
             = item_data (assign_state STATUS_NOTIFIER_STATE_FAILED (priv s))
          /\ exists before,
               t = before
                   ++ [Notify PROP_STATE;
                       GSignalEmit SIGNAL_REGISTRATION_FAILED
                         (ArgsError (Some err))]) as H.
  { subst s' t. unfold run, trace.
    destruct c; cbn in Hf; try discriminate Hf; cbn [perform].
    - (* proxy_cb NULL *)
      match goal with r : option GDBusProxy |- _ => destruct r end;
        [discriminate Hf |]. injection Hf as <-.
      unfold proxy_cb, mbind, M_mbind, M_bind, modify_priv, get_priv.
      cbn -[dbus_failed]. rewrite dbus_failed_eq. cbn [fst snd priv app].
      conjuncts; try reflexivity.
      + apply dbus_released_assign_state, dbus_free_priv_released.
      + eexists; cbn [app]; reflexivity.
    - (* bus_acquired, the object refused *)
      destruct (env_register_object_ok (env s)) eqn:Eok; [discriminate Hf |].
      injection Hf as <-. unfold bus_acquired.
      crush_state s. cbn in Eok.
      match goal with e : Env |- _ => destruct e end. cbn in Eok. subst.
      unfold mbind, M_mbind, M_bind, modify_priv, get_env, emit, mret, M_mret,
        M_ret.
      cbn -[dbus_failed]. rewrite dbus_failed_eq. cbn [fst snd priv app].
      conjuncts; try reflexivity.
      + apply dbus_released_assign_state, dbus_free_priv_released.
      + eexists. rewrite app_comm_cons. reflexivity.
    - (* name_lost *)
      unfold name_lost.
      match goal with r : option GDBusConnection |- _ => destruct r end;
        injection Hf as <-; rewrite dbus_failed_eq; cbn [fst snd priv];
        (conjuncts; try reflexivity;
         [ apply dbus_released_assign_state, dbus_free_priv_released
         | eexists; reflexivity ]).
    - (* register_item_cb NULL *)
      match goal with r : option unit |- _ => destruct r end;
        [discriminate Hf |]. injection Hf as <-.
      unfold register_item_cb. rewrite dbus_failed_eq. cbn [fst snd priv].
      conjuncts; try reflexivity.
      + apply dbus_released_assign_state, dbus_free_priv_released.
      + eexists; reflexivity. }
  destruct H as (H1 & H2 & H3 & H4).
  conjuncts; auto. apply dbus_free_released, H2.
Qed.

Lemma fatal_callback_fails_witness :
  state (priv (run (perform (Name_lost None)) sample_registering))
  = STATUS_NOTIFIER_STATE_FAILED.
Proof.
  exact (proj1 (fatal_callback_fails (Name_lost None) sample_registering _
                  eq_refl)).
Defined.

(** ** A registration that completes *)

(** From NOT_REGISTERED or FAILED, [status_notifier_item_register]
    followed by the callbacks of a bus with a watcher and a host, on a
    connection that accepts the object, ends REGISTERED: the item keeps the
    connection of the watcher and the registered object, the proxy is
    released, the watch is stopped and the name policy is decided. *)
Theorem registration_completes (k : nat) (watcher : GDBusProxy) (s : St) :
  state (priv s) = STATUS_NOTIFIER_STATE_NOT_REGISTERED
  \/ state (priv s) = STATUS_NOTIFIER_STATE_FAILED ->
  env_register_object_ok (env s) = true ->
  proxy_host_registered watcher = Some true ->
  let s' := deliver (6 + k) watcher [Register; Watcher_appeared] s in
  state (priv s') = STATUS_NOTIFIER_STATE_REGISTERED
  /\ dbus_conn (priv s') = Some (proxy_connection watcher)
  /\ 0 < dbus_reg_id (priv s')
  /\ dbus_proxy (priv s') = None
  /\ dbus_watch_id (priv s') = 0
  /\ register_bus_name (priv s') <> -1.
Proof.
  intros Hst Hok Hhost. crush_state s.
  match goal with e : Env |- _ => destruct e as [pid flatpak ok] end.
  cbn in Hst, Hok. subst.
  destruct watcher as [wid pc ph]. cbn in Hhost. subst.
  match goal with
  | |- context [mkPriv _ _ _ _ _ _ _ _ _ _ _ _ _ _ _ _ ?r _ _] =>
      destruct r as [| r | [r | r |]]
  end;
    destruct flatpak, k; destruct Hst as [-> | ->];
    vm_compute; conjuncts; first [reflexivity | discriminate].
Qed.

Lemma registration_completes_witness :
  state (priv sample_registered) = STATUS_NOTIFIER_STATE_REGISTERED.
Proof.
  exact (proj1 (registration_completes 0 sample_watcher sample_new
                  (or_introl eq_refl) eq_refl eq_refl)).
Defined.

(** ** Inbound method calls *)

(** [method_call] changes nothing in the item and sends nothing on the
    bus. A method of the interface with parameters of its signature raises
    one signal of the item and then returns the invocation; a method that
    is not of the interface only fails [g_return_if_reached]: no signal is
    raised and the invocation is left without a reply. *)
Theorem method_call_acknowledged (method : string) (params : method_params) (s : St) :
  run (method_call method params) s = s
  /\ wire_signals (trace (method_call method params) s) = []
  /\ (method_signature_ok method params = true ->
      exists signal args,
        trace (method_call method params) s
        = [GSignalEmit signal args; MethodReturn])
  /\ (method_of_interface method = false ->
      trace (method_call method params) s = [GCritical]).
Proof.
  unfold method_call, method_signature_ok, method_of_interface.
  destruct (String.eqb method "ContextMenu") eqn:E1;
    [| destruct (String.eqb method "Activate") eqn:E2;
       [| destruct (String.eqb method "SecondaryActivate") eqn:E3;
          [| destruct (String.eqb method "Scroll") eqn:E4 ] ] ].
  all: try (apply String.eqb_eq in E1; subst method).
  all: try (apply String.eqb_eq in E2; subst method).
  all: try (apply String.eqb_eq in E3; subst method).
  all: try (apply String.eqb_eq in E4; subst method).
  all: destruct params; cbn; conjuncts; try reflexivity;
    intros H; try discriminate H; try reflexivity;
    try (do 2 eexists; reflexivity).
Qed.

Lemma method_call_acknowledged_witness :
  (exists signal args,
     trace (method_call "Activate" (Params_ii 3 4)) sample_new
     = [GSignalEmit signal args; MethodReturn])
  /\ trace (method_call "Hover" (Params_ii 0 0)) sample_new = [GCritical].
Proof.
  split.
  - destruct (method_call_acknowledged "Activate" (Params_ii 3 4) sample_new)
      as (_ & _ & H & _).
    apply H. reflexivity.
  - destruct (method_call_acknowledged "Hover" (Params_ii 0 0) sample_new)
      as (_ & _ & _ & H).
    apply H. reflexivity.
Defined.

(** ** Setters and the registration *)

(** No setter of the public interface takes part in the registration:
    the bus fields, the state, the name policy, the name counter and the
    handle counter are as before, and the only calls made are property
    notifications, DBus signals and the warning of a failed check. *)
Theorem setters_keep_registration (c : call) (s : St) :
  is_setter c = true ->
  let s' := run (perform c) s in
  bus_fields (priv s') = bus_fields (priv s)
  /\ state (priv s') = state (priv s)
  /\ register_bus_name (priv s') = register_bus_name (priv s)
  /\ uniq_id s' = uniq_id s
  /\ next_handle s' = next_handle s
  /\ forallb is_announcement (trace (perform c) s) = true.
Proof.
  intros Hc. crush_state s.
  destruct c; try discriminate Hc; destruct_state;
    try match goal with i : StatusNotifierIcon |- _ => destruct i end;
    model_cbn; split_ifs; conjuncts; reflexivity.
Qed.

Lemma setters_keep_registration_witness :
  state (priv (run (perform (Set_title (Some "t"))) sample_registering))
  = state (priv sample_registering).
Proof.
  destruct (setters_keep_registration (Set_title (Some "t"))
              sample_registering eq_refl) as (_ & H & _).
  exact H.
Defined.

Lemma keeps_identity_bind {A B} (m : M A) (f : A -> M B) :
  keeps_identity m -> (forall a, keeps_identity (f a)) -> keeps_identity (m ≫= f).
Proof.
  intros Hm Hf s. rewrite run_bind.
  destruct (Hm s) as (H1 & H2 & H3).
  destruct (Hf (result m s) (run m s)) as (G1 & G2 & G3).
  conjuncts; try congruence.
  intros Hd. rewrite G3; [apply H3, Hd |]. rewrite H3; exact Hd.
Qed.

Lemma keeps_identity_pure {A} (m : M A) :
  (forall s, priv (run m s) = priv s) -> keeps_identity m.
Proof. intros H s. rewrite H. auto. Qed.

Lemma keeps_identity_modify_priv (f : Priv -> Priv) :
  (forall p, id (f p) = id p) ->
  (forall p, category (f p) = category p) ->
  (forall p, register_bus_name (f p) = register_bus_name p) ->
  keeps_identity (modify_priv f).
Proof. intros H1 H2 H3 s. cbn. rewrite H1, H2, H3. auto. Qed.

Lemma keeps_identity_should_register_name :
  keeps_identity should_register_name.
Proof.
  intros s. crush_state s. model_cbn. split_ifs; conjuncts; try reflexivity;
    intros Hd; exfalso;
    match goal with H : (_ =? -1) = true |- _ => apply Z.eqb_eq in H end;
    contradiction.
Qed.

Ltac keeps_identity_step :=
  first
    [ apply keeps_identity_should_register_name
    | apply keeps_identity_pure; reflexivity
    | apply keeps_identity_modify_priv; reflexivity
    | apply keeps_identity_bind; [| intros ?]
    | match goal with
      | |- keeps_identity (if ?c then _ else _) => destruct c
      | |- keeps_identity (match ?x with _ => _ end) => destruct x
      end ].

(** No call of the interface and no callback changes the id or the
    category of an item, and the name policy is never changed once it is
    decided (not -1). *)
Theorem identity_is_fixed (c : call) (s : St) :
  id (priv (run (perform c) s)) = id (priv s)
  /\ category (priv (run (perform c) s)) = category (priv s)
  /\ (register_bus_name (priv s) <> -1 ->
      register_bus_name (priv (run (perform c) s)) = register_bus_name (priv s)).
Proof.
  revert s. change (keeps_identity (perform c)).
  destruct c; cbn [perform];
    unfold status_notifier_item_set_from_pixbuf,
      status_notifier_item_set_from_icon_name,
      status_notifier_item_set_attention_movie_name,
      status_notifier_item_set_title, status_notifier_item_set_status,
      status_notifier_item_set_window_id, status_notifier_item_freeze_tooltip,
      status_notifier_item_thaw_tooltip, status_notifier_item_set_tooltip,
      status_notifier_item_set_tooltip_with_pixbuf,
      status_notifier_item_set_tooltip_title,
      status_notifier_item_set_tooltip_body,
      status_notifier_item_set_item_is_menu, status_notifier_item_register,
      method_call, watcher_appeared, watcher_vanished, proxy_cb, watcher_signal,
      bus_acquired, name_acquired, name_lost, register_item_cb, dbus_reg_item;
    repeat keeps_identity_step.
Qed.

Lemma identity_is_fixed_witness :
  register_bus_name (priv (run (perform Watcher_vanished) sample_without_name))
  = register_bus_name (priv sample_without_name).
Proof.
  destruct (identity_is_fixed Watcher_vanished sample_without_name)
    as (_ & _ & H).
  apply H. cbn. lia.
Defined.

(** ** Nested tooltip batches *)

Ltac case_tooltip_freeze k :=
  match goal with
  | |- context [mkPriv _ _ _ _ _ _ _ _ _ _ ?f _ _ _ _ _ _ _ _] =>
      destruct (Z.eq_dec f k) as [-> | ?]
  end.

Lemma freeze_tooltip_step (s : St) :
  0 <= tooltip_freeze (priv s) < 2 ^ 32 - 1 ->
  tooltip_freeze (priv (run status_notifier_item_freeze_tooltip s))
  = tooltip_freeze (priv s) + 1
  /\ state (priv (run status_notifier_item_freeze_tooltip s)) = state (priv s)
  /\ dbus_conn (priv (run status_notifier_item_freeze_tooltip s))
     = dbus_conn (priv s)
  /\ trace status_notifier_item_freeze_tooltip s = [].
Proof.
  intros H. crush_state s. cbn in H. model_cbn.
  rewrite Z.mod_small by lia. auto.
Qed.

Lemma thaw_tooltip_step (s : St) :
  0 < tooltip_freeze (priv s) < 2 ^ 32 ->
  tooltip_freeze (priv (run status_notifier_item_thaw_tooltip s))
  = tooltip_freeze (priv s) - 1
  /\ state (priv (run status_notifier_item_thaw_tooltip s)) = state (priv s)
  /\ dbus_conn (priv (run status_notifier_item_thaw_tooltip s))
     = dbus_conn (priv s)
  /\ trace status_notifier_item_thaw_tooltip s
     = match state (priv s) with
       | STATUS_NOTIFIER_STATE_REGISTERED =>
           if tooltip_freeze (priv s) =? 1
           then [DBusEmitSignal (dbus_conn (priv s)) "NewToolTip" None]
           else []
       | _ => []
       end.
Proof.
  intros H. crush_state s. cbn in H.
  case_tooltip_freeze 1; destruct_state;
    model_cbn; decide_tests; auto.
Qed.

Lemma freeze_times_spec (n : nat) (s : St) :
  0 <= tooltip_freeze (priv s) ->
  tooltip_freeze (priv s) + Z.of_nat n < 2 ^ 32 ->
  tooltip_freeze (priv (run (freeze_times n) s))
  = tooltip_freeze (priv s) + Z.of_nat n
  /\ state (priv (run (freeze_times n) s)) = state (priv s)
  /\ dbus_conn (priv (run (freeze_times n) s)) = dbus_conn (priv s)
  /\ trace (freeze_times n) s = [].
Proof.
  revert s. induction n as [| n IH]; intros s H0 Hn; cbn [freeze_times].
  - cbn. rewrite Z.add_0_r. auto.
  - rewrite run_bind, trace_bind.
    destruct (freeze_tooltip_step s) as (F1 & F2 & F3 & F4); [lia |].
    destruct (IH (run status_notifier_item_freeze_tooltip s))
      as (I1 & I2 & I3 & I4); [lia | lia |].
    rewrite I1, I2, I3, I4, F1, F2, F3, F4. conjuncts; try reflexivity. lia.
Qed.

Lemma thaw_times_spec (n : nat) (s : St) :
  Z.of_nat n <= tooltip_freeze (priv s) < 2 ^ 32 ->
  tooltip_freeze (priv (run (thaw_times n) s))
  = tooltip_freeze (priv s) - Z.of_nat n
  /\ wire_signals (trace (thaw_times n) s)
     = match state (priv s) with
       | STATUS_NOTIFIER_STATE_REGISTERED =>
           if (0 <? Z.of_nat n) && (tooltip_freeze (priv s) =? Z.of_nat n)
           then [DBusEmitSignal (dbus_conn (priv s)) "NewToolTip" None]
           else []
       | _ => []
       end.
Proof.
  revert s. induction n as [| n IH]; intros s Hn; cbn [thaw_times].
  - cbn. rewrite Z.sub_0_r. split; [reflexivity |].
    destruct (state (priv s)); reflexivity.
  - rewrite run_bind, trace_bind, wire_signals_app.
    destruct (thaw_tooltip_step s) as (T1 & T2 & T3 & T4); [lia |].
    destruct (IH (run status_notifier_item_thaw_tooltip s)) as (I1 & I2);
      [lia |].
    rewrite I1, I2, T1, T2, T3, T4. split; [lia |].
    destruct (state (priv s)); try reflexivity.
    destruct (Z.eq_dec (tooltip_freeze (priv s)) (Z.of_nat (S n))) as [He | Hne].
    + rewrite He.
      replace (Z.of_nat (S n) =? Z.of_nat (S n)) with true
        by (symmetry; apply Z.eqb_refl).
      replace (0 <? Z.of_nat (S n)) with true
        by (symmetry; apply Z.ltb_lt; lia).
      destruct n as [| n].
      * reflexivity.
      * replace (Z.of_nat (S (S n)) =? 1) with false
          by (symmetry; apply Z.eqb_neq; lia).
        replace (0 <? Z.of_nat (S n)) with true
          by (symmetry; apply Z.ltb_lt; lia).
        replace (Z.of_nat (S (S n)) - 1 =? Z.of_nat (S n)) with true
          by (symmetry; apply Z.eqb_eq; lia).
        reflexivity.
    + replace (tooltip_freeze (priv s) =? Z.of_nat (S n)) with false
        by (symmetry; apply Z.eqb_neq; exact Hne).
      rewrite andb_false_r.
      replace (tooltip_freeze (priv s) =? 1) with false
        by (symmetry; apply Z.eqb_neq; lia).
      replace (tooltip_freeze (priv s) - 1 =? Z.of_nat n) with false
        by (symmetry; apply Z.eqb_neq; lia).
      rewrite andb_false_r. reflexivity.
Qed.

(** Freezes nest: [n] calls of [freeze_tooltip], any tooltip mutations,
    and [n] calls of [thaw_tooltip] leave the counter at 0 and send one
    [NewToolTip] in all when the item is registered, none otherwise; only
    the last thaw sends it. *)
Theorem nested_tooltip_batches (n : nat) (muts : list call) (s : St) :
  tooltip_freeze (priv s) = 0 ->
  (0 < n)%nat ->
  Z.of_nat n < 2 ^ 32 - 1 ->
  Forall (fun c => tooltip_mutation c = true) muts ->
  let batch := freeze_times n;; perform_all muts;; thaw_times n in
  tooltip_freeze (priv (run batch s)) = 0
  /\ wire_signals (trace batch s)
     = match state (priv s) with
       | STATUS_NOTIFIER_STATE_REGISTERED =>
           [DBusEmitSignal (dbus_conn (priv s)) "NewToolTip" None]
       | _ => []
       end.
Proof.
  intros Hz Hn Hmax Hm batch. subst batch.
  rewrite !run_bind, !trace_bind, !wire_signals_app.
  destruct (freeze_times_spec n s) as (F1 & F2 & F3 & F4); [lia | lia |].
  remember (run (freeze_times n) s) as s1 eqn:E1.
  destruct (tooltip_mutations_frozen muts s1 Hm) as (M1 & M2 & M3 & M4);
    [lia |].
  remember (run (perform_all muts) s1) as s2 eqn:E2.
  destruct (thaw_times_spec n s2) as (T1 & T2); [lia |].
  rewrite F4, M1, T1, T2. cbn [app wire_signals List.filter].
  split; [lia |].
  rewrite M3, F2, M4, F3, M2, F1, Hz.
  destruct (state (priv s)); try reflexivity.
  replace (0 <? Z.of_nat n) with true by (symmetry; apply Z.ltb_lt; lia).
  replace (0 + Z.of_nat n =? Z.of_nat n) with true
    by (symmetry; apply Z.eqb_eq; lia).
  reflexivity.
Qed.

Lemma nested_tooltip_batches_witness :
  tooltip_freeze
    (priv (run (freeze_times 2;;
                perform_all [Set_tooltip_title (Some "t")];;
                thaw_times 2) sample_new)) = 0.
Proof.
  refine (proj1 (nested_tooltip_batches 2 [Set_tooltip_title (Some "t")]
                   sample_new eq_refl _ _ _)).
  - lia.
  - cbn. lia.
  - repeat constructor.
Defined.

(** [status_notifier_item_set_tooltip] sets the three tooltip fields
    inside a freeze of its own: the counter ends where it was, the three
    properties are notified locally, and exactly one [NewToolTip] is sent
    when the item is registered and the caller holds no freeze; inside a
    batch of the caller nothing is sent. *)
Theorem set_tooltip_announces_once
    (icon_name title body : option string) (s : St) :
  0 <= tooltip_freeze (priv s) < 2 ^ 32 - 1 ->
  let m := status_notifier_item_set_tooltip icon_name title body in
  tooltip_freeze (priv (run m s)) = tooltip_freeze (priv s)
  /\ tooltip_title (priv (run m s)) = title
  /\ tooltip_body (priv (run m s)) = body
  /\ status_notifier_item_get_icon_name (priv (run m s))
       STATUS_NOTIFIER_TOOLTIP_ICON = icon_name
  /\ length (local_notifications (trace m s)) = 3%nat
  /\ wire_signals (trace m s)
     = match state (priv s) with
       | STATUS_NOTIFIER_STATE_REGISTERED =>
           if tooltip_freeze (priv s) =? 0
           then [DBusEmitSignal (dbus_conn (priv s)) "NewToolTip" None]
           else []
       | _ => []
       end.
Proof.
  intros H m. subst m. crush_state s. cbn in H.
  case_tooltip_freeze 0; destruct_state;
    model_cbn; decide_tests; conjuncts; first [reflexivity | lia].
Qed.

Lemma set_tooltip_announces_once_witness :
  tooltip_title
    (priv (run (status_notifier_item_set_tooltip (Some "i") (Some "t")
                  (Some "b")) sample_new)) = Some "t".
Proof.
  refine (proj1 (proj2 (set_tooltip_announces_once (Some "i") (Some "t")
                          (Some "b") sample_new _))).
  cbn. lia.
Defined.

(** ** GObject properties *)

(** What the setter of a writable property leaves in the item. *)
Lemma set_property_priv (prop : prop_id) (v : GValue) (s : St) :
  value_of_property prop v = true ->
  result (status_notifier_item_set_property prop v) s = PropertyHandled
  /\ priv (run (status_notifier_item_set_property prop v) s)
     = match prop with
       | PROP_TITLE => assign_title (g_value_get_string v) (priv s)
       | PROP_STATUS => assign_status (g_value_get_status v) (priv s)
       | PROP_ATTENTION_MOVIE_NAME =>
           assign_attention_movie_name (g_value_get_string v) (priv s)
       | PROP_TOOLTIP_TITLE => assign_tooltip_title (g_value_get_string v) (priv s)
       | PROP_TOOLTIP_BODY => assign_tooltip_body (g_value_get_string v) (priv s)
       | PROP_ITEM_IS_MENU => assign_item_is_menu (g_value_get_boolean v) (priv s)
       | PROP_WINDOW_ID => assign_window_id (g_value_get_uint v) (priv s)
       | _ =>
           match prop_slot prop with
           | Some i =>
               assign_icon_cell i
                 (match v with
                  | Value_pixbuf o => mkIcon true (U_pixbuf o)
                  | _ => mkIcon false (U_icon_name (g_value_get_string v))
                  end) (priv s)
           | None => priv s
           end
       end.
Proof.
  intros Hv. crush_state s.
  destruct prop; destruct v; try discriminate Hv; destruct_state;
    model_cbn; split_ifs; split; reflexivity.
Qed.

(** Writing a writable property through [set_property] and reading it
    back through [get_property] gives the value written. The properties
    outside the icon slot of the written one read as before; the other
    property of the same icon slot reads NULL. *)
Theorem set_then_get_property (prop : prop_id) (v : GValue) (s : St) :
  value_of_property prop v = true ->
  let p' := priv (run (status_notifier_item_set_property prop v) s) in
  status_notifier_item_get_property p' prop = Some v
  /\ (forall q : prop_id,
        q <> prop ->
        prop_slot q = None \/ prop_slot q <> prop_slot prop ->
        status_notifier_item_get_property p' q
        = status_notifier_item_get_property (priv s) q)
  /\ (forall q : prop_id,
        q <> prop -> prop_slot q <> None -> prop_slot q = prop_slot prop ->
        status_notifier_item_get_property p' q = Some (Value_string None)
        \/ status_notifier_item_get_property p' q = Some (Value_pixbuf None)).
Proof.
  intros Hv p'. subst p'.
  destruct (set_property_priv prop v s Hv) as [_ ->].
  destruct prop; destruct v; try discriminate Hv; cbn [prop_slot];
    (split; [reflexivity |]); split;
    intros q Hq Hs; destruct q; cbn in Hs |- *;
    try reflexivity; try congruence;
    try (destruct Hs as [Hs | Hs]; congruence);
    auto.
Qed.

Lemma set_then_get_property_witness :
  status_notifier_item_get_property
    (priv (run (status_notifier_item_set_property PROP_TITLE
                  (Value_string (Some "t"))) sample_new)) PROP_TITLE
  = Some (Value_string (Some "t")).
Proof.
  exact (proj1 (set_then_get_property PROP_TITLE (Value_string (Some "t"))
                  sample_new eq_refl)).
Defined.

(** ** Reads of the interface after a write *)

(** The window id is stored and read back as the [guint32] it is, but
    the DBus property [WindowId] carries it as an [i]: a window id from
    2^31 on is read negative on the bus. *)
Theorem window_id_read_as_int32 (order : byte_order) (w : Z) (s : St) :
  0 <= w < 2 ^ 32 ->
  let p' := priv (run (status_notifier_item_set_window_id w) s) in
  status_notifier_item_get_property p' PROP_WINDOW_ID = Some (Value_uint w)
  /\ get_prop order p' "WindowId"
     = Some (Variant_i (if w <? 2 ^ 31 then w else w - 2 ^ 32)).
Proof.
  intros H p'. subst p'. split; [reflexivity |].
  crush_state s. model_cbn. unfold get_prop, as_gint32. cbn.
  rewrite Z.mod_small by lia. reflexivity.
Qed.

Lemma window_id_read_as_int32_witness :
  get_prop G_LITTLE_ENDIAN
    (priv (run (status_notifier_item_set_window_id 4294967295) sample_new))
    "WindowId"
  = Some (Variant_i (-1)).
Proof.
  refine (proj2 (window_id_read_as_int32 G_LITTLE_ENDIAN 4294967295
                   sample_new _)).
  lia.
Defined.

(** The entry the encoder builds for a cell that holds a painted bitmap. *)
Lemma get_builder_of_bitmap (order : byte_order) (p : Priv)
    (icon : StatusNotifierIcon) (pixbuf : GdkPixbuf) :
  priv_icon p icon = mkIcon true (U_pixbuf (Some pixbuf)) ->
  pixbuf_painted pixbuf ->
  get_builder_for_icon_pixmap order p icon
  = Some [(pixbuf_width pixbuf, pixbuf_height pixbuf,
           flat_map big_endian_bytes (pixbuf_argb pixbuf))].
Proof.
  intros Hc (Hw & Hh & Hsz & Hlen).
  unfold get_builder_for_icon_pixmap, cairo_image_surface_get_stride.
  rewrite Hc. cbn [has_pixbuf negb icon_u union_pixbuf].
  assert (0 <= 4 * pixbuf_width pixbuf * pixbuf_height pixbuf) by nia.
  assert (Z.to_nat (4 * pixbuf_width pixbuf * pixbuf_height pixbuf)
          = (4 * length (pixbuf_argb pixbuf))%nat) as Hbytes.
  { rewrite Hlen. rewrite <- Z.mul_assoc, Z2Nat.inj_mul by nia. reflexivity. }
  destruct order.
  - rewrite Z.mod_small by (split; [lia | ]; transitivity (2 ^ 31); lia).
    replace (4 * pixbuf_width pixbuf * pixbuf_height pixbuf / 4)
      with (pixbuf_width pixbuf * pixbuf_height pixbuf)
      by (apply Z.div_unique_exact; lia).
    rewrite <- Hlen.
    pose proof (swap_loop_all [] (pixbuf_argb pixbuf)) as Hloop.
    cbn [length app] in Hloop. rewrite Hloop.
    rewrite guint_array_bytes_swapped.
    rewrite firstn_all2; [reflexivity |].
    rewrite Hbytes, <- guint_array_bytes_swapped, guint_array_bytes_length,
      length_map. lia.
  - rewrite firstn_all2.
    + unfold guint_array_bytes. f_equal.
    + rewrite Hbytes, guint_array_bytes_length. lia.
Qed.

(** Reading [ToolTip] after [set_tooltip] gives the icon name, no
    pixmap, the title and the body, NULL strings as empty ones; after
    [set_tooltip_with_pixbuf] it gives an empty icon name and the one
    pixmap of the bitmap, in network byte order. *)
Theorem tooltip_read_after_set_tooltip
    (order : byte_order) (icon_name title body : option string) (s : St) :
  get_prop order
    (priv (run (status_notifier_item_set_tooltip icon_name title body) s))
    "ToolTip"
  = Some (Variant_sa_iiay_ss (or_empty icon_name) None
            (or_empty title) (or_empty body))
  /\ forall pixbuf : GdkPixbuf,
       pixbuf_painted pixbuf ->
       get_prop order
         (priv (run (status_notifier_item_set_tooltip_with_pixbuf
                       (Some pixbuf) title body) s))
         "ToolTip"
       = Some (Variant_sa_iiay_ss (Some "")
                 (Some [(pixbuf_width pixbuf, pixbuf_height pixbuf,
                         flat_map big_endian_bytes (pixbuf_argb pixbuf))])
                 (or_empty title) (or_empty body)).
Proof.
  split.
  - assert (exists p',
              priv (run (status_notifier_item_set_tooltip icon_name title body) s)
              = p'
              /\ priv_icon p' STATUS_NOTIFIER_TOOLTIP_ICON
                 = mkIcon false (U_icon_name icon_name)
              /\ tooltip_title p' = title /\ tooltip_body p' = body)
      as (p' & -> & Hc & Ht & Hb).
    { eexists; split; [reflexivity |].
      crush_state s. destruct_state; model_cbn; split_ifs; repeat split. }
    unfold get_prop. cbn [String.eqb Ascii.eqb Bool.eqb].
    rewrite Hc, Ht, Hb. reflexivity.
  - intros pixbuf Hp.
    assert (exists p',
              priv (run (status_notifier_item_set_tooltip_with_pixbuf
                           (Some pixbuf) title body) s) = p'
              /\ priv_icon p' STATUS_NOTIFIER_TOOLTIP_ICON
                 = mkIcon true (U_pixbuf (Some pixbuf))
              /\ tooltip_title p' = title /\ tooltip_body p' = body)
      as (p' & -> & Hc & Ht & Hb).
    { eexists; split; [reflexivity |].
      crush_state s. destruct_state; model_cbn; split_ifs; repeat split. }
    unfold get_prop. cbn [String.eqb Ascii.eqb Bool.eqb].
    rewrite (get_builder_of_bitmap order p' _ pixbuf Hc Hp), Hc, Ht, Hb.
    reflexivity.
Qed.

Lemma tooltip_read_after_set_tooltip_witness :
  get_prop G_LITTLE_ENDIAN
    (priv (run (status_notifier_item_set_tooltip_with_pixbuf
                  (Some sample_pixbuf) (Some "t") None) sample_new))
    "ToolTip"
  = Some (Variant_sa_iiay_ss (Some "")
            (Some [(2, 1, [0x11; 0x22; 0x33; 0x44; 0xAA; 0xBB; 0xCC; 0xDD])])
            (Some "t") (Some "")).
Proof.
  destruct (tooltip_read_after_set_tooltip G_LITTLE_ENDIAN None (Some "t")
              None sample_new) as [_ H].
  apply (H sample_pixbuf).
  unfold pixbuf_painted; cbn; repeat split; lia.
Defined.

(** [status_notifier_item_new_from_icon_name] gives an item with the id
    and the category given, the name policy -1, the status PASSIVE, the
    state NOT_REGISTERED and the name as its main icon; nothing is sent on
    the bus, and the DBus properties read accordingly. *)
Theorem new_item_from_icon_name
    (order : byte_order) (id : option string) (category : StatusNotifierCategory)
    (icon_name : option string) (u : Z) (h : positive) (e : Env) :
  let m := status_notifier_item_new_from_icon_name id category icon_name in
  let s0 := mkSt priv_zero u h e in
  priv (run m s0)
  = assign_icon_cell STATUS_NOTIFIER_ICON (mkIcon false (U_icon_name icon_name))
      (priv_new id category (-1))
  /\ wire_signals (trace m s0) = []
  /\ get_prop order (priv (run m s0)) "Id" = Some (Variant_s id)
  /\ get_prop order (priv (run m s0)) "Category"
     = Some (Variant_s (Some (s_category category)))
  /\ get_prop order (priv (run m s0)) "Status" = Some (Variant_s (Some "Passive"))
  /\ get_prop order (priv (run m s0)) "IconName"
     = Some (Variant_s (or_empty icon_name))
  /\ get_prop order (priv (run m s0)) "IconPixmap" = Some (Variant_a_iiay None).
Proof.
  intros m s0. subst m s0. repeat split.
Qed.

(** [status_notifier_item_new_from_pixbuf] gives the same item with the
    bitmap as its main icon: [IconName] reads empty and [IconPixmap] reads
    the one pixmap of the bitmap. *)
Theorem new_item_from_pixbuf
    (order : byte_order) (id : option string) (category : StatusNotifierCategory)
    (pixbuf : GdkPixbuf) (u : Z) (h : positive) (e : Env) :
  pixbuf_painted pixbuf ->
  let m := status_notifier_item_new_from_pixbuf id category (Some pixbuf) in
  let s0 := mkSt priv_zero u h e in
  priv (run m s0)
  = assign_icon_cell STATUS_NOTIFIER_ICON (mkIcon true (U_pixbuf (Some pixbuf)))
      (priv_new id category (-1))
  /\ wire_signals (trace m s0) = []
  /\ get_prop order (priv (run m s0)) "IconName" = Some (Variant_s (Some ""))
  /\ get_prop order (priv (run m s0)) "IconPixmap"
     = Some (Variant_a_iiay
               (Some [(pixbuf_width pixbuf, pixbuf_height pixbuf,
                       flat_map big_endian_bytes (pixbuf_argb pixbuf))])).
Proof.
  intros Hp m s0. subst m s0.
  split; [reflexivity |]. split; [reflexivity |]. split; [reflexivity |].
  unfold get_prop. cbn [String.eqb Ascii.eqb Bool.eqb].
  erewrite get_builder_of_bitmap; [reflexivity | reflexivity | exact Hp].
Qed.

Lemma new_item_from_pixbuf_witness :
  get_prop G_BIG_ENDIAN
    (priv (run (status_notifier_item_new_from_pixbuf (Some "app")
                  STATUS_NOTIFIER_CATEGORY_APPLICATION_STATUS
                  (Some sample_pixbuf))
               (mkSt priv_zero 0 1%positive sample_env)))
    "IconPixmap"
  = Some (Variant_a_iiay
            (Some [(2, 1, [0x11; 0x22; 0x33; 0x44; 0xAA; 0xBB; 0xCC; 0xDD])])).
Proof.
  refine (proj2 (proj2 (proj2
            (new_item_from_pixbuf G_BIG_ENDIAN (Some "app")
               STATUS_NOTIFIER_CATEGORY_APPLICATION_STATUS sample_pixbuf
               0 1%positive sample_env _)))).
  unfold pixbuf_painted; cbn; repeat split; lia.
Defined.

Lemma word_of_big_endian_bytes (w : Z) :
  0 <= w < 2 ^ 32 ->
  words_of_big_endian (big_endian_bytes w ++ []) = [w]
  /\ Forall (fun b => 0 <= b < 256) (big_endian_bytes w).
Proof.
  intros H. unfold big_endian_bytes. cbn [app words_of_big_endian].
  unfold word_of_big_endian.
  change 255 with (Z.ones 8). rewrite !Z.land_ones, !Z.shiftr_div_pow2 by lia.
  change (2 ^ 8) with 256. change (2 ^ 16) with 65536.
  change (2 ^ 24) with 16777216. change (2 ^ 32) with 4294967296 in H.
  split.
  - f_equal. Z.div_mod_to_equations. lia.
  - repeat constructor; Z.div_mod_to_equations; lia.
Qed.

Lemma words_of_big_endian_cons (w : Z) (rest : list Z) :
  words_of_big_endian (big_endian_bytes w ++ rest)
  = word_of_big_endian (Z.land (Z.shiftr w 24) 255) (Z.land (Z.shiftr w 16) 255)
      (Z.land (Z.shiftr w 8) 255) (Z.land w 255)
    :: words_of_big_endian rest.
Proof. reflexivity. Qed.

Lemma words_of_big_endian_bytes (ws : list Z) :
  Forall (fun w => 0 <= w < 2 ^ 32) ws ->
  words_of_big_endian (flat_map big_endian_bytes ws) = ws
  /\ Forall (fun b => 0 <= b < 256) (flat_map big_endian_bytes ws)
  /\ length (flat_map big_endian_bytes ws) = (4 * length ws)%nat.
Proof.
  induction 1 as [| w ws Hw _ (IH1 & IH2 & IH3)]; [repeat split; constructor |].
  destruct (word_of_big_endian_bytes w Hw) as [E F].
  cbn [flat_map]. rewrite words_of_big_endian_cons, IH1.
  split; [| split].
  - cbn in E. injection E as ->. reflexivity.
  - apply Forall_app; split; assumption.
  - rewrite length_app, IH3. cbn. lia.
Qed.

(** The pixmap of a bitmap icon decodes: the byte array holds
    4 * width * height bytes, each in 0..255, and reading it four bytes
    at a time, most significant byte first, gives back the ARGB words of
    the surface, on a host of either byte order. *)
Theorem icon_pixmap_decodes
    (order : byte_order) (p : Priv) (icon : StatusNotifierIcon)
    (pixbuf : GdkPixbuf) :
  priv_icon p icon = mkIcon true (U_pixbuf (Some pixbuf)) ->
  pixbuf_painted pixbuf ->
  Forall (fun w => 0 <= w < 2 ^ 32) (pixbuf_argb pixbuf) ->
  exists bytes,
    get_builder_for_icon_pixmap order p icon
    = Some [(pixbuf_width pixbuf, pixbuf_height pixbuf, bytes)]
    /\ Z.of_nat (length bytes) = 4 * pixbuf_width pixbuf * pixbuf_height pixbuf
    /\ Forall (fun b => 0 <= b < 256) bytes
    /\ words_of_big_endian bytes = pixbuf_argb pixbuf.
Proof.
  intros Hc Hp Hw.
  exists (flat_map big_endian_bytes (pixbuf_argb pixbuf)).
  destruct (words_of_big_endian_bytes _ Hw) as (E & F & L).
  split; [apply get_builder_of_bitmap; assumption |].
  split; [| split; assumption].
  destruct Hp as (H1 & H2 & _ & Hlen). rewrite L, Hlen.
  rewrite Nat2Z.inj_mul, Z2Nat.id by nia. lia.
Qed.

Lemma icon_pixmap_decodes_witness :
  exists bytes,
    get_builder_for_icon_pixmap G_LITTLE_ENDIAN (priv sample_with_pixbuf)
      STATUS_NOTIFIER_ICON
    = Some [(2, 1, bytes)]
    /\ Z.of_nat (length bytes) = 8
    /\ Forall (fun b => 0 <= b < 256) bytes
    /\ words_of_big_endian bytes = [0x11223344; 0xAABBCCDD].
Proof.
  apply (icon_pixmap_decodes G_LITTLE_ENDIAN (priv sample_with_pixbuf)
           STATUS_NOTIFIER_ICON sample_pixbuf eq_refl).
  - unfold pixbuf_painted; cbn; repeat split; lia.
  - cbn. repeat constructor; lia.
Defined.

(** ** The bus name of an item *)

Lemma format_u_injective (a b : Z) :
  0 <= a -> 0 <= b -> format_u a = format_u b -> a = b.
Proof.
  intros Ha Hb H. unfold format_u in H.
  assert (N.to_uint (Z.to_N a) = N.to_uint (Z.to_N b)) as Hu.
  { pose proof (DecimalString.NilEmpty.usu (N.to_uint (Z.to_N a))) as H1.
    pose proof (DecimalString.NilEmpty.usu (N.to_uint (Z.to_N b))) as H2.
    rewrite H in H1. rewrite H1 in H2. injection H2 as H2. exact H2. }
  apply DecimalN.Unsigned.to_uint_inj in Hu. lia.
Qed.

Lemma append_injective (p a b : string) :
  String.append p a = String.append p b -> a = b.
Proof.
  induction p as [| c p IH]; cbn; intros H; [exact H |].
  injection H as H. apply IH, H.
Qed.

Lemma item_bus_name_injective (pid u1 u2 : Z) :
  0 <= u1 -> 0 <= u2 -> item_bus_name pid u1 = item_bus_name pid u2 -> u1 = u2.
Proof.
  intros H1 H2 H. unfold item_bus_name in H.
  do 3 apply append_injective in H. apply format_u_injective; assumption.
Qed.

Ltac destruct_policy :=
  match goal with
  | |- context [mkPriv _ _ _ _ _ _ _ _ _ _ _ _ _ _ _ _ ?r _ _] =>
      destruct r as [| r | [r | r |]]
  end.

(** What [dbus_reg_item] asks of the bus when the item claims a name. *)
Lemma dbus_reg_item_claim (s : St) :
  result should_register_name s = true ->
  trace dbus_reg_item s
  = trace should_register_name s
    ++ [BusOwnName
          (item_bus_name (env_pid (env s)) ((uniq_id s + 1) mod 2 ^ 32))
          (Z.pos (next_handle s))]
  /\ uniq_id (run dbus_reg_item s) = (uniq_id s + 1) mod 2 ^ 32
  /\ dbus_owner_id (priv (run dbus_reg_item s)) = Z.pos (next_handle s)
  /\ bus_fields (priv (run dbus_reg_item s))
     = bus_fields (assign_dbus_owner_id (Z.pos (next_handle s)) (priv s)).
Proof.
  intros H. crush_state s.
  match goal with e : Env |- _ => destruct e as [pid flatpak ok] end.
  revert H. destruct_policy; destruct flatpak; model_cbn; intros H;
    try discriminate H; repeat split.
Qed.

(** Two items of one process that claim a name one after the other ask
    for different well-known names: the last call of each [dbus_reg_item]
    is [g_bus_own_name], and the two names differ (the counter is
    incremented modulo 2^32 before each use). *)
Theorem claimed_names_distinct (s1 s2 : St) :
  result should_register_name s1 = true ->
  result should_register_name s2 = true ->
  env_pid (env s2) = env_pid (env s1) ->
  uniq_id s2 = uniq_id (run dbus_reg_item s1) ->
  exists n1 h1 n2 h2,
    last (trace dbus_reg_item s1) = Some (BusOwnName n1 h1)
    /\ last (trace dbus_reg_item s2) = Some (BusOwnName n2 h2)
    /\ n1 <> n2 /\ h1 > 0 /\ h2 > 0.
Proof.
  intros H1 H2 Hpid Hu.
  destruct (dbus_reg_item_claim s1 H1) as (T1 & U1 & _).
  destruct (dbus_reg_item_claim s2 H2) as (T2 & _ & _).
  do 4 eexists. rewrite T1, T2, !last_snoc.
  split; [reflexivity |]. split; [reflexivity |].
  split; [| split; reflexivity].
  rewrite Hpid, Hu, U1. intros Heq.
  apply item_bus_name_injective in Heq;
    try (apply Z.mod_pos_bound; reflexivity).
  pose proof (Z.mod_pos_bound (uniq_id s1 + 1) (2 ^ 32) eq_refl) as Hb.
  remember ((uniq_id s1 + 1) mod 2 ^ 32) as u eqn:Eu. clear Eu.
  destruct (Z.eq_dec (u + 1) (2 ^ 32)) as [He | Hne].
  - rewrite He, Z.mod_same in Heq by lia. lia.
  - rewrite Z.mod_small in Heq by lia. lia.
Qed.

Lemma claimed_names_distinct_witness :
  exists n1 h1 n2 h2,
    last (trace dbus_reg_item sample_new) = Some (BusOwnName n1 h1)
    /\ last (trace dbus_reg_item (run dbus_reg_item sample_new))
       = Some (BusOwnName n2 h2)
    /\ n1 <> n2 /\ h1 > 0 /\ h2 > 0.
Proof.
  exact (claimed_names_distinct sample_new (run dbus_reg_item sample_new)
           eq_refl eq_refl eq_refl eq_refl).
Defined.

(** An item that claims no name registers its object on the connection
    of the proxy and gives the watcher the unique name of that connection:
    no name is requested, the name counter is not used, and the proxy is
    released after the call. *)
Theorem dbus_reg_item_without_name (s : St) (watcher : GDBusProxy) :
  result should_register_name s = false ->
  dbus_proxy (priv s) = Some watcher ->
  env_register_object_ok (env s) = true ->
  trace dbus_reg_item s
  = trace should_register_name s
    ++ [RegisterObject (Some (proxy_connection watcher)) ITEM_OBJECT
          (Z.pos (next_handle s));
        ProxyCall (Some watcher) "RegisterStatusNotifierItem"
          (Some (conn_unique_name (proxy_connection watcher)));
        ProxyUnref (Some watcher)]
  /\ dbus_conn (priv (run dbus_reg_item s)) = Some (proxy_connection watcher)
  /\ dbus_reg_id (priv (run dbus_reg_item s)) = Z.pos (next_handle s)
  /\ dbus_proxy (priv (run dbus_reg_item s)) = None
  /\ dbus_owner_id (priv (run dbus_reg_item s)) = dbus_owner_id (priv s)
  /\ uniq_id (run dbus_reg_item s) = uniq_id s.
Proof.
  intros H Hp Hok. crush_state s.
  match goal with e : Env |- _ => destruct e as [pid flatpak ok] end.
  cbn in Hp, Hok. subst.
  revert H. destruct_policy; destruct flatpak; model_cbn; intros H;
    try discriminate H; repeat split.
Qed.

Lemma dbus_reg_item_without_name_witness :
  trace dbus_reg_item sample_without_name
  = [RegisterObject (Some sample_conn) ITEM_OBJECT 1;
     ProxyCall (Some sample_watcher) "RegisterStatusNotifierItem"
       (Some ":1.7");
     ProxyUnref (Some sample_watcher)].
Proof.
  exact (proj1 (dbus_reg_item_without_name sample_without_name sample_watcher
                  eq_refl eq_refl eq_refl)).
Defined.

Lemma name_acquired_eq (name : option string) (s : St) :
  name_acquired name s
  = (tt,
     mkSt (assign_dbus_proxy None (priv s)) (uniq_id s) (next_handle s) (env s),
     [ProxyCall (dbus_proxy (priv s)) "RegisterStatusNotifierItem" name;
      ProxyUnref (dbus_proxy (priv s))]).
Proof. destruct s as [p u h e]. reflexivity. Qed.

Lemma bus_acquired_refused_eq (conn : option GDBusConnection) (s : St) :
  env_register_object_ok (env s) = false ->
  bus_acquired conn s
  = (tt,
     mkSt (assign_state STATUS_NOTIFIER_STATE_FAILED
             (dbus_free_priv (assign_dbus_reg_id 0 (priv s))))
          (uniq_id s) (next_handle s) (env s),
     RegisterObject conn ITEM_OBJECT 0
     :: dbus_free_trace (assign_dbus_reg_id 0 (priv s))
     ++ [Notify PROP_STATE;
         GSignalEmit SIGNAL_REGISTRATION_FAILED (ArgsError (Some GioErr))]).
Proof.
  intros Hok. destruct s as [p u h e]. cbn in Hok.
  unfold bus_acquired, mbind, M_mbind, M_bind, get_env, emit, modify_priv,
    mret, M_mret, M_ret.
  cbn [env]. rewrite Hok. cbn -[dbus_failed]. rewrite dbus_failed_eq.
  reflexivity.
Qed.

Lemma should_register_name_frame (s : St) :
  dbus_proxy (priv (run should_register_name s)) = dbus_proxy (priv s)
  /\ env (run should_register_name s) = env s.
Proof. crush_state s. model_cbn. split_ifs; split; reflexivity. Qed.

(** On the same path, when the connection refuses the object, the item
    fails and releases the proxy, and [dbus_reg_item] goes on to
    [name_acquired] all the same: the registration call is made on no
    proxy and with no name, after the signal [registration-failed]. *)
Theorem refused_object_still_calls_watcher (s : St) (watcher : GDBusProxy) :
  result should_register_name s = false ->
  dbus_proxy (priv s) = Some watcher ->
  env_register_object_ok (env s) = false ->
  state (priv (run dbus_reg_item s)) = STATUS_NOTIFIER_STATE_FAILED
  /\ dbus_released (priv (run dbus_reg_item s))
  /\ In (ProxyUnref (Some watcher)) (trace dbus_reg_item s)
  /\ exists before,
       trace dbus_reg_item s
       = before
         ++ [Notify PROP_STATE;
             GSignalEmit SIGNAL_REGISTRATION_FAILED (ArgsError (Some GioErr));
             ProxyCall None "RegisterStatusNotifierItem" None;
             ProxyUnref None].
Proof.
  intros H Hp Hok.
  destruct (should_register_name_frame s) as [Hp1 He1].
  rewrite Hp in Hp1. rewrite <- He1 in Hok.
  unfold run, trace, result in *.
  destruct (should_register_name s) as [[b s1] t1] eqn:E.
  cbn [fst snd] in *. subst b.
  unfold dbus_reg_item.
  rewrite (bind_eq _ _ _ _ _ _ E). cbn [negb].
  rewrite (bind_eq get_priv _ s1 (priv s1) s1 []) by (destruct s1; reflexivity).
  rewrite Hp1. cbn [fmap option_fmap option_map].
  rewrite (bind_eq _ _ _ _ _ _ (bus_acquired_refused_eq _ s1 Hok)).
  match goal with
  | |- context [mkSt ?p ?u ?h ?e] =>
      rewrite (bind_eq get_priv _ (mkSt p u h e) p (mkSt p u h e) [])
        by reflexivity
  end.
  rewrite name_acquired_eq. clear E He1.
  crush_state s1. cbn in Hp1. subst.
  cbn -[release_handle dbus_released].
  conjuncts.
  - reflexivity.
  - unfold dbus_released; cbn; unfold release_handle.
    repeat match goal with
    | |- context [0 <? ?x] => destruct (Z.ltb_spec 0 x)
    end; conjuncts; first [reflexivity | lia].
  - apply in_or_app; right. right. do 2 (apply in_or_app; left).
    unfold dbus_free_trace; cbn.
    do 3 (apply in_or_app; right). left; reflexivity.
  - match goal with
    | |- context [?t ++ ?r :: (?d ++ _) ++ _] => exists (t ++ r :: d)
    end.
    rewrite <- !app_assoc. reflexivity.
Qed.

Lemma refused_object_still_calls_watcher_witness :
  state (priv (run dbus_reg_item sample_without_name_refused))
  = STATUS_NOTIFIER_STATE_FAILED.
Proof.
  exact (proj1 (refused_object_still_calls_watcher
                  sample_without_name_refused sample_watcher
                  eq_refl eq_refl eq_refl)).
Defined.
